(** * Contest platform backend: contests, problems, testcases and users

    A shallow embedding of the Convex handlers of the backend
    ([contests.ts], [users.ts], the problem and testcase handlers and the
    schema) together with the properties stated about them.

    Conventions of the embedding.
    - A Convex [v.number()] is a JavaScript number, an IEEE-754 double: a
      finite value, an infinity or NaN.  A finite double is represented by
      the rational it denotes; every rational is admitted where a double
      is expected, so that what is proved for every number holds for every
      double.  Comparisons are those of IEEE 754 (false on NaN).  Products
      and quotients are rounded to binary64, to nearest with ties to even.
      Sums and differences are taken exactly.  The handlers use a
      difference as the result of a sort comparator only, and rounding
      preserves the sign of a difference of two doubles; they use a sum as
      the end of a page, where the exact sum of a whole offset and a whole
      limit and the rounded one select the same elements of an array (an
      array has fewer than [2^32] elements, and whole numbers up to [2^53]
      are doubles).  The sign of zero is not represented: a zero divisor is
      taken as [+0]; no handler divides by a zero (the division by
      [totalSubmissions] is guarded).
    - A JavaScript string is represented by its UTF-8 encoding.
    - [Date.now()] is an integer number of milliseconds.  Convex freezes the
      clock for the duration of one handler, so a handler sees one value.
    - Document identifiers ([_id], [v.id(...)]) are strings, as they are in
      JavaScript: the handlers compare them with ordinary string fields.
    - A table is the list of its documents in creation order.
    - A handler is a function from the store to an outcome and the store
      reached: when the handler throws, the second component is the store
      at the point of the [throw], so that "throws before any write" is the
      statement that this store is the initial one. *)

From Stdlib Require Import List String Ascii Bool Arith ZArith NArith Lia.
From Stdlib Require Import QArith Qround Qabs Lqa DecimalString Sorted.
From Stdlib Require Floats.
Import ListNotations.

Local Open Scope string_scope.
Local Open Scope Q_scope.

(** ** JavaScript values *)

(** *** Numbers *)

(** A number is an IEEE-754 double: a finite value, one of the two
    infinities, or NaN. *)
Inductive number :=
| Fin (value : Q)
| Infinity
| NegInfinity
| NaN.

Coercion Fin : Q >-> number.

Definition Id := string.

Definition Qlt_bool (x y : Q) : bool := negb (Qle_bool y x).

(** [x < y], [x <= y], [x > y] and [x >= y]: each of them is false as soon
    as one operand is NaN. *)
Definition ltb (x y : number) : bool :=
  match x, y with
  | Fin a, Fin b => Qlt_bool a b
  | Fin _, Infinity => true
  | NegInfinity, Fin _ => true
  | NegInfinity, Infinity => true
  | _, _ => false
  end.

Definition leb (x y : number) : bool :=
  match x, y with
  | Fin a, Fin b => Qle_bool a b
  | Fin _, Infinity => true
  | NegInfinity, Fin _ => true
  | NegInfinity, Infinity => true
  | Infinity, Infinity => true
  | NegInfinity, NegInfinity => true
  | _, _ => false
  end.

Definition gtb (x y : number) : bool := ltb y x.

Definition geb (x y : number) : bool := leb y x.

(** [x === y] on numbers: NaN is equal to nothing, itself included. *)
Definition strictEq (x y : number) : Prop :=
  match x, y with
  | Fin a, Fin b => a == b
  | Infinity, Infinity => True
  | NegInfinity, NegInfinity => True
  | _, _ => False
  end.

(** Rounding to the nearest integer, ties to the even one. *)
Definition roundHalfEven (x : Q) : Z :=
  let f := Qfloor x in
  match Qcompare (x - inject_Z f) (1 # 2) with
  | Lt => f
  | Gt => (f + 1)%Z
  | Eq => if Z.even f then f else (f + 1)%Z
  end.

(** Rounding of a real value to binary64, as the arithmetic operations of
    IEEE 754 do in the default mode (to nearest, ties to even).  Values are
    scaled by [2^1074], so that the least positive double is 1 and every
    double is a whole number; a double has 53 significant bits, so a scaled
    value with [b + 1 > 53] bits is rounded to a multiple of [2^(b - 52)];
    a result of [2^1024] or more overflows to infinity. *)
Definition doubleShift (scaled : Q) : Z :=
  Z.max (Z.log2 (Qfloor scaled) - 52) 0.

Definition roundMagnitude (x : Q) : number :=
  let scaled := x * inject_Z (2 ^ 1074) in
  let shift := doubleShift scaled in
  let m := roundHalfEven (scaled / inject_Z (2 ^ shift)) in
  if (2 ^ 2098 <=? m * 2 ^ shift)%Z then Infinity
  else Fin (Qred (Qmake (m * 2 ^ shift) (Z.to_pos (2 ^ 1074)))).

Definition opp (x : number) : number :=
  match x with
  | Fin q => Fin (- q)
  | Infinity => NegInfinity
  | NegInfinity => Infinity
  | NaN => NaN
  end.

Definition roundToDouble (x : Q) : number :=
  if Qle_bool 0 x then roundMagnitude x else opp (roundMagnitude (- x)).

(** [x + y] and [x - y]. *)
Definition add (x y : number) : number :=
  match x, y with
  | NaN, _ | _, NaN => NaN
  | Fin a, Fin b => Fin (a + b)
  | Infinity, NegInfinity | NegInfinity, Infinity => NaN
  | Infinity, _ | _, Infinity => Infinity
  | NegInfinity, _ | _, NegInfinity => NegInfinity
  end.

Definition sub (x y : number) : number := add x (opp y).

(** [x * y] and [x / y], rounded to binary64. *)
Definition timesInfinity (infinity : number) (a : Q) : number :=
  match Qcompare a 0 with
  | Eq => NaN
  | Gt => infinity
  | Lt => opp infinity
  end.

Definition mul (x y : number) : number :=
  match x, y with
  | NaN, _ | _, NaN => NaN
  | Fin a, Fin b => roundToDouble (a * b)
  | Fin a, infinity | infinity, Fin a => timesInfinity infinity a
  | Infinity, Infinity | NegInfinity, NegInfinity => Infinity
  | Infinity, NegInfinity | NegInfinity, Infinity => NegInfinity
  end.

Definition div (x y : number) : number :=
  match x, y with
  | NaN, _ | _, NaN => NaN
  | Fin a, Fin b =>
      match Qcompare b 0 with
      | Eq =>
          match Qcompare a 0 with
          | Eq => NaN
          | Gt => Infinity
          | Lt => NegInfinity
          end
      | _ => roundToDouble (a / b)
      end
  | Fin _, _ => Fin 0
  | infinity, Fin b =>
      match Qcompare b 0 with
      | Lt => opp infinity
      | _ => infinity
      end
  | _, _ => NaN
  end.

(** The number that a binary64 value of the machine holds, and the binary64
    value of a small whole number: they serve to compare the operations
    above with the arithmetic of the machine on examples. *)
Definition ofFloat (f : PrimFloat.float) : number :=
  match FloatOps.Prim2SF f with
  | SpecFloat.S754_zero _ => Fin 0
  | SpecFloat.S754_infinity false => Infinity
  | SpecFloat.S754_infinity true => NegInfinity
  | SpecFloat.S754_nan => NaN
  | SpecFloat.S754_finite negative m e =>
      let magnitude :=
        if (0 <=? e)%Z then inject_Z (Zpos m * 2 ^ e)
        else Qmake (Zpos m) (Z.to_pos (2 ^ (- e))) in
      Fin (Qred (if negative then - magnitude else magnitude))
  end.

Definition toFloat (n : Z) : PrimFloat.float :=
  PrimFloat.of_uint63 (Uint63.of_Z n).

Arguments roundToDouble _ : simpl never.
Arguments mul _ _ : simpl never.
Arguments div _ _ : simpl never.

Declare Scope number_scope.
Delimit Scope number_scope with number.
Bind Scope number_scope with number.
Notation "x < y" := (ltb x y = true) : number_scope.
Notation "x <= y" := (leb x y = true) : number_scope.
Notation "x > y" := (gtb x y = true) : number_scope.
Notation "x >= y" := (geb x y = true) : number_scope.
Notation "x == y" := (strictEq x y) : number_scope.
Notation "x + y" := (add x y) : number_scope.
Notation "x - y" := (sub x y) : number_scope.
Notation "x * y" := (mul x y) : number_scope.
Notation "x / y" := (div x y) : number_scope.
Local Open Scope number_scope.

(** Truthiness of a number: [0] and NaN are falsy. *)
Definition isTruthy (x : number) : bool :=
  match x with
  | Fin q => negb (Qeq_bool q 0)
  | NaN => false
  | _ => true
  end.

(** [Math.round(x)]: the nearest integer, ties towards plus infinity; and
    [Math.floor(x)]. *)
Definition Math_round (x : number) : number :=
  match x with
  | Fin q => Fin (inject_Z (Qfloor (q + (1 # 2))))
  | _ => x
  end.

Definition Math_floor (x : number) : number :=
  match x with
  | Fin q => Fin (inject_Z (Qfloor q))
  | _ => x
  end.

(** *** Arrays *)

(** [arr.length] as a number. *)
Definition len {A : Type} (l : list A) : number :=
  Fin (inject_Z (Z.of_nat (List.length l))).

(** [arr.includes(x)] for arrays of strings. *)
Definition includes (l : list string) (x : string) : bool :=
  existsb (String.eqb x) l.

(** [ToIntegerOrInfinity]: NaN becomes 0, a finite number is truncated
    towards zero. *)
Inductive IntegerOrInfinity :=
| Integer (k : Z)
| PlusInfinity
| MinusInfinity.

Definition ToIntegerOrInfinity (x : number) : IntegerOrInfinity :=
  match x with
  | NaN => Integer 0
  | Infinity => PlusInfinity
  | NegInfinity => MinusInfinity
  | Fin q => Integer (Z.quot (Qnum q) (Zpos (Qden q)))
  end.

(** [arr.slice(start, end)]. *)
Definition clampIndex (n : Z) (k : IntegerOrInfinity) : Z :=
  match k with
  | MinusInfinity => 0
  | PlusInfinity => n
  | Integer k => if (k <? 0)%Z then Z.max (n + k) 0 else Z.min k n
  end.

Definition slice {A : Type} (l : list A) (start stop : number) : list A :=
  let n := Z.of_nat (List.length l) in
  let k := clampIndex n (ToIntegerOrInfinity start) in
  let final := clampIndex n (ToIntegerOrInfinity stop) in
  firstn (Z.to_nat (final - k)) (skipn (Z.to_nat k) l).

(** [arr.sort(cmp)]: the sort is stable; [a] stays before a later element
    [b] unless [cmp a b > 0] (a comparator result of NaN counts as 0). *)
Fixpoint sortInsert {A : Type} (cmp : A -> A -> number) (x : A) (l : list A)
  : list A :=
  match l with
  | [] => [x]
  | y :: l' => if gtb (cmp x y) 0 then y :: sortInsert cmp x l' else x :: l
  end.

Definition sort {A : Type} (cmp : A -> A -> number) (l : list A) : list A :=
  fold_right (sortInsert cmp) [] l.

(** *** Strings *)

(** [s.trim()] removes the WhiteSpace and LineTerminator code points of
    ECMAScript from both ends: U+0009 to U+000D, U+0020, U+00A0, U+1680,
    U+2000 to U+200A, U+2028, U+2029, U+202F, U+205F, U+3000 and U+FEFF.
    They are recognised by their UTF-8 encodings, of one, two or three
    bytes. *)
Definition isByte (c : ascii) (n : nat) : bool := Nat.eqb (nat_of_ascii c) n.

Definition isSpace1 (c : ascii) : bool :=
  (9 <=? nat_of_ascii c)%nat && (nat_of_ascii c <=? 13)%nat || isByte c 32.

Definition isSpace2 (c1 c2 : ascii) : bool := isByte c1 194 && isByte c2 160.

Definition isSpace3 (c1 c2 c3 : ascii) : bool :=
  isByte c1 225 && isByte c2 154 && isByte c3 128
  || isByte c1 226 && isByte c2 128
     && ((128 <=? nat_of_ascii c3)%nat && (nat_of_ascii c3 <=? 138)%nat
         || isByte c3 168 || isByte c3 169 || isByte c3 175)
  || isByte c1 226 && isByte c2 129 && isByte c3 159
  || isByte c1 227 && isByte c2 128 && isByte c3 128
  || isByte c1 239 && isByte c2 187 && isByte c3 191.

Fixpoint trimStart (s : string) : string :=
  match s with
  | EmptyString => EmptyString
  | String c1 s1 =>
      if isSpace1 c1 then trimStart s1
      else
        match s1 with
        | String c2 s2 =>
            if isSpace2 c1 c2 then trimStart s2
            else
              match s2 with
              | String c3 s3 => if isSpace3 c1 c2 c3 then trimStart s3 else s
              | EmptyString => s
              end
        | EmptyString => s
        end
  end.

Fixpoint reverseOnto (s acc : string) : string :=
  match s with
  | EmptyString => acc
  | String c s' => reverseOnto s' (String c acc)
  end.

(** [trimStart] on a string read from its end: the bytes of a code point
    come last byte first. *)
Fixpoint trimReversed (s : string) : string :=
  match s with
  | EmptyString => EmptyString
  | String c1 s1 =>
      if isSpace1 c1 then trimReversed s1
      else
        match s1 with
        | String c2 s2 =>
            if isSpace2 c2 c1 then trimReversed s2
            else
              match s2 with
              | String c3 s3 => if isSpace3 c3 c2 c1 then trimReversed s3 else s
              | EmptyString => s
              end
        | EmptyString => s
        end
  end.

Definition trimEnd (s : string) : string :=
  reverseOnto (trimReversed (reverseOnto s EmptyString)) EmptyString.

Definition trim (s : string) : string := trimEnd (trimStart s).

(** Rendering of an integer inside a template literal. *)
Definition showInteger (z : Z) : string :=
  NilZero.string_of_int (Z.to_int z).

(** Rendering of the result of [Math.floor] inside a template literal (a
    whole number is rendered by its digits when it is below [10^21]). *)
Definition showNumber (x : number) : string :=
  match x with
  | Fin q => showInteger (Qfloor q)
  | Infinity => "Infinity"
  | NegInfinity => "-Infinity"
  | NaN => "NaN"
  end.

(** ** Documents (schema) *)

Inductive Role := USER | ADMIN.

Definition Role_eqb (a b : Role) : bool :=
  match a, b with
  | USER, USER | ADMIN, ADMIN => true
  | _, _ => false
  end.

Inductive Difficulty := EASY | MEDIUM | HARD.

(** The tables of the schema.  In [users], [password] and [updatedAt] are
    optional fields here although the schema declares them required: the
    documents that [syncUser] builds carry neither. *)
Record User := mkUser {
  u__id : Id;
  u_userId : string;
  u_username : string;
  u_email : string;
  u_password : option string;
  u_avatar : option string;
  u_name : option string;
  u_isVerified : bool;
  u_role : Role;
  u_updatedAt : option number;
  u_createdProblems : list Id;
  u_solvedProblems : list Id;
  u_createdContests : list Id;
  u_participatedContests : list Id
}.

Record Problem := mkProblem {
  p__id : Id;
  p_problemId : string;
  p_title : string;
  p_description : string;
  p_creatorId : Id;
  p_testcases : list Id;
  p_contests : list Id;
  p_submissions : list Id;
  p_updatedAt : number;
  p_timeLimit : number;
  p_memoryLimit : number;
  p_difficulty : option Difficulty;
  p_tags : option (list string);
  p_sampleInput : option string;
  p_sampleOutput : option string
}.

Record ProblemStats := mkProblemStats {
  ps__id : Id;
  ps_problemId : Id;
  ps_totalSubmissions : number;
  ps_acceptedSubmissions : number;
  ps_acceptanceRate : number
}.

Record Testcase := mkTestcase {
  t__id : Id;
  t_testcaseId : string;
  t_input : string;
  t_output : string;
  t_isPublic : bool;
  t_problemId : Id
}.

Record ContestProblem := mkContestProblem {
  cp__id : Id;
  cp_contestProblemId : string;
  cp_contestId : Id;
  cp_problemId : Id;
  cp_order : number;
  cp_points : number
}.

Record Contest := mkContest {
  c__id : Id;
  c_contestId : string;
  c_name : string;
  c_description : string;
  c_creatorId : Id;
  c_startTime : number;
  c_endTime : number;
  c_isPublic : bool;
  c_maxSize : number;
  c_problems : list Id;
  c_users : list Id;
  c_updatedAt : number
}.

Record ContestSubmission := mkContestSubmission {
  cs__id : Id;
  cs_contestSubmissionId : string;
  cs_contestId : Id;
  cs_userId : Id;
  cs_problemId : Id;
  cs_submissionId : Id;
  cs_points : number;
  cs_penalty : number;
  cs_submissionTime : number
}.

(** ** The store *)

Record DB := mkDB {
  users : list User;
  problems : list Problem;
  problemStats : list ProblemStats;
  testcases : list Testcase;
  contestProblems : list ContestProblem;
  contests : list Contest;
  contestSubmissions : list ContestSubmission
}.

Definition emptyDB : DB := mkDB [] [] [] [] [] [] [].

(** ** Handlers: state and exceptions *)

Inductive outcome (A : Type) : Type :=
| Return (a : A)
| Throw (message : string).
Arguments Return {A} a.
Arguments Throw {A} message.

Definition Handler (A : Type) : Type := DB -> outcome A * DB.

Definition ret {A : Type} (a : A) : Handler A := fun d => (Return a, d).

Definition throw {A : Type} (message : string) : Handler A :=
  fun d => (Throw message, d).

Definition bind {A B : Type} (m : Handler A) (k : A -> Handler B) : Handler B :=
  fun d =>
    match m d with
    | (Return a, d') => k a d'
    | (Throw e, d') => (Throw e, d')
    end.

Definition read {A : Type} (f : DB -> A) : Handler A := fun d => (Return (f d), d).

Definition write (f : DB -> DB) : Handler unit := fun d => (Return tt, f d).

Declare Scope handler_scope.
Delimit Scope handler_scope with handler.
Notation "x <- m ;; k" := (bind m (fun x => k))
  (at level 61, m at next level, right associativity) : handler_scope.
Notation "m ;;; k" := (bind m (fun _ => k))
  (at level 61, right associativity) : handler_scope.
Local Open Scope handler_scope.

(** [for (const x of xs) { await body(x) }] *)
Fixpoint forEach {A : Type} (xs : list A) (body : A -> Handler unit)
  : Handler unit :=
  match xs with
  | [] => ret tt
  | x :: xs' => body x ;;; forEach xs' body
  end.

(** [await Promise.all(xs.map(f))] for handlers that are awaited in order. *)
Fixpoint mapM {A B : Type} (f : A -> Handler B) (xs : list A)
  : Handler (list B) :=
  match xs with
  | [] => ret []
  | x :: xs' => y <- f x ;; ys <- mapM f xs' ;; ret (y :: ys)
  end.

(** The request context: the authenticated principal as [requireAuth]
    resolves it, the frozen clock, the value of [Math.random()] and its
    rendering [Math.random().toString(36)], and the identifier the store
    assigns to the document this request inserts. *)
Record Ctx := mkCtx {
  ctx_requireAuth : DB -> outcome (option User);
  ctx_now : Z;
  ctx_random : number;
  ctx_random36 : string;
  ctx_newId : Id
}.

(** [requireAuth] is imported from [./users] by the handlers; its body is
    not part of the sources, so its result is a parameter of the context:
    it may throw, or resolve to [{ user }] with [user] possibly [null].
    Queries call it as well as mutations, so it reads the store and does
    not write it. *)
Definition requireAuth (ctx : Ctx) : Handler (option User) :=
  fun d => (ctx_requireAuth ctx d, d).

Definition Date_now (ctx : Ctx) : number := inject_Z (ctx_now ctx).

(** [s.substring(a, b)] and [s.substr(a, n)] for [0 <= a <= b]. *)
Definition substring (s : string) (a b : nat) : string := String.substring a (b - a) s.

(** ** Store primitives *)

(** [.first()] of a filtered query. *)
Definition first {A : Type} (f : A -> bool) (l : list A) : option A := find f l.

(** [.unique()] of a filtered query: [null] when nothing matches, the
    document when one does, and an exception otherwise. *)
Definition unique {A : Type} (f : A -> bool) (l : list A) : Handler (option A) :=
  match filter f l with
  | [] => ret None
  | [x] => ret (Some x)
  | _ => throw "unique() query returned more than one result"
  end.

(** [ctx.db.get(id)] in each table. *)
Definition getUserDoc (id : Id) : Handler (option User) :=
  read (fun d => find (fun u => String.eqb (u__id u) id) (users d)).

Definition getProblemDoc (id : Id) : Handler (option Problem) :=
  read (fun d => find (fun p => String.eqb (p__id p) id) (problems d)).

Definition getTestcaseDoc (id : Id) : Handler (option Testcase) :=
  read (fun d => find (fun t => String.eqb (t__id t) id) (testcases d)).

Definition getContestProblemDoc (id : Id) : Handler (option ContestProblem) :=
  read (fun d => find (fun cp => String.eqb (cp__id cp) id) (contestProblems d)).

Definition setUsers (us : list User) (d : DB) : DB :=
  mkDB us (problems d) (problemStats d) (testcases d) (contestProblems d)
       (contests d) (contestSubmissions d).

Definition setContests (cs : list Contest) (d : DB) : DB :=
  mkDB (users d) (problems d) (problemStats d) (testcases d) (contestProblems d)
       cs (contestSubmissions d).

Definition setContestProblems (cps : list ContestProblem) (d : DB) : DB :=
  mkDB (users d) (problems d) (problemStats d) (testcases d) cps
       (contests d) (contestSubmissions d).

(** [ctx.db.insert(table, doc)]: the document is appended to its table.
    The store takes the document as the handler built it: the check of an
    inserted document against the table's declaration in the schema (for
    [users], the fields [password] and [updatedAt], which [syncUser] does
    not set) is not part of these definitions.  The properties below that
    are about [syncUser] rest on its test for an existing user, not on what
    it inserts. *)
Definition insertUser (u : User) : Handler Id :=
  write (fun d => setUsers (users d ++ [u]) d) ;;; ret (u__id u).

Definition insertContest (c : Contest) : Handler Id :=
  write (fun d => setContests (contests d ++ [c]) d) ;;; ret (c__id c).

(** [ctx.db.patch(id, fields)]: throws when the document does not exist. *)
Definition patchIn {A : Type} (key : A -> Id) (id : Id) (f : A -> A) (l : list A)
  : list A :=
  map (fun x => if String.eqb (key x) id then f x else x) l.

Definition patchUser (id : Id) (f : User -> User) : Handler unit :=
  fun d =>
    if existsb (fun u => String.eqb (u__id u) id) (users d)
    then (Return tt, setUsers (patchIn u__id id f (users d)) d)
    else (Throw "patch: document not found", d).

Definition patchContest (id : Id) (f : Contest -> Contest) : Handler unit :=
  fun d =>
    if existsb (fun c => String.eqb (c__id c) id) (contests d)
    then (Return tt, setContests (patchIn c__id id f (contests d)) d)
    else (Throw "patch: document not found", d).

(** [ctx.db.delete(id)], on documents that were just read. *)
Definition deleteContestProblemDoc (id : Id) : Handler unit :=
  write (fun d =>
    setContestProblems
      (filter (fun cp => negb (String.eqb (cp__id cp) id)) (contestProblems d)) d).

Definition deleteContestDoc (id : Id) : Handler unit :=
  write (fun d =>
    setContests (filter (fun c => negb (String.eqb (c__id c) id)) (contests d)) d).

(** Field updates ([{ ...doc, field: value }]). *)
Definition withContestLists (createdContests participatedContests : list Id)
  (u : User) : User :=
  mkUser (u__id u) (u_userId u) (u_username u) (u_email u) (u_password u)
         (u_avatar u) (u_name u) (u_isVerified u) (u_role u) (u_updatedAt u)
         (u_createdProblems u) (u_solvedProblems u)
         createdContests participatedContests.

Definition withParticipated (participatedContests : list Id) (u : User) : User :=
  withContestLists (u_createdContests u) participatedContests u.

Definition withUsers (us : list Id) (updatedAt : number) (c : Contest) : Contest :=
  mkContest (c__id c) (c_contestId c) (c_name c) (c_description c)
            (c_creatorId c) (c_startTime c) (c_endTime c) (c_isPublic c)
            (c_maxSize c) (c_problems c) us updatedAt.

(** ** contests.ts *)

Record CreateContestArgs := mkCreateContestArgs {
  cc_name : string;
  cc_description : string;
  cc_startTime : number;
  cc_endTime : number;
  cc_isPublic : bool;
  cc_maxSize : number;
  cc_addSelf : bool
}.

Definition createContest (ctx : Ctx) (args : CreateContestArgs)
  : Handler (string * Id) :=
  user <- requireAuth ctx ;;
  match user with
  | None => throw "User not found!"
  | Some user =>
    let now := Date_now ctx in
    if ltb (cc_startTime args) now then
      throw "Contest startTime cannot be in the past"
    else if leb (cc_endTime args) (cc_startTime args) then
      throw "Contest end time must be after start time"
    else if leb (cc_maxSize args) 0 then
      throw "Max size must be positive"
    else
      let contestId :=
        "contest_" ++ showInteger (ctx_now ctx) ++ "_"
                   ++ substring (ctx_random36 ctx) 2 9 in
      contestDocId <- insertContest
        (mkContest (ctx_newId ctx) contestId
                   (trim (cc_name args)) (trim (cc_description args))
                   (u__id user) (cc_startTime args) (cc_endTime args)
                   (cc_isPublic args) (cc_maxSize args)
                   []
                   (if cc_addSelf args then [u__id user] else [])
                   (Date_now ctx)) ;;
      patchUser (u__id user)
        (withContestLists
           (u_createdContests user ++ [contestDocId])
           (if cc_addSelf args then
              (if includes (u_participatedContests user) contestDocId
               then u_participatedContests user
               else u_participatedContests user ++ [contestDocId])
            else u_participatedContests user)) ;;;
      ret ("Contest created successfully!", contestDocId)
  end.

Inductive ContestFilter :=
| F_all | F_public | F_my_created | F_my_participated
| F_upcoming | F_ongoing | F_ended.

Record ListContestsArgs := mkListContestsArgs {
  lc_filter : option ContestFilter;
  lc_limit : option number;
  lc_offset : option number
}.

(** [x || dflt] on an optional number: [undefined], [0] and NaN are falsy. *)
Definition orNumber (x : option number) (dflt : number) : number :=
  match x with
  | None => dflt
  | Some v => if isTruthy v then v else dflt
  end.

(** The status computed for the contest card and the contest page. *)
Definition contestStatus (now : number) (contest : Contest) : string :=
  let status := "upcoming" in
  let status :=
    if geb now (c_startTime contest) && ltb now (c_endTime contest)
    then "ongoing" else status in
  let status :=
    if geb now (c_endTime contest) then "ended" else status in
  status.

Record Creator := mkCreator {
  cr_name : option string;
  cr_username : string
}.

Definition lookupCreator (creatorId : Id) : Handler (option Creator) :=
  read (fun d =>
    match first (fun u => String.eqb (u_userId u) creatorId) (users d) with
    | Some creator => Some (mkCreator (u_name creator) (u_username creator))
    | None => None
    end).

Record ContestWithMeta := mkContestWithMeta {
  cm_contest : Contest;
  cm_status : string;
  cm_participantCount : number;
  cm_problemCount : number;
  cm_creator : option Creator
}.

Record ListContestsResult := mkListContestsResult {
  lr_contests : list ContestWithMeta;
  lr_total : number;
  lr_hasMore : bool
}.

(** The selection made by each [case] of the [switch].  The comparisons
    [q.gt], [q.lt] and [q.lte] of a query filter are taken to be [>], [<]
    and [<=]. *)
Definition selectContests (filter : ContestFilter) (user : option User)
  (now : number) : Handler (list Contest) :=
  match filter with
  | F_all =>
      match user with
      | None => throw "Must be authenticated!"
      | Some _ => read contests
      end
  | F_public => read (fun d => List.filter c_isPublic (contests d))
  | F_my_created =>
      match user with
      | None => throw "Must be authenticated"
      | Some user =>
          read (fun d =>
            List.filter (fun c => String.eqb (c_creatorId c) (u_userId user))
                        (contests d))
      end
  | F_my_participated =>
      match user with
      | None => throw "Must be authenticated"
      | Some user =>
          read (fun d =>
            List.filter (fun c => includes (c_users c) (u_userId user))
                        (contests d))
      end
  | F_upcoming =>
      read (fun d =>
        List.filter (fun c => c_isPublic c && gtb (c_startTime c) now)
                    (contests d))
  | F_ongoing =>
      read (fun d =>
        List.filter (fun c => c_isPublic c && leb (c_startTime c) now
                              && gtb (c_endTime c) now)
                    (contests d))
  | F_ended =>
      read (fun d =>
        List.filter (fun c => c_isPublic c && ltb (c_endTime c) now)
                    (contests d))
  end.

Definition withMeta (now : number) (contest : Contest) : Handler ContestWithMeta :=
  let status := contestStatus now contest in
  creator <- lookupCreator (c_creatorId contest) ;;
  ret (mkContestWithMeta contest status (len (c_users contest))
                         (len (c_problems contest)) creator).

Definition listContests (ctx : Ctx) (args : ListContestsArgs)
  : Handler ListContestsResult :=
  user <- requireAuth ctx ;;
  let filter := match lc_filter args with Some f => f | None => F_public end in
  let limit := orNumber (lc_limit args) 20 in
  let offset := orNumber (lc_offset args) 0 in
  let now := Date_now ctx in
  contests <- selectContests filter user now ;;
  let contests :=
    sort (fun a b =>
            match filter with
            | F_upcoming => c_startTime a - c_startTime b
            | _ => c_startTime b - c_startTime a
            end) contests in
  let paginatedContests := slice contests offset (offset + limit) in
  contestsWithMeta <- mapM (withMeta now) paginatedContests ;;
  ret (mkListContestsResult contestsWithMeta (len contests)
                            (ltb (offset + limit) (len contests))).

(** [user && e]: [null] when there is no user. *)
Definition andUser (user : option User) (e : User -> bool) : option bool :=
  match user with
  | None => None
  | Some u => Some (e u)
  end.

(** Truthiness of a value that is [null] or a boolean. *)
Definition truthy (b : option bool) : bool :=
  match b with
  | Some true => true
  | _ => false
  end.

Record ProblemSummary := mkProblemSummary {
  sm__id : Id;
  sm_problemId : string;
  sm_title : string;
  sm_difficulty : option Difficulty;
  sm_tags : option (list string);
  sm_sampleInput : option string;
  sm_sampleOuput : option string;
  sm_order : number
}.

Record ContestProblemData := mkContestProblemData {
  cpd_contestProblem : ContestProblem;
  cpd_problem : option ProblemSummary
}.

Record ContestDetails := mkContestDetails {
  cd_contest : Contest;
  cd_status : string;
  cd_creator : option Creator;
  cd_contestProblems : list ContestProblemData;
  cd_participantCount : number;
  cd_canJoin : option bool;
  cd_isCreator : option bool;
  cd_isParticipant : option bool
}.

Definition contestProblemData (cpId : Id) (idx : nat)
  : Handler (option ContestProblemData) :=
  cp <- getContestProblemDoc cpId ;;
  match cp with
  | Some cp =>
      problem <- getProblemDoc (cp_problemId cp) ;;
      ret (Some (mkContestProblemData cp
        (match problem with
         | Some problem =>
             Some (mkProblemSummary (p__id problem) (p_problemId problem)
                     (p_title problem) (p_difficulty problem) (p_tags problem)
                     (p_sampleInput problem) (p_sampleOutput problem)
                     (inject_Z (Z.of_nat idx + 1)))
         | None => None
         end)))
  | None => ret None
  end.

(** [arr.map(async (x, idx) => ...)] *)
Fixpoint mapMi {A B : Type} (f : A -> nat -> Handler B) (xs : list A) (idx : nat)
  : Handler (list B) :=
  match xs with
  | [] => ret []
  | x :: xs' => y <- f x idx ;; ys <- mapMi f xs' (S idx) ;; ret (y :: ys)
  end.

(** [arr.filter(Boolean)] on values that are [null] or an object. *)
Fixpoint filterBoolean {A : Type} (l : list (option A)) : list A :=
  match l with
  | [] => []
  | Some x :: l' => x :: filterBoolean l'
  | None :: l' => filterBoolean l'
  end.

Definition getContestDetails (ctx : Ctx) (contestId : string)
  : Handler ContestDetails :=
  user <- requireAuth ctx ;;
  contest <- read (fun d =>
    first (fun c => String.eqb (c_contestId c) contestId) (contests d)) ;;
  match contest with
  | None => throw "Contest not found!"
  | Some contest =>
    let isCreator :=
      andUser user (fun u => String.eqb (c_creatorId contest) (u_userId u)) in
    let isParticipant :=
      andUser user (fun u => includes (c_users contest) (u_userId u)) in
    if negb (c_isPublic contest) && negb (truthy isCreator)
       && negb (truthy isParticipant)
    then throw "Access Denied!"
    else
      let now := Date_now ctx in
      let status := contestStatus now contest in
      creator <- lookupCreator (c_creatorId contest) ;;
      contestProblemsData <- mapMi contestProblemData (c_problems contest) 0 ;;
      let validContestProblems :=
        sort (fun a b => cp_order (cpd_contestProblem a)
                         - cp_order (cpd_contestProblem b))
             (filterBoolean contestProblemsData) in
      ret (mkContestDetails contest status creator validContestProblems
             (len (c_users contest))
             (andUser user (fun _ =>
                negb (truthy isParticipant)
                && ltb (len (c_users contest)) (c_maxSize contest)))
             isCreator isParticipant)
  end.

Record UpdateContestArgs := mkUpdateContestArgs {
  uc_contestId : string;
  uc_name : option string;
  uc_description : option string;
  uc_startTime : option number;
  uc_endTime : option number;
  uc_isPublic : option bool;
  uc_maxSize : option number
}.

Definition isSome {A : Type} (x : option A) : bool :=
  match x with Some _ => true | None => false end.

(** [x ?? dflt] *)
Definition orElse {A : Type} (x : option A) (dflt : A) : A :=
  match x with Some v => v | None => dflt end.

(** [ctx.db.patch(contest._id, updateData)] for the [updateData] object
    that [updateContest] builds. *)
Definition applyUpdate (args : UpdateContestArgs) (updatedAt : number)
  (c : Contest) : Contest :=
  mkContest (c__id c) (c_contestId c)
            (match uc_name args with Some n => trim n | None => c_name c end)
            (match uc_description args with
             | Some s => trim s | None => c_description c end)
            (c_creatorId c)
            (orElse (uc_startTime args) (c_startTime c))
            (orElse (uc_endTime args) (c_endTime c))
            (orElse (uc_isPublic args) (c_isPublic c))
            (orElse (uc_maxSize args) (c_maxSize c))
            (c_problems c) (c_users c) updatedAt.

Definition updateContest (ctx : Ctx) (args : UpdateContestArgs)
  : Handler string :=
  user <- requireAuth ctx ;;
  match user with
  | None => throw "User not found!"
  | Some user =>
    contest <- read (fun d =>
      first (fun c => String.eqb (c_contestId c) (uc_contestId args))
            (contests d)) ;;
    match contest with
    | None => throw "Contest not found!"
    | Some contest =>
      let isCreator := String.eqb (c_creatorId contest) (u__id user) in
      let isAdmin := Role_eqb (u_role user) ADMIN in
      if negb isCreator && negb isAdmin then
        throw "Only contest creator or admin can update contest"
      else
        let now := Date_now ctx in
        let hasStarted := geb now (c_startTime contest) in
        if hasStarted
           && (isSome (uc_name args) || isSome (uc_startTime args)
               || isSome (uc_endTime args) || isSome (uc_isPublic args)
               || isSome (uc_maxSize args))
        then throw "Can only update description for contests that have started"
        else
          let newStartTime := orElse (uc_startTime args) (c_startTime contest) in
          let newEndTime := orElse (uc_endTime args) (c_endTime contest) in
          if (isSome (uc_startTime args) || isSome (uc_endTime args))
             && negb hasStarted && ltb newStartTime now
          then throw "Contest start time cannot be in the past"
          else if (isSome (uc_startTime args) || isSome (uc_endTime args))
                  && leb newEndTime newStartTime
          then throw "Contest end time must be after start time"
          else
            match uc_maxSize args with
            | Some maxSize =>
                if leb maxSize 0 then throw "Max size must be positive"
                else if ltb maxSize (len (c_users contest)) then
                  throw "Max size cannot be less than current participant count"
                else
                  patchContest (c__id contest) (applyUpdate args (Date_now ctx)) ;;;
                  ret "Contest has been updated successfully!"
            | None =>
                patchContest (c__id contest) (applyUpdate args (Date_now ctx)) ;;;
                ret "Contest has been updated successfully!"
            end
    end
  end.

Definition removeId (id : Id) (l : list Id) : list Id :=
  filter (fun x => negb (String.eqb x id)) l.

Definition deleteContest (ctx : Ctx) (contestId : string)
  : Handler (string * bool) :=
  user <- requireAuth ctx ;;
  match user with
  | None => throw "User not found"
  | Some user =>
    table <- read contests ;;
    contest <- unique (fun c => String.eqb (c_contestId c) contestId) table ;;
    match contest with
    | None => throw "Contest not found"
    | Some contest =>
      let isCreator := String.eqb (c_creatorId contest) (u__id user) in
      let isAdmin := Role_eqb (u_role user) ADMIN in
      if negb isCreator && negb isAdmin then
        throw "Only contest creator or admin can delete contest"
      else
        hasSubmissions <- read (fun d =>
          first (fun s => String.eqb (cs_contestId s) (c__id contest))
                (contestSubmissions d)) ;;
        if isSome hasSubmissions then
          throw "Cannot delete contest with existing submissions"
        else
          contestProblems <- read (fun d =>
            filter (fun cp => String.eqb (cp_contestId cp) (c__id contest))
                   (contestProblems d)) ;;
          forEach contestProblems
            (fun cp => deleteContestProblemDoc (cp__id cp)) ;;;
          participants <- mapM getUserDoc (c_users contest) ;;
          forEach participants
            (fun participant =>
               match participant with
               | Some participant =>
                   patchUser (u__id participant)
                     (withContestLists
                        (removeId (c__id contest) (u_createdContests participant))
                        (removeId (c__id contest)
                                  (u_participatedContests participant)))
               | None => ret tt
               end) ;;;
          deleteContestDoc (c__id contest) ;;;
          ret ("Contest deleted successfully", true)
    end
  end.

Definition joinContest (ctx : Ctx) (contestId : string)
  : Handler (string * bool) :=
  user <- requireAuth ctx ;;
  match user with
  | None => throw "User not found"
  | Some user =>
    table <- read contests ;;
    contest <- unique (fun c => String.eqb (c_contestId c) contestId) table ;;
    match contest with
    | None => throw "Contest not found"
    | Some contest =>
      if negb (c_isPublic contest) then throw "Contest is private"
      else if includes (c_users contest) (u__id user) then
        throw "Already joined this contest"
      else if geb (len (c_users contest)) (c_maxSize contest) then
        throw "Contest is full"
      else if gtb (Date_now ctx) (c_endTime contest) then
        throw "Contest has ended"
      else
        patchContest (c__id contest)
          (withUsers (c_users contest ++ [u__id user]) (Date_now ctx)) ;;;
        patchUser (u__id user)
          (withParticipated (u_participatedContests user ++ [c__id contest])) ;;;
        ret ("Joined contest: " ++ c_name contest ++ " successfully", true)
    end
  end.

Definition leaveContest (ctx : Ctx) (contestId : string)
  : Handler (string * bool) :=
  user <- requireAuth ctx ;;
  match user with
  | None => throw "User not found"
  | Some user =>
    table <- read contests ;;
    contest <- unique (fun c => String.eqb (c_contestId c) contestId) table ;;
    match contest with
    | None => throw "Contest not found"
    | Some contest =>
      if negb (includes (c_users contest) (u__id user)) then
        throw "Not participating in this contest"
      else if geb (Date_now ctx) (c_startTime contest) then
        throw "Cannot leave contest after it has started"
      else
        patchContest (c__id contest)
          (withUsers (removeId (u__id user) (c_users contest)) (Date_now ctx)) ;;;
        patchUser (u__id user)
          (withParticipated
             (removeId (c__id contest) (u_participatedContests user))) ;;;
        ret ("Successfully left the contest", true)
    end
  end.

(** ** users.ts *)

Record SyncUserArgs := mkSyncUserArgs {
  su_userId : string;
  su_email : string;
  su_name : string
}.

(** [syncUser]: the document for a fresh [userId] is written as the handler
    builds it (see [insertUser]). *)
Definition syncUser (ctx : Ctx) (args : SyncUserArgs) : Handler unit :=
  existingUser <- read (fun d =>
    first (fun u => String.eqb (u_userId u) (su_userId args)) (users d)) ;;
  let randomNumber := Math_floor (100000 + ctx_random ctx * 900000) in
  let username := su_name args ++ "_" ++ showNumber randomNumber in
  match existingUser with
  | None =>
      insertUser
        (mkUser (ctx_newId ctx) (su_userId args) username (su_email args)
                None None (Some (su_name args)) false USER None
                [] [] [] []) ;;;
      ret tt
  | Some _ => ret tt
  end.

(** ** Problem and testcase handlers *)

Record GetProblemTestCasesArgs := mkGetProblemTestCasesArgs {
  tc_problemId : string;
  tc_publicOnly : option bool
}.

(** [!args.publicOnly] *)
Definition notPublicOnly (publicOnly : option bool) : bool :=
  match publicOnly with
  | Some true => false
  | _ => true
  end.

(** [args.publicOnly === false] *)
Definition publicOnlyIsFalse (publicOnly : option bool) : bool :=
  match publicOnly with
  | Some false => true
  | _ => false
  end.

(** The loop that collects the testcases of a problem that pass [keep]. *)
Fixpoint collectTestcases (keep : Testcase -> bool) (ids : list Id)
  : Handler (list Testcase) :=
  match ids with
  | [] => ret []
  | testcaseId :: ids' =>
      testcase <- getTestcaseDoc testcaseId ;;
      rest <- collectTestcases keep ids' ;;
      match testcase with
      | Some testcase =>
          if keep testcase then ret (testcase :: rest) else ret rest
      | None => ret rest
      end
  end.

Definition getProblemTestCases (ctx : Ctx) (args : GetProblemTestCasesArgs)
  : Handler (list Testcase) :=
  problem <- read (fun d =>
    first (fun p => String.eqb (p_problemId p) (tc_problemId args))
          (problems d)) ;;
  match problem with
  | None => throw "Problem not found"
  | Some problem =>
    canSeeAll <-
      (if notPublicOnly (tc_publicOnly args) then
         user <- requireAuth ctx ;;
         match user with
         | None => throw "TypeError: Cannot read properties of null"
         | Some user =>
             ret (String.eqb (p_creatorId problem) (u__id user)
                  || Role_eqb (u_role user) ADMIN)
         end
       else ret false) ;;
    collectTestcases
      (fun testcase =>
         canSeeAll || publicOnlyIsFalse (tc_publicOnly args)
         || t_isPublic testcase)
      (p_testcases problem)
  end.

Record ProblemView := mkProblemView {
  pv_problem : Problem;
  pv_creator : option Creator;
  pv_testcases : list Testcase
}.

Definition getProblem (problemId : string) : Handler ProblemView :=
  problem <- read (fun d =>
    first (fun p => String.eqb (p_problemId p) problemId) (problems d)) ;;
  match problem with
  | None => throw "Problem not found"
  | Some problem =>
    creator <- getUserDoc (p_creatorId problem) ;;
    publicTestcases <- collectTestcases t_isPublic (p_testcases problem) ;;
    ret (mkProblemView problem
           (match creator with
            | Some creator => Some (mkCreator (u_name creator) (u_username creator))
            | None => None
            end)
           publicTestcases)
  end.

Record Stats := mkStats {
  st_totalSubmissions : number;
  st_acceptedSubmissions : number;
  st_acceptanceRate : number;
  st_difficulty : option Difficulty
}.

Inductive StatsResult :=
| NoStats (message : string)
| HasStats (stats : Stats).

Definition acceptanceRate (totalSubmissions acceptedSubmissions : number)
  : number :=
  if gtb totalSubmissions 0
  then (acceptedSubmissions / totalSubmissions) * 100
  else 0.

Definition getProblemStats (problemId : string) : Handler StatsResult :=
  problem <- read (fun d =>
    first (fun p => String.eqb (p_problemId p) problemId) (problems d)) ;;
  match problem with
  | None => throw "Problem not found"
  | Some problem =>
    stats <- read (fun d =>
      first (fun s => String.eqb (ps_problemId s) (p__id problem))
            (problemStats d)) ;;
    match stats with
    | None => ret (NoStats "No stats availble for the specific problem!")
    | Some stats =>
      let totalSubmissions := ps_totalSubmissions stats in
      let acceptedSubmissions := ps_acceptedSubmissions stats in
      let acceptanceRate := acceptanceRate totalSubmissions acceptedSubmissions in
      ret (HasStats (mkStats totalSubmissions acceptedSubmissions
                             (Math_round (acceptanceRate * 100) / 100)
                             (p_difficulty problem)))
    end
  end.

(** ** Verdict aggregation *)

(** The verdicts of the [submissions] table. *)
Inductive Verdict :=
| ACCEPTED
| WRONG_ANSWER
| TIME_LIMIT_EXCEEDED
| MEMORY_LIMIT_EXCEEDED
| COMPILATION_ERROR
| RUNTIME_ERROR.

(** The terminal outcome of one execution, after classification. *)
Inductive ExecutionOutcome :=
| COMPILE_FAILURE
| PASS
| FAIL_WRONG_ANSWER
| FAIL_TIME_LIMIT_EXCEEDED
| FAIL_MEMORY_LIMIT_EXCEEDED
| FAIL_RUNTIME_ERROR.

Definition isCompileFailure (o : ExecutionOutcome) : bool :=
  match o with COMPILE_FAILURE => true | _ => false end.

Definition isPass (o : ExecutionOutcome) : bool :=
  match o with PASS => true | _ => false end.

Definition verdictLabel (o : ExecutionOutcome) : Verdict :=
  match o with
  | COMPILE_FAILURE => COMPILATION_ERROR
  | PASS => ACCEPTED
  | FAIL_WRONG_ANSWER => WRONG_ANSWER
  | FAIL_TIME_LIMIT_EXCEEDED => TIME_LIMIT_EXCEEDED
  | FAIL_MEMORY_LIMIT_EXCEEDED => MEMORY_LIMIT_EXCEEDED
  | FAIL_RUNTIME_ERROR => RUNTIME_ERROR
  end.

Record Aggregate := mkAggregate {
  ag_verdict : Verdict;
  ag_score : number;
  ag_passed : nat;
  ag_total : nat
}.

Definition firstFailing (executions : list ExecutionOutcome)
  : option ExecutionOutcome :=
  find (fun o => negb (isPass o)) executions.

(** Modelled from the spec: the VerdictAggregator of the evaluation engine
    is not part of the sources (only the [verdict], [score],
    [totalTestCases] and [passedTestCases] fields of the schema are).  The
    four steps of its algorithm are followed in order: a compile-time
    failure dominates; otherwise [passed] counts the passing executions,
    [total] is the number of executions, the score is the percentage of
    passing executions rounded to two decimals under partial scoring and 0
    or 100 otherwise, and the verdict is ACCEPTED when [passed = total] and
    the label of the first failing execution in testcase order otherwise. *)
Definition aggregateVerdict (partialScoring : bool)
  (executions : list ExecutionOutcome) : Aggregate :=
  let total := List.length executions in
  if existsb isCompileFailure executions then
    mkAggregate COMPILATION_ERROR 0 0 total
  else
    let passed := List.length (filter isPass executions) in
    let score :=
      if partialScoring then
        Math_round ((inject_Z (Z.of_nat passed) / inject_Z (Z.of_nat total))
                    * 100 * 100) / 100
      else if Nat.eqb passed total then 100 else 0 in
    let verdict :=
      if Nat.eqb passed total then ACCEPTED
      else match firstFailing executions with
           | Some o => verdictLabel o
           | None => ACCEPTED
           end in
    mkAggregate verdict score passed total.

(** ** Sample documents and requests

    Concrete data on which the handlers are run below. *)

Definition alice : User :=
  mkUser "users:1" "clerk_alice" "alice_123456" "alice@example.org"
         (Some "alice-secret") None (Some "alice") false USER (Some (Fin 0))
         [] [] [] [].

Definition bob : User :=
  mkUser "users:2" "clerk_bob" "bob_654321" "bob@example.org"
         (Some "bob-secret") None (Some "bob") false USER (Some (Fin 0))
         [] [] [] [].

(** A request made by [who] at time [now]. *)
Definition requestBy (who : User) (now : Z) (newId : Id) : Ctx :=
  mkCtx (fun _ => Return (Some who)) now (1 # 2) "0.i" newId.

(** A public contest open from time 0 to time 10, created by alice. *)
Definition weekly (participants : list Id) : Contest :=
  mkContest "contests:1" "contest_0_iiiiiii" "Weekly" "Weekly round"
            "users:1" 0 10 true 5 [] participants 0.

(** A public contest open from time 20 to time 30, created by bob. *)
Definition monthly : Contest :=
  mkContest "contests:2" "contest_20_jjjjjjj" "Monthly" "Monthly round"
            "users:2" 20 30 true 5 [] [] 0.

Definition storeWith (us : list User) (cs : list Contest)
  (subs : list ContestSubmission) : DB :=
  mkDB us [] [] [] [] cs subs.

(** ** Definitions used by the statements *)

Definition validationMessages : list string :=
  [ "Contest startTime cannot be in the past";
    "Contest end time must be after start time";
    "Max size must be positive" ].

Definition weeklySubmission : ContestSubmission :=
  mkContestSubmission "contestSubmissions:1" "csub_1" "contests:1" "users:2"
                      "problems:1" "submissions:1" 100 0 4.

(** The number of user documents carrying a given [userId]. *)
Definition countUserId (userId : string) (d : DB) : nat :=
  List.length (filter (fun u => String.eqb (u_userId u) userId) (users d)).


(** The phase as the specification words it: "ended" if [now >= endTime],
    else "ongoing" if [now >= startTime], else "upcoming". *)
Definition contestPhase (now startTime endTime : number) : string :=
  if geb now endTime then "ended"
  else if geb now startTime then "ongoing"
  else "upcoming".

(** The contests a request with the given filter lists, and their status. *)
Definition listedContests (ctx : Ctx) (filter : ContestFilter) (d : DB)
  : option (list (Contest * string)) :=
  match fst (listContests ctx (mkListContestsArgs (Some filter) None None) d) with
  | Return r => Some (map (fun m => (cm_contest m, cm_status m)) (lr_contests r))
  | Throw _ => None
  end.

Definition filterName (filter : ContestFilter) : string :=
  match filter with
  | F_all => "all"
  | F_public => "public"
  | F_my_created => "my_created"
  | F_my_participated => "my_participated"
  | F_upcoming => "upcoming"
  | F_ongoing => "ongoing"
  | F_ended => "ended"
  end.

(** A contest is selected by a phase filter at time [now]. *)
Definition selectedBy (filter : ContestFilter) (now : number) (d : DB)
  (c : Contest) : Prop :=
  exists l, selectContests filter None now d = (Return l, d) /\ In c l.

Definition publicCase : Testcase :=
  mkTestcase "testcases:1" "TC_1" "1 2" "3" true "problems:1".

Definition privateCase : Testcase :=
  mkTestcase "testcases:2" "TC_2" "40 2" "42" false "problems:1".

(** A problem created by alice with one public and one private testcase. *)
Definition sumProblem : Problem :=
  mkProblem "problems:1" "PROB_1" "Sum" "Add two numbers" "users:1"
            ["testcases:1"; "testcases:2"] [] [] 0 1 256
            (Some EASY) (Some []) None None.

Definition problemStore : DB :=
  mkDB [alice; bob] [sumProblem] [] [publicCase; privateCase] [] [] [].

(** [n] hundredths are the percentage [accepted / total * 100] rounded to
    two decimal places, up to the rounding errors of the three double
    operations that precede [Math.round]: [n] is within [1/2 + 2^-38] of
    the exact number of hundredths. *)
Definition hundredthsOf (accepted total : number) (n : Z) : Prop :=
  exists a t : Q,
    accepted = Fin a /\ total = Fin t
    /\ (Qabs (inject_Z n - 10000 * a / t) <= (1 # 2) + (1 # 2 ^ 38))%Q.

Definition sumStats : ProblemStats :=
  mkProblemStats "problemStats:1" "problems:1" 3 1 0.

Definition statsStore : DB :=
  mkDB [alice; bob] [sumProblem] [sumStats] [publicCase; privateCase] [] [] [].

(** The same store with other counters in the statistics record. *)
Definition statsOf (totalSubmissions acceptedSubmissions : number) : DB :=
  mkDB [alice; bob] [sumProblem]
       [mkProblemStats "problemStats:1" "problems:1"
                       totalSubmissions acceptedSubmissions 0]
       [publicCase; privateCase] [] [] [].

Definition withinCapacity (c : Contest) : Prop := len (c_users c) <= c_maxSize c.

Definition integral (x : number) : Prop := exists n : Z, x == inject_Z n.

Definition capacityInvariant (l : list Contest) : Prop :=
  NoDup (map c__id l)
  /\ Forall (fun c => withinCapacity c /\ integral (c_maxSize c)) l.

(** The mutations of [contests.ts]. *)
Inductive Mutation :=
| CreateContest (args : CreateContestArgs)
| UpdateContest (args : UpdateContestArgs)
| DeleteContest (contestId : string)
| JoinContest (contestId : string)
| LeaveContest (contestId : string).

(** The store a mutation leaves. *)
Definition runMutation (ctx : Ctx) (m : Mutation) (d : DB) : DB :=
  match m with
  | CreateContest args => snd (createContest ctx args d)
  | UpdateContest args => snd (updateContest ctx args d)
  | DeleteContest contestId => snd (deleteContest ctx contestId d)
  | JoinContest contestId => snd (joinContest ctx contestId d)
  | LeaveContest contestId => snd (leaveContest ctx contestId d)
  end.

(** Every capacity a request carries is a whole number. *)
Definition wholeCapacity (m : Mutation) : Prop :=
  match m with
  | CreateContest args => integral (cc_maxSize args)
  | UpdateContest args => forall n, uc_maxSize args = Some n -> integral n
  | _ => True
  end.

(** ** Definitions used by the further properties *)

(** The comparator [listContests] passes to [sort]. *)
Definition listComparator (filter : ContestFilter) (a b : Contest) : number :=
  match filter with
  | F_upcoming => c_startTime a - c_startTime b
  | _ => c_startTime b - c_startTime a
  end.

(** The order of the contests in a listing: ascending start time for the
    filter "upcoming", descending start time for every other filter. *)
Definition listOrder (filter : option ContestFilter) (a b : Contest) : Prop :=
  match filter with
  | Some F_upcoming => c_startTime a <= c_startTime b
  | _ => c_startTime b <= c_startTime a
  end.

(** The filter applied when [args.filter] is absent is "public". *)
Definition effectiveFilter (filter : option ContestFilter) : ContestFilter :=
  match filter with Some f => f | None => F_public end.

(** The test each [case] of the [switch] applies to a contest. *)
Definition selectionTest (filter : ContestFilter) (user : option User)
  (now : number) (c : Contest) : bool :=
  match filter with
  | F_all => true
  | F_public => c_isPublic c
  | F_my_created =>
      match user with
      | Some user => String.eqb (c_creatorId c) (u_userId user)
      | None => false
      end
  | F_my_participated =>
      match user with
      | Some user => includes (c_users c) (u_userId user)
      | None => false
      end
  | F_upcoming => c_isPublic c && gtb (c_startTime c) now
  | F_ongoing =>
      c_isPublic c && leb (c_startTime c) now && gtb (c_endTime c) now
  | F_ended => c_isPublic c && ltb (c_endTime c) now
  end.

(** The filters that need no user. *)
Definition publicListing (filter : ContestFilter) : bool :=
  match filter with
  | F_public | F_upcoming | F_ongoing | F_ended => true
  | _ => false
  end.

(** Who may read the page of a contest: anyone when it is public, otherwise
    a user whose [userId] is the contest's [creatorId] or is listed in its
    [users]. *)
Definition mayView (user : option User) (c : Contest) : bool :=
  c_isPublic c
  || match user with
     | Some u =>
         String.eqb (c_creatorId c) (u_userId u) || includes (c_users c) (u_userId u)
     | None => false
     end.

(** The document [createContest] inserts for a caller [user]. *)
Definition newContest (ctx : Ctx) (args : CreateContestArgs) (user : User)
  : Contest :=
  mkContest (ctx_newId ctx)
            ("contest_" ++ showInteger (ctx_now ctx) ++ "_"
                        ++ substring (ctx_random36 ctx) 2 9)
            (trim (cc_name args)) (trim (cc_description args))
            (u__id user) (cc_startTime args) (cc_endTime args)
            (cc_isPublic args) (cc_maxSize args) []
            (if cc_addSelf args then [u__id user] else [])
            (Date_now ctx).

(** The patch [createContest] applies to the caller's document. *)
Definition afterCreate (args : CreateContestArgs) (user : User) (contestDocId : Id)
  : User -> User :=
  withContestLists
    (u_createdContests user ++ [contestDocId])
    (if cc_addSelf args then
       (if includes (u_participatedContests user) contestDocId
        then u_participatedContests user
        else u_participatedContests user ++ [contestDocId])
     else u_participatedContests user).

(** A table holds a document with the given identifier. *)
Definition hasUser (id : Id) (d : DB) : bool :=
  existsb (fun u => String.eqb (u__id u) id) (users d).

(** The arguments pass the validation of [createContest] at time [now]:
    none of its three rejections applies. *)
Definition validContestArgs (now : number) (args : CreateContestArgs) : Prop :=
  ~ cc_startTime args < now
  /\ ~ cc_endTime args <= cc_startTime args
  /\ ~ cc_maxSize args <= 0.

(** The contest and the caller pass the four checks of [joinContest]: none
    of its rejections applies. *)
Definition mayJoin (now : number) (user : User) (c : Contest) : Prop :=
  c_isPublic c = true
  /\ ~ In (u__id user) (c_users c)
  /\ ~ len (c_users c) >= c_maxSize c
  /\ ~ now > c_endTime c.

(** The contest and the caller pass the two checks of [leaveContest]. *)
Definition mayLeave (now : number) (user : User) (c : Contest) : Prop :=
  In (u__id user) (c_users c) /\ ~ now >= c_startTime c.

(** The caller is the creator of the contest (by document identifier) or
    an admin. *)
Definition managesContest (user : User) (c : Contest) : Prop :=
  c_creatorId c = u__id user \/ u_role user = ADMIN.

(** The checks [updateContest] makes on its arguments, for a contest [c]
    at time [now]. *)
Definition validUpdate (now : number) (args : UpdateContestArgs) (c : Contest)
  : Prop :=
  (now >= c_startTime c ->
   uc_name args = None /\ uc_startTime args = None /\ uc_endTime args = None
   /\ uc_isPublic args = None /\ uc_maxSize args = None)
  /\ (uc_startTime args <> None \/ uc_endTime args <> None ->
      (~ now >= c_startTime c ->
       ~ orElse (uc_startTime args) (c_startTime c) < now)
      /\ ~ orElse (uc_endTime args) (c_endTime c)
           <= orElse (uc_startTime args) (c_startTime c))
  /\ (forall m, uc_maxSize args = Some m ->
                ~ m <= 0 /\ ~ m < len (c_users c)).

(** The patch [deleteContest] applies to a participant's document. *)
Definition withoutContest (contestDocId : Id) (participant : User) : User -> User :=
  withContestLists (removeId contestDocId (u_createdContests participant))
                   (removeId contestDocId (u_participatedContests participant)).

(** The contestProblems left by the deletion loop of [deleteContest]: the
    loop deletes, by identifier, every document of the contest. *)
Definition withoutContestProblems (contestDocId : Id) (cps : list ContestProblem)
  : list ContestProblem :=
  fold_left
    (fun rest cp => filter (fun x => negb (String.eqb (cp__id x) (cp__id cp))) rest)
    (filter (fun cp => String.eqb (cp_contestId cp) contestDocId) cps)
    cps.

(** The users left by the participant loop of [deleteContest]. *)
Definition withoutParticipation (contestDocId : Id)
  (participants : list (option User)) (us : list User) : list User :=
  fold_left
    (fun us participant =>
       match participant with
       | Some p => patchIn u__id (u__id p) (withoutContest contestDocId p) us
       | None => us
       end)
    participants us.

(** The store [deleteContest] leaves when it deletes the contest [c]. *)
Definition afterDelete (c : Contest) (d : DB) : DB :=
  setContests
    (filter (fun x => negb (String.eqb (c__id x) (c__id c))) (contests d))
    (setUsers
       (withoutParticipation (c__id c)
          (map (fun id => find (fun u => String.eqb (u__id u) id) (users d))
               (c_users c))
          (users d))
       (setContestProblems
          (withoutContestProblems (c__id c) (contestProblems d)) d)).

(** A property of every contest document, together with the distinctness of
    the identifiers of the [contests] table. *)
Definition contestsInvariant (P : Contest -> Prop) (l : list Contest) : Prop :=
  NoDup (map c__id l) /\ Forall P l.

(** The time window of a contest is not empty. *)
Definition windowOpen (c : Contest) : Prop := c_startTime c < c_endTime c.

(** The times a request carries are numbers, not NaN. *)
Definition numericTimes (m : Mutation) : Prop :=
  match m with
  | CreateContest args => cc_startTime args <> NaN /\ cc_endTime args <> NaN
  | UpdateContest args =>
      uc_startTime args <> Some NaN /\ uc_endTime args <> Some NaN
  | _ => True
  end.

(** No user is listed twice among the participants of a contest. *)
Definition participantsDistinct (c : Contest) : Prop := NoDup (c_users c).

(** The fields of a contest other than [description] and [updatedAt]. *)
Definition contestCore (c : Contest)
  : Id * string * string * Id * number * number * bool * number
    * list Id * list Id :=
  (c__id c, c_contestId c, c_name c, c_creatorId c, c_startTime c, c_endTime c,
   c_isPublic c, c_maxSize c, c_problems c, c_users c).

(** The request changes a field other than the description. *)
Definition changesMoreThanDescription (args : UpdateContestArgs) : bool :=
  isSome (uc_name args) || isSome (uc_startTime args) || isSome (uc_endTime args)
  || isSome (uc_isPublic args) || isSome (uc_maxSize args).

(** ** users.ts, queries *)

(** [getUser]: [!args.userId] holds for the empty string. *)
Definition getUser (userId : string) : Handler (option User) :=
  if String.eqb userId "" then ret None
  else
    user <- read (fun d =>
      first (fun u => String.eqb (u_userId u) userId) (users d)) ;;
    match user with
    | None => ret None
    | Some user => ret (Some user)
    end.

(** [getCurrentUser]: [identity] is the subject of
    [ctx.auth.getUserIdentity()], or [None] when there is no identity. *)
Definition getCurrentUser (identity : option string) : Handler (option User) :=
  match identity with
  | None => ret None
  | Some subject =>
      read (fun d => first (fun u => String.eqb (u_userId u) subject) (users d))
  end.

Definition getMany : Handler (list User) := read users.

(** ** Problem and testcase handlers, mutations and listings *)

(** [try { body } catch (error) { handler }]: what the body wrote before it
    threw stays written. *)
Definition tryCatch {A : Type} (body : Handler A) (handler : string -> Handler A)
  : Handler A :=
  fun d =>
    match body d with
    | (Return a, d') => (Return a, d')
    | (Throw e, d') => handler e d'
    end.

Definition setProblems (ps : list Problem) (d : DB) : DB :=
  mkDB (users d) ps (problemStats d) (testcases d) (contestProblems d)
       (contests d) (contestSubmissions d).

Definition setTestcases (ts : list Testcase) (d : DB) : DB :=
  mkDB (users d) (problems d) (problemStats d) ts (contestProblems d)
       (contests d) (contestSubmissions d).

Definition insertProblem (p : Problem) : Handler Id :=
  write (fun d => setProblems (problems d ++ [p]) d) ;;; ret (p__id p).

Definition insertTestcase (t : Testcase) : Handler Id :=
  write (fun d => setTestcases (testcases d ++ [t]) d) ;;; ret (t__id t).

Definition patchProblem (id : Id) (f : Problem -> Problem) : Handler unit :=
  fun d =>
    if existsb (fun p => String.eqb (p__id p) id) (problems d)
    then (Return tt, setProblems (patchIn p__id id f (problems d)) d)
    else (Throw "patch: document not found", d).

Definition patchTestcase (id : Id) (f : Testcase -> Testcase) : Handler unit :=
  fun d =>
    if existsb (fun t => String.eqb (t__id t) id) (testcases d)
    then (Return tt, setTestcases (patchIn t__id id f (testcases d)) d)
    else (Throw "patch: document not found", d).

(** [ctx.db.delete(id)]: throws when the document does not exist. *)
Definition deleteTestcaseDoc (id : Id) : Handler unit :=
  fun d =>
    if existsb (fun t => String.eqb (t__id t) id) (testcases d)
    then (Return tt,
          setTestcases
            (filter (fun t => negb (String.eqb (t__id t) id)) (testcases d)) d)
    else (Throw "delete: document not found", d).

Definition deleteProblemDoc (id : Id) : Handler unit :=
  fun d =>
    if existsb (fun p => String.eqb (p__id p) id) (problems d)
    then (Return tt,
          setProblems
            (filter (fun p => negb (String.eqb (p__id p) id)) (problems d)) d)
    else (Throw "delete: document not found", d).

Definition withTestcases (testcases : list Id) (updatedAt : number) (p : Problem)
  : Problem :=
  mkProblem (p__id p) (p_problemId p) (p_title p) (p_description p)
            (p_creatorId p) testcases (p_contests p) (p_submissions p)
            updatedAt (p_timeLimit p) (p_memoryLimit p) (p_difficulty p)
            (p_tags p) (p_sampleInput p) (p_sampleOutput p).

Definition withCreatedProblems (createdProblems : list Id) (u : User) : User :=
  mkUser (u__id u) (u_userId u) (u_username u) (u_email u) (u_password u)
         (u_avatar u) (u_name u) (u_isVerified u) (u_role u) (u_updatedAt u)
         createdProblems (u_solvedProblems u)
         (u_createdContests u) (u_participatedContests u).

(** [problem.creatorId !== user._id && user.role !== "ADMIN"], where reading
    a property of a [null] user is a TypeError. *)
Definition requireProblemRights (user : option User) (problem : Problem)
  : Handler unit :=
  match user with
  | None => throw "TypeError: Cannot read properties of null"
  | Some user =>
      if negb (String.eqb (p_creatorId problem) (u__id user))
         && negb (Role_eqb (u_role user) ADMIN)
      then throw "Permission denied"
      else ret tt
  end.

Definition canModifyProblem (ctx : Ctx) (problemId : string)
  : Handler (option User * Problem) :=
  user <- requireAuth ctx ;;
  problem <- read (fun d =>
    first (fun p => String.eqb (p_problemId p) problemId) (problems d)) ;;
  match problem with
  | None => throw "Problem not found"
  | Some problem =>
      requireProblemRights user problem ;;;
      ret (user, problem)
  end.

(** [s.substr(a, n)] *)
Definition substr (s : string) (a n : nat) : string := String.substring a n s.

Record CreateTestCaseArgs := mkCreateTestCaseArgs {
  ct_problemId : string;
  ct_input : string;
  ct_output : string;
  ct_isPublic : bool
}.

Definition createTestCase (ctx : Ctx) (args : CreateTestCaseArgs)
  : Handler (string * string) :=
  modifiable <- canModifyProblem ctx (ct_problemId args) ;;
  let problem := snd modifiable in
  let testcaseId :=
    "TC_" ++ showInteger (ctx_now ctx) ++ "_" ++ substr (ctx_random36 ctx) 2 9 in
  testcaseDocId <- insertTestcase
    (mkTestcase (ctx_newId ctx) testcaseId (ct_input args) (ct_output args)
                (ct_isPublic args) (p__id problem)) ;;
  patchProblem (p__id problem)
    (withTestcases (p_testcases problem ++ [testcaseDocId]) (Date_now ctx)) ;;;
  ret ("Testcase created successfully!", testcaseId).

Record UpdateTestCaseArgs := mkUpdateTestCaseArgs {
  ut_testcaseId : string;
  ut_input : option string;
  ut_output : option string;
  ut_isPublic : option bool
}.

(** The [updates] object of [updateTestCase], applied by [patch]. *)
Definition applyTestcaseUpdate (args : UpdateTestCaseArgs) (t : Testcase)
  : Testcase :=
  mkTestcase (t__id t) (t_testcaseId t)
             (orElse (ut_input args) (t_input t))
             (orElse (ut_output args) (t_output t))
             (orElse (ut_isPublic args) (t_isPublic t))
             (t_problemId t).

Definition updateTestCase (ctx : Ctx) (args : UpdateTestCaseArgs)
  : Handler string :=
  tryCatch
    (testcase <- read (fun d =>
       first (fun t => String.eqb (t_testcaseId t) (ut_testcaseId args))
             (testcases d)) ;;
     match testcase with
     | None => throw "Test case not found"
     | Some testcase =>
       problem <- getProblemDoc (t_problemId testcase) ;;
       match problem with
       | None => throw "Associated problem not found"
       | Some problem =>
         user <- requireAuth ctx ;;
         requireProblemRights user problem ;;;
         patchTestcase (t__id testcase) (applyTestcaseUpdate args) ;;;
         ret "Successfully updated testcase."
       end
     end)
    (fun _ => ret "Something went wrong. Try again later!").

Inductive DeleteTestCaseResult :=
| DeleteSucceeded
| DeleteFailed (message : string).

Definition deleteTestCase (ctx : Ctx) (testcaseId : string)
  : Handler DeleteTestCaseResult :=
  tryCatch
    (testcase <- read (fun d =>
       first (fun t => String.eqb (t_testcaseId t) testcaseId) (testcases d)) ;;
     match testcase with
     | None => throw "Test case not found"
     | Some testcase =>
       problem <- getProblemDoc (t_problemId testcase) ;;
       match problem with
       | None => throw "Associated problem not found"
       | Some problem =>
         user <- requireAuth ctx ;;
         requireProblemRights user problem ;;;
         let updatedTestcases := removeId (t__id testcase) (p_testcases problem) in
         patchProblem (p__id problem)
           (withTestcases updatedTestcases (Date_now ctx)) ;;;
         deleteTestcaseDoc (t__id testcase) ;;;
         ret DeleteSucceeded
       end
     end)
    (fun _ => ret (DeleteFailed "Something went wrong. Try again later!")).

Record NewTestcase := mkNewTestcase {
  nt_input : string;
  nt_output : string;
  nt_isPublic : bool
}.

Record BulkCreateTestCasesArgs := mkBulkCreateTestCasesArgs {
  bc_problemId : string;
  bc_testcases : list NewTestcase
}.

(** The insertion loop of [bulkCreateTestCases].  [draws i] is the
    identifier the store assigns to the [i]-th inserted document and the
    string [Math.random().toString(36)] drawn for it. *)
Fixpoint insertTestcases (ctx : Ctx) (draws : nat -> Id * string)
  (problem : Problem) (tcs : list NewTestcase) (i : nat) : Handler (list Id) :=
  match tcs with
  | [] => ret []
  | tc :: tcs' =>
      let testcaseId :=
        "TC_" ++ showInteger (ctx_now ctx) ++ "_" ++ substr (snd (draws i)) 2 9 in
      testcaseDocId <- insertTestcase
        (mkTestcase (fst (draws i)) testcaseId (nt_input tc) (nt_output tc)
                    (nt_isPublic tc) (p__id problem)) ;;
      rest <- insertTestcases ctx draws problem tcs' (S i) ;;
      ret (testcaseDocId :: rest)
  end.

Definition bulkCreateTestCases (ctx : Ctx) (draws : nat -> Id * string)
  (args : BulkCreateTestCasesArgs) : Handler (string * bool) :=
  tryCatch
    (modifiable <- canModifyProblem ctx (bc_problemId args) ;;
     let problem := snd modifiable in
     createdTestCases <- insertTestcases ctx draws problem (bc_testcases args) 0 ;;
     patchProblem (p__id problem)
       (withTestcases (p_testcases problem ++ createdTestCases) (Date_now ctx)) ;;;
     ret ("Succesfully created "
            ++ showInteger (Z.of_nat (List.length createdTestCases))
            ++ " tescases", true))
    (fun _ => ret ("Something went wrong. Try again later!", false)).

Record CreateProblemArgs := mkCreateProblemArgs {
  cpa_title : string;
  cpa_description : string;
  cpa_timeLimit : number;
  cpa_memoryLimit : number;
  cpa_difficulty : option Difficulty;
  cpa_tags : option (list string);
  cpa_sampleInput : option string;
  cpa_sampleOutput : option string
}.

(** The document [createProblem] inserts for a caller [user]. *)
Definition newProblem (ctx : Ctx) (args : CreateProblemArgs) (user : User)
  : Problem :=
  mkProblem (ctx_newId ctx)
            ("PROB_" ++ showInteger (ctx_now ctx) ++ "_"
                     ++ substr (ctx_random36 ctx) 2 9)
            (cpa_title args) (cpa_description args) (u__id user)
            [] [] [] (Date_now ctx)
            (cpa_timeLimit args) (cpa_memoryLimit args)
            (Some (orElse (cpa_difficulty args) MEDIUM))
            (Some (orElse (cpa_tags args) []))
            (cpa_sampleInput args) (cpa_sampleOutput args).

(** [{ message, problemId }] on success, [{ message }] on failure. *)
Definition createProblem (ctx : Ctx) (args : CreateProblemArgs)
  : Handler (string * option string) :=
  tryCatch
    (user <- requireAuth ctx ;;
     match user with
     | None => throw "TypeError: Cannot read properties of null"
     | Some user =>
       let problemId :=
         "PROB_" ++ showInteger (ctx_now ctx) ++ "_"
                 ++ substr (ctx_random36 ctx) 2 9 in
       problemDocId <- insertProblem (newProblem ctx args user) ;;
       patchUser (u__id user)
         (withCreatedProblems (u_createdProblems user ++ [problemDocId])) ;;;
       ret ("Problem added successfully!", Some problemId)
     end)
    (fun _ => ret ("Something went wrong. Try again later!", None)).

(** [s.toLowerCase()] for a string [s] of ASCII characters: the letters A
    to Z are lowered and every other character stays.  (On other strings
    [String.prototype.toLowerCase] follows the Unicode case mappings, which
    this function does not.) *)
Definition lowerAscii (c : ascii) : ascii :=
  let n := nat_of_ascii c in
  if (65 <=? n)%nat && (n <=? 90)%nat then ascii_of_nat (n + 32) else c.

Fixpoint toLowerCaseAscii (s : string) : string :=
  match s with
  | EmptyString => EmptyString
  | String c s' => String (lowerAscii c) (toLowerCaseAscii s')
  end.

(** [s.includes(sub)] *)
Fixpoint stringIncludes (s sub : string) : bool :=
  String.prefix sub s
  || match s with
     | EmptyString => false
     | String _ s' => stringIncludes s' sub
     end.

Definition Difficulty_eqb (a b : Difficulty) : bool :=
  match a, b with
  | EASY, EASY | MEDIUM, MEDIUM | HARD, HARD => true
  | _, _ => false
  end.

Record ListProblemsArgs := mkListProblemsArgs {
  lp_difficulty : option Difficulty;
  lp_tags : option (list string);
  lp_search : option string;
  lp_limit : option number
}.

(** [q.eq(q.field("difficulty"), args.difficulty)] *)
Definition hasDifficulty (difficulty : Difficulty) (p : Problem) : bool :=
  match p_difficulty p with
  | Some d => Difficulty_eqb d difficulty
  | None => false
  end.

(** [args.tags.some(tag => p.tags?.includes(tag))] *)
Definition hasSomeTag (tags : list string) (p : Problem) : bool :=
  existsb (fun tag =>
             match p_tags p with
             | Some ptags => includes ptags tag
             | None => false
             end) tags.

Section ListProblems.

(** [String.prototype.toLowerCase], the lowering by the Unicode case
    mappings.  [listProblems] is defined over this function, whatever it
    returns. *)
Variable toLowerCase : string -> string.

(** [problem.title.toLowerCase().includes(searchLower) || ...] *)
Definition matchesSearch (searchLower : string) (p : Problem) : bool :=
  stringIncludes (toLowerCase (p_title p)) searchLower
  || stringIncludes (toLowerCase (p_description p)) searchLower.

(** [{ ...problem, testcases: [] }] *)
Definition hideTestcases (p : Problem) : Problem :=
  mkProblem (p__id p) (p_problemId p) (p_title p) (p_description p)
            (p_creatorId p) [] (p_contests p) (p_submissions p)
            (p_updatedAt p) (p_timeLimit p) (p_memoryLimit p) (p_difficulty p)
            (p_tags p) (p_sampleInput p) (p_sampleOutput p).

Definition listProblems (args : ListProblemsArgs) : Handler (list Problem) :=
  results <- read (fun d =>
    match lp_difficulty args with
    | Some difficulty => filter (hasDifficulty difficulty) (problems d)
    | None => problems d
    end) ;;
  let results :=
    match lp_tags args with
    | Some (tag :: tags) => filter (hasSomeTag (tag :: tags)) results
    | _ => results
    end in
  let results :=
    match lp_search args with
    | Some EmptyString => results
    | Some search =>
        let searchLower := toLowerCase search in
        filter (matchesSearch searchLower) results
    | None => results
    end in
  let results :=
    match lp_limit args with
    | Some limit => if isTruthy limit then slice results 0 limit else results
    | None => results
    end in
  ret (map hideTestcases results).

End ListProblems.

Record EditProblemArgs := mkEditProblemArgs {
  ep_problemId : string;
  ep_title : option string;
  ep_description : option string;
  ep_timeLimit : option number;
  ep_memoryLimit : option number;
  ep_difficulty : option Difficulty;
  ep_tags : option (list string);
  ep_sampleInput : option string;
  ep_sampleOutput : option string
}.

(** [x] when the request carries it, the stored value otherwise. *)
Definition orKeep {A : Type} (x : option A) (stored : option A) : option A :=
  match x with Some v => Some v | None => stored end.

(** The [updates] object of [getProblemForEdit], applied by [patch]. *)
Definition applyProblemUpdate (args : EditProblemArgs) (updatedAt : number)
  (p : Problem) : Problem :=
  mkProblem (p__id p) (p_problemId p)
            (orElse (ep_title args) (p_title p))
            (orElse (ep_description args) (p_description p))
            (p_creatorId p) (p_testcases p) (p_contests p) (p_submissions p)
            updatedAt
            (orElse (ep_timeLimit args) (p_timeLimit p))
            (orElse (ep_memoryLimit args) (p_memoryLimit p))
            (orKeep (ep_difficulty args) (p_difficulty p))
            (orKeep (ep_tags args) (p_tags p))
            (orKeep (ep_sampleInput args) (p_sampleInput p))
            (orKeep (ep_sampleOutput args) (p_sampleOutput p)).

Definition getProblemForEdit (ctx : Ctx) (args : EditProblemArgs)
  : Handler string :=
  tryCatch
    (user <- requireAuth ctx ;;
     problem <- read (fun d =>
       first (fun p => String.eqb (p_problemId p) (ep_problemId args))
             (problems d)) ;;
     match problem with
     | None => throw "Problem not found"
     | Some problem =>
       requireProblemRights user problem ;;;
       patchProblem (p__id problem) (applyProblemUpdate args (Date_now ctx)) ;;;
       ret "Problem updated successfully"
     end)
    (fun _ => ret "Something went wrong. Try again later!").

Definition deleteProblem (ctx : Ctx) (problemId : string) : Handler string :=
  tryCatch
    (user <- requireAuth ctx ;;
     problem <- read (fun d =>
       first (fun p => String.eqb (p_problemId p) problemId) (problems d)) ;;
     match problem with
     | None => throw "Problem not found"
     | Some problem =>
       requireProblemRights user problem ;;;
       forEach (p_testcases problem) deleteTestcaseDoc ;;;
       creator <- getUserDoc (p_creatorId problem) ;;
       match creator with
       | Some creator =>
           patchUser (u__id creator)
             (withCreatedProblems
                (removeId (p__id problem) (u_createdProblems creator)))
       | None => ret tt
       end ;;;
       deleteProblemDoc (p__id problem) ;;;
       ret "Problem deleted successfully!"
     end)
    (fun _ => ret "Something went wrong. Try again later!").

(** [[]] when there is no user, [{ problems }] otherwise. *)
Inductive UserProblems :=
| NoUser
| ProblemsOf (problems : list Problem).

Definition getUserProblems (ctx : Ctx) : Handler UserProblems :=
  user <- requireAuth ctx ;;
  match user with
  | None => ret NoUser
  | Some user =>
      problems <- read (fun d =>
        filter (fun p => String.eqb (p_creatorId p) (u__id user)) (problems d)) ;;
      ret (ProblemsOf problems)
  end.

(** The caller is the creator of the problem (by document identifier) or
    an admin. *)
Definition managesProblem (user : User) (problem : Problem) : Prop :=
  p_creatorId problem = u__id user \/ u_role user = ADMIN.

(** The document [createTestCase] inserts. *)
Definition newTestcase (ctx : Ctx) (args : CreateTestCaseArgs) (problem : Problem)
  : Testcase :=
  mkTestcase (ctx_newId ctx)
             ("TC_" ++ showInteger (ctx_now ctx) ++ "_"
                    ++ substr (ctx_random36 ctx) 2 9)
             (ct_input args) (ct_output args) (ct_isPublic args) (p__id problem).

(** The testcases the loop of [getProblemTestCases] and [getProblem]
    collects: for each identifier in order, the document if it exists and
    passes [keep]. *)
Definition collected (keep : Testcase -> bool) (ids : list Id) (d : DB)
  : list Testcase :=
  flat_map
    (fun id =>
       match find (fun t => String.eqb (t__id t) id) (testcases d) with
       | Some t => if keep t then [t] else []
       | None => []
       end) ids.

(** The fields of a problem that [getProblemForEdit] never writes. *)
Definition problemIdentity (p : Problem)
  : Id * string * Id * list Id * list Id * list Id :=
  (p__id p, p_problemId p, p_creatorId p, p_testcases p, p_contests p,
   p_submissions p).

(** The documents the loop of [bulkCreateTestCases] inserts, in order. *)
Fixpoint bulkDocs (ctx : Ctx) (draws : nat -> Id * string) (problem : Problem)
  (tcs : list NewTestcase) (i : nat) : list Testcase :=
  match tcs with
  | [] => []
  | tc :: tcs' =>
      mkTestcase (fst (draws i))
                 ("TC_" ++ showInteger (ctx_now ctx) ++ "_"
                        ++ substr (snd (draws i)) 2 9)
                 (nt_input tc) (nt_output tc) (nt_isPublic tc) (p__id problem)
      :: bulkDocs ctx draws problem tcs' (S i)
  end.

Definition productProblem : Problem :=
  mkProblem "problems:2" "PROB_2" "Product" "Multiply two numbers" "users:2"
            ["testcases:9"] [] [] 0 1 256 (Some HARD) (Some ["math"]) None None.

(** A non-negative rational is the value of a finite double, and half the
    distance from it to the next double. *)
Definition isDouble (c : Q) : bool :=
  let scaled := (c * inject_Z (2 ^ 1074))%Q in
  Qeq_bool (inject_Z (Qfloor scaled)) scaled
  && (Qfloor scaled mod 2 ^ doubleShift scaled =? 0)%Z
  && (Qfloor scaled <? 2 ^ 2098)%Z.

Definition halfUlp (c : Q) : Q :=
  (inject_Z (2 ^ doubleShift (c * inject_Z (2 ^ 1074))) / inject_Z (2 ^ 1075))%Q.

(** The status a request reads on the page of a contest. *)
Definition pageStatus (ctx : Ctx) (contestId : string) (d : DB) : option string :=
  match fst (getContestDetails ctx contestId d) with
  | Return r => Some (cd_status r)
  | Throw _ => None
  end.

(** ** Properties *)

(** *** Comparisons and arrays *)

Lemma Qlt_bool_iff (x y : Q) : Qlt_bool x y = true <-> (x < y)%Q.
Proof.
  unfold Qlt_bool. rewrite negb_true_iff. split.
  - intros H. apply Qnot_le_lt. intros Hle.
    apply Qle_bool_iff in Hle. congruence.
  - intros H. destruct (Qle_bool y x) eqn:E; [|reflexivity].
    apply Qle_bool_iff in E. exfalso. apply (Qlt_not_le _ _ H E).
Qed.

Lemma Qlt_bool_false_iff (x y : Q) : Qlt_bool x y = false <-> (y <= x)%Q.
Proof.
  unfold Qlt_bool. rewrite negb_false_iff. apply Qle_bool_iff.
Qed.

Lemma Qle_bool_false_iff (x y : Q) : Qle_bool x y = false <-> (y < x)%Q.
Proof.
  rewrite <- Qlt_bool_iff. unfold Qlt_bool.
  destruct (Qle_bool x y); simpl; intuition congruence.
Qed.

(** Boolean comparisons of rationals, as propositions. *)
Ltac Qbools :=
  repeat match goal with
         | H : Qle_bool _ _ = true |- _ => apply Qle_bool_iff in H
         | H : Qlt_bool _ _ = true |- _ => apply Qlt_bool_iff in H
         | H : Qle_bool _ _ = false |- _ => apply Qle_bool_false_iff in H
         | H : Qlt_bool _ _ = false |- _ => apply Qlt_bool_false_iff in H
         | H : Qle_bool _ _ <> true |- _ => apply not_true_is_false in H
         | H : Qlt_bool _ _ <> true |- _ => apply not_true_is_false in H
         | |- Qle_bool _ _ = true => apply Qle_bool_iff
         | |- Qlt_bool _ _ = true => apply Qlt_bool_iff
         | |- Qle_bool _ _ = false => apply Qle_bool_false_iff
         | |- Qlt_bool _ _ = false => apply Qlt_bool_false_iff
         | |- Qle_bool _ _ <> true => apply not_true_iff_false
         | |- Qlt_bool _ _ <> true => apply not_true_iff_false
         end.

(** Case analysis on the numbers of the context, which leaves comparisons
    of rationals. *)
Ltac numbers :=
  intros; unfold gtb, geb in *;
  repeat match goal with
         | x : number |- _ => destruct x
         end;
  cbn [ltb leb strictEq add sub opp] in *;
  try tauto; try congruence;
  try solve [repeat split; (discriminate || congruence)];
  Qbools; try tauto; try congruence; try lra.

Lemma lt_le (x y : number) : x < y -> x <= y.
Proof. numbers. Qed.

Lemma lt_not_ge (x y : number) : x < y -> ~ x >= y.
Proof. numbers. Qed.

Lemma le_not_gt (x y : number) : x <= y -> ~ x > y.
Proof. numbers. Qed.

Lemma not_ge_lt (x y : number) : x <> NaN -> y <> NaN -> ~ x >= y -> x < y.
Proof. numbers. Qed.

Lemma not_gt_le (x y : number) : x <> NaN -> y <> NaN -> ~ x > y -> x <= y.
Proof. numbers. Qed.

Lemma lt_numeric (x y : number) : x < y -> x <> NaN /\ y <> NaN.
Proof. numbers. Qed.

Lemma le_numeric (x y : number) : x <= y -> x <> NaN /\ y <> NaN.
Proof. numbers. Qed.

Lemma le_trans (x y z : number) : x <= y -> y <= z -> x <= z.
Proof. numbers. Qed.

Lemma lt_le_trans (x y z : number) : x < y -> y <= z -> x < z.
Proof. numbers. Qed.

Lemma le_lt_trans (x y z : number) : x <= y -> y < z -> x < z.
Proof. numbers. Qed.

Lemma not_true_bool (b : bool) : b <> true <-> b = false.
Proof. destruct b; intuition congruence. Qed.

(** *** Rounding to binary64 *)

Lemma roundHalfEven_error (x : Q) :
  (inject_Z (roundHalfEven x) - x <= 1 # 2
   /\ x - inject_Z (roundHalfEven x) <= 1 # 2)%Q.
Proof.
  unfold roundHalfEven.
  pose proof (Qfloor_le x) as Hle. pose proof (Qlt_floor x) as Hlt.
  rewrite inject_Z_plus in Hlt. change (inject_Z 1) with 1%Q in Hlt.
  destruct (Qcompare (x - inject_Z (Qfloor x)) (1 # 2)) eqn:C.
  - apply Qeq_alt in C.
    destruct (Z.even (Qfloor x));
      [|rewrite inject_Z_plus; change (inject_Z 1) with 1%Q];
      split; lra.
  - apply Qlt_alt in C. split; lra.
  - apply Qgt_alt in C. rewrite inject_Z_plus. change (inject_Z 1) with 1%Q.
    split; lra.
Qed.

Lemma roundHalfEven_le (x : Q) (k : Z) :
  (x <= inject_Z k)%Q -> (roundHalfEven x <= k)%Z.
Proof.
  intros H. unfold roundHalfEven.
  assert (F : (Qfloor x <= k)%Z).
  { rewrite <- (Qfloor_Z k). now apply Qfloor_resp_le. }
  assert (G : (x < inject_Z k)%Q -> (Qfloor x + 1 <= k)%Z).
  { intros L. apply Zlt_le_succ. rewrite Zlt_Qlt.
    eapply Qle_lt_trans; [apply Qfloor_le | exact L]. }
  assert (W : (x == inject_Z k)%Q -> (x - inject_Z (Qfloor x) == 0)%Q).
  { intros E. rewrite (Qfloor_comp _ _ E), Qfloor_Z. lra. }
  destruct (Qcompare (x - inject_Z (Qfloor x)) (1 # 2)) eqn:C.
  - destruct (Z.even (Qfloor x)); [exact F|]. apply Qeq_alt in C. apply G.
    apply Qle_lteq in H. destruct H as [H | H]; [exact H|].
    exfalso. apply W in H. lra.
  - exact F.
  - apply Qgt_alt in C. apply G.
    apply Qle_lteq in H. destruct H as [H | H]; [exact H|].
    exfalso. apply W in H. lra.
Qed.

Lemma roundHalfEven_nonneg (x : Q) : (0 <= x)%Q -> (0 <= roundHalfEven x)%Z.
Proof.
  intros H. unfold roundHalfEven.
  assert (F : (0 <= Qfloor x)%Z).
  { change 0%Z with (Qfloor 0). now apply Qfloor_resp_le. }
  destruct (Qcompare _ _); [destruct (Z.even _)| |]; lia.
Qed.

Lemma doubleShift_nonneg (s : Q) : (0 <= doubleShift s)%Z.
Proof. unfold doubleShift. lia. Qed.

Lemma doubleShift_mono (s t : Q) :
  (s <= t)%Q -> (doubleShift s <= doubleShift t)%Z.
Proof.
  intros H. unfold doubleShift.
  pose proof (Z.log2_le_mono _ _ (Qfloor_resp_le _ _ H)). lia.
Qed.

Lemma inject_Z_pow2_pos (n : Z) : (0 <= n)%Z -> (0 < inject_Z (2 ^ n))%Q.
Proof.
  intros H. change 0%Q with (inject_Z 0). rewrite <- Zlt_Qlt.
  now apply Z.pow_pos_nonneg.
Qed.

(** Rounding a value of [[0, c]], where [c] is itself a double, gives a
    finite double of [[0, c]], within half a unit in the last place of
    [c]. *)
Lemma roundToDouble_bounded (x c : Q) :
  (0 <= x)%Q -> (x <= c)%Q -> isDouble c = true ->
  exists y,
    roundToDouble x = Fin y
    /\ (0 <= y)%Q /\ (y <= c)%Q /\ (Qabs (y - x) <= halfUlp c)%Q.
Proof.
  intros H0 Hc D. unfold isDouble in D.
  apply andb_true_iff in D. destruct D as [D Dmax].
  apply andb_true_iff in D. destruct D as [Dint Dmul].
  apply Qeq_bool_iff in Dint. apply Z.eqb_eq in Dmul. apply Z.ltb_lt in Dmax.
  unfold roundToDouble. apply Qle_bool_iff in H0. rewrite H0.
  apply Qle_bool_iff in H0.
  unfold roundMagnitude, halfUlp.
  set (P := inject_Z (2 ^ 1074)) in *.
  assert (HP : (0 < P)%Q) by (apply inject_Z_pow2_pos; lia).
  set (sx := doubleShift (x * P)). set (sc := doubleShift (c * P)) in *.
  assert (Hs : (sx <= sc)%Z) by (apply doubleShift_mono; nra).
  assert (Hsx : (0 <= sx)%Z) by apply doubleShift_nonneg.
  set (C := Qfloor (c * P)) in *.
  assert (HC : exists k, C = (k * 2 ^ sx)%Z).
  { apply Z.mod_divide in Dmul; [|apply Z.pow_nonzero; lia].
    destruct Dmul as [k Hk]. exists (k * 2 ^ (sc - sx))%Z.
    rewrite <- Z.mul_assoc, <- Z.pow_add_r by lia.
    replace (sc - sx + sx)%Z with sc by lia. exact Hk. }
  destruct HC as [k Hk].
  set (U := inject_Z (2 ^ sx)).
  assert (HU : (0 < U)%Q) by (apply inject_Z_pow2_pos; lia).
  set (m := roundHalfEven (x * P / U)).
  assert (Hm0 : (0 <= m)%Z).
  { apply roundHalfEven_nonneg. apply Qle_shift_div_l; [exact HU|]. nra. }
  assert (Hmk : (m <= k)%Z).
  { apply roundHalfEven_le. apply Qle_shift_div_r; [exact HU|].
    unfold U. rewrite <- inject_Z_mult, <- Hk. rewrite Dint. nra. }
  assert (Hpow : (0 < 2 ^ sx)%Z) by (apply Z.pow_pos_nonneg; lia).
  assert (HmC : (m * 2 ^ sx <= C)%Z) by (rewrite Hk; nia).
  destruct (2 ^ 2098 <=? m * 2 ^ sx)%Z eqn:Over; [apply Z.leb_le in Over; lia|].
  eexists. split; [reflexivity|].
  assert (Val : (Qred (m * 2 ^ sx # Z.to_pos (2 ^ 1074))
                 == inject_Z m * U / P)%Q).
  { rewrite Qred_correct. unfold P, U. rewrite <- inject_Z_mult.
    rewrite Qmake_Qdiv. rewrite Z2Pos.id by (apply Z.pow_pos_nonneg; lia).
    reflexivity. }
  rewrite Val.
  destruct (roundHalfEven_error (x * P / U)) as [E1 E2]. fold m in E1, E2.
  assert (X : (x == (x * P / U) * U / P)%Q)
    by (field; first [split; lra | lra]).
  assert (Hc' : (c == inject_Z C / P)%Q) by (rewrite Dint; field; lra).
  split; [|split].
  - apply Qle_shift_div_l; [exact HP|].
    assert (0 <= inject_Z m)%Q
      by (change 0%Q with (inject_Z 0); rewrite <- Zle_Qle; lia).
    nra.
  - rewrite Hc'. apply Qle_shift_div_r; [exact HP|].
    assert (R : (inject_Z C / P * P == inject_Z C)%Q) by (field; lra).
    rewrite R. unfold U. rewrite <- inject_Z_mult, <- Zle_Qle. exact HmC.
  - assert (Half : (Qabs (inject_Z m * U / P - x) <= U / (2 * P))%Q).
    { apply Qabs_Qle_condition.
      set (z := (x * P / U)%Q) in *.
      assert (Ex : (inject_Z m * U / P - x == (inject_Z m - z) * (U / P))%Q).
      { rewrite X at 1. field. first [split; lra | lra]. }
      rewrite Ex.
      assert (UP : (0 < U / P)%Q) by (apply Qlt_shift_div_l; lra).
      assert (UP2 : (U / (2 * P) == (1 # 2) * (U / P))%Q) by (field; lra).
      rewrite UP2. split; nra. }
    eapply Qle_trans; [exact Half|].
    assert (T : (inject_Z (2 ^ 1075) == 2 * P)%Q).
    { unfold P. rewrite <- (inject_Z_mult 2). reflexivity. }
    rewrite T.
    apply Qle_shift_div_l; [lra|].
    assert (R : (U / (2 * P) * (2 * P) == U)%Q) by (field; lra).
    rewrite R. unfold U. rewrite <- Zle_Qle. apply Z.pow_le_mono_r; lia.
Qed.

Lemma includes_In (l : list string) (x : string) :
  includes l x = true <-> In x l.
Proof.
  unfold includes. rewrite existsb_exists. split.
  - intros [y [Hy E]]. apply String.eqb_eq in E. now subst.
  - intros H. exists x. split; [assumption | apply String.eqb_refl].
Qed.

(** *** Running handlers *)

Ltac run :=
  unfold bind, ret, throw, read, write, requireAuth in *; simpl in *.

Lemma read_run {A : Type} (f : DB -> A) (d : DB) : read f d = (Return (f d), d).
Proof. reflexivity. Qed.

Lemma filter_singleton_In {A : Type} (f : A -> bool) (l : list A) (x : A) (r : list A) :
  filter f l = x :: r -> In x l /\ f x = true.
Proof.
  intros E. apply filter_In. rewrite E. now left.
Qed.

Lemma unique_cases {A : Type} (f : A -> bool) (l : list A) (d : DB) :
  (unique f l d = (Return None, d) /\ filter f l = [])
  \/ (exists x, unique f l d = (Return (Some x), d) /\ filter f l = [x])
  \/ (exists e, unique f l d = (Throw e, d)).
Proof.
  unfold unique. destruct (filter f l) as [|x [|y r]].
  - left. split; reflexivity.
  - right. left. exists x. split; reflexivity.
  - right. right. eexists. reflexivity.
Qed.

(** *** createContest: validation precedes every write *)

(** C7. When [startTime] is earlier than the current time, or
    [endTime <= startTime], or [maxSize <= 0], [createContest] throws and
    the store at the [throw] is the initial store: no contest document has
    been inserted and no user document patched.  For an authenticated
    caller the exception is one of the three validation errors. *)
Theorem createContest_invalid_args_no_write
  (ctx : Ctx) (args : CreateContestArgs) (d : DB) :
  cc_startTime args < Date_now ctx
  \/ cc_endTime args <= cc_startTime args
  \/ cc_maxSize args <= 0 ->
  exists message,
    createContest ctx args d = (Throw message, d)
    /\ (forall user, ctx_requireAuth ctx d = Return (Some user) ->
          In message validationMessages).
Proof.
  intros H. unfold createContest. run.
  destruct (ctx_requireAuth ctx d) as [[user|]|e] eqn:Auth.
  - destruct (ltb (cc_startTime args) (Date_now ctx)) eqn:E1.
    { eexists. split; [reflexivity|]. intros _ _. simpl. auto. }
    destruct (leb (cc_endTime args) (cc_startTime args)) eqn:E2.
    { eexists. split; [reflexivity|]. intros _ _. simpl. auto. }
    destruct (leb (cc_maxSize args) 0) eqn:E3.
    { eexists. split; [reflexivity|]. intros _ _. simpl. auto. }
    exfalso. destruct H as [H | [H | H]]; congruence.
  - eexists. split; [reflexivity|]. intros u Hu. discriminate.
  - eexists. split; [reflexivity|]. intros u Hu. discriminate.
Qed.

Lemma createContest_invalid_args_no_write_witness :
  exists message,
    createContest (requestBy alice 10 "contests:2")
      (mkCreateContestArgs "Late" "Starts in the past" 5 20 true 3 true)
      (storeWith [alice] [] [])
    = (Throw message, storeWith [alice] [] [])
    /\ (forall user,
          ctx_requireAuth (requestBy alice 10 "contests:2")
                          (storeWith [alice] [] []) = Return (Some user) ->
          In message validationMessages).
Proof.
  apply createContest_invalid_args_no_write.
  left. vm_compute. reflexivity.
Defined.

(** *** leaveContest: no departure once the contest has started *)

(** C5. When the contest addressed by the call has started
    ([now >= startTime]), [leaveContest] throws and the store at the
    [throw] is the initial store: the contest's [users] array and the
    caller's [participatedContests] array are unchanged, so no participant
    is removed.  For a caller who participates in the contest the exception
    is the one of the "has started" check. *)
Theorem leaveContest_started_throws
  (ctx : Ctx) (contestId : string) (d : DB) :
  (forall c, In c (contests d) -> c_contestId c = contestId ->
             c_startTime c <= Date_now ctx) ->
  exists message,
    leaveContest ctx contestId d = (Throw message, d)
    /\ (forall user c,
          ctx_requireAuth ctx d = Return (Some user) ->
          filter (fun c => String.eqb (c_contestId c) contestId) (contests d) = [c] ->
          In (u__id user) (c_users c) ->
          message = "Cannot leave contest after it has started").
Proof.
  intros Started. unfold leaveContest. run.
  destruct (ctx_requireAuth ctx d) as [[user|]|e] eqn:Auth;
    try (eexists; split; [reflexivity | intros; discriminate]).
  unfold unique.
  destruct (filter (fun c => String.eqb (c_contestId c) contestId) (contests d))
    as [|c [|c' rest]] eqn:Sel; run;
    try (eexists; split; [reflexivity | intros; discriminate]).
  destruct (filter_singleton_In _ _ _ _ Sel) as [Hin Hid].
  apply String.eqb_eq in Hid.
  assert (Hs : geb (Date_now ctx) (c_startTime c) = true)
    by (apply Started; assumption).
  destruct (includes (c_users c) (u__id user)) eqn:Inc; simpl.
  - rewrite Hs. eexists. split; [reflexivity | reflexivity].
  - eexists. split; [reflexivity|].
    intros u c0 Hu Hc Hpart. injection Hu as <-. injection Hc as <-.
    apply includes_In in Hpart. congruence.
Qed.

Lemma leaveContest_started_throws_witness :
  exists message,
    leaveContest (requestBy bob 3 "unused") "contest_0_iiiiiii"
                 (storeWith [alice; bob] [weekly ["users:2"]] [])
    = (Throw message, storeWith [alice; bob] [weekly ["users:2"]] [])
    /\ (forall user c,
          ctx_requireAuth (requestBy bob 3 "unused")
            (storeWith [alice; bob] [weekly ["users:2"]] [])
          = Return (Some user) ->
          filter (fun c => String.eqb (c_contestId c) "contest_0_iiiiiii")
                 (contests (storeWith [alice; bob] [weekly ["users:2"]] []))
          = [c] ->
          In (u__id user) (c_users c) ->
          message = "Cannot leave contest after it has started").
Proof.
  apply leaveContest_started_throws.
  intros c [<- | []] _. vm_compute. reflexivity.
Defined.

(** *** deleteContest: submissions block deletion *)

Lemma first_exists {A : Type} (f : A -> bool) (l : list A) (x : A) :
  In x l -> f x = true -> isSome (first f l) = true.
Proof.
  intros Hin Hf. unfold first. destruct (find f l) eqn:E; [reflexivity|].
  pose proof (find_none f l E x Hin). congruence.
Qed.

(** C6. When the contest addressed by the call has at least one
    ContestSubmission row, [deleteContest] throws and the store at the
    [throw] is the initial store: the contest, its contestProblems, the
    users and every ContestSubmission row are unchanged.  For a caller who
    passes the creator-or-admin check the exception is "Cannot delete
    contest with existing submissions". *)
Theorem deleteContest_with_submissions_throws
  (ctx : Ctx) (contestId : string) (d : DB) :
  (forall c, In c (contests d) -> c_contestId c = contestId ->
             exists s, In s (contestSubmissions d) /\ cs_contestId s = c__id c) ->
  exists message,
    deleteContest ctx contestId d = (Throw message, d)
    /\ (forall user c,
          ctx_requireAuth ctx d = Return (Some user) ->
          filter (fun c => String.eqb (c_contestId c) contestId) (contests d) = [c] ->
          c_creatorId c = u__id user \/ u_role user = ADMIN ->
          message = "Cannot delete contest with existing submissions").
Proof.
  intros Subs. unfold deleteContest. run.
  destruct (ctx_requireAuth ctx d) as [[user|]|e] eqn:Auth;
    try (eexists; split; [reflexivity | intros; discriminate]).
  unfold unique.
  destruct (filter (fun c => String.eqb (c_contestId c) contestId) (contests d))
    as [|c [|c' rest]] eqn:Sel; run;
    try (eexists; split; [reflexivity | intros; discriminate]).
  destruct (filter_singleton_In _ _ _ _ Sel) as [Hin Hid].
  apply String.eqb_eq in Hid.
  destruct (Subs c Hin Hid) as [s [Hs Hc]].
  assert (Has : isSome (first (fun s => String.eqb (cs_contestId s) (c__id c))
                              (contestSubmissions d)) = true).
  { apply (first_exists _ _ s Hs). apply String.eqb_eq. exact Hc. }
  destruct (negb (String.eqb (c_creatorId c) (u__id user))
            && negb (Role_eqb (u_role user) ADMIN)) eqn:Denied.
  - eexists. split; [reflexivity|].
    intros u c0 Hu Hc0 Hpriv. injection Hu as <-. injection Hc0 as <-.
    exfalso. apply andb_true_iff in Denied. destruct Denied as [D1 D2].
    apply negb_true_iff in D1. apply negb_true_iff in D2.
    destruct Hpriv as [Hp | Hp].
    + apply String.eqb_neq in D1. contradiction.
    + rewrite Hp in D2. discriminate.
  - rewrite Has. eexists. split; reflexivity.
Qed.

Lemma deleteContest_with_submissions_throws_witness :
  exists message,
    deleteContest (requestBy alice 20 "unused") "contest_0_iiiiiii"
      (storeWith [alice; bob] [weekly ["users:2"]] [weeklySubmission])
    = (Throw message,
       storeWith [alice; bob] [weekly ["users:2"]] [weeklySubmission])
    /\ (forall user c,
          ctx_requireAuth (requestBy alice 20 "unused")
            (storeWith [alice; bob] [weekly ["users:2"]] [weeklySubmission])
          = Return (Some user) ->
          filter (fun c => String.eqb (c_contestId c) "contest_0_iiiiiii")
            (contests
               (storeWith [alice; bob] [weekly ["users:2"]] [weeklySubmission]))
          = [c] ->
          c_creatorId c = u__id user \/ u_role user = ADMIN ->
          message = "Cannot delete contest with existing submissions").
Proof.
  apply deleteContest_with_submissions_throws.
  intros c [<- | []] _. exists weeklySubmission. split; [now left | reflexivity].
Defined.

(** *** syncUser: one document per userId *)

Lemma syncUser_existing (ctx : Ctx) (args : SyncUserArgs) (d : DB) :
  (0 < countUserId (su_userId args) d)%nat ->
  syncUser ctx args d = (Return tt, d).
Proof.
  unfold countUserId, syncUser, first. run. intros H.
  destruct (find (fun u => String.eqb (u_userId u) (su_userId args)) (users d))
    eqn:E; [reflexivity|].
  exfalso.
  destruct (filter (fun u => String.eqb (u_userId u) (su_userId args)) (users d))
    as [|u r] eqn:F; [simpl in H; lia|].
  destruct (filter_singleton_In _ _ _ _ F) as [Hin Hu].
  pose proof (find_none _ _ E u Hin) as Hn. simpl in Hn. congruence.
Qed.







(** *** Contest phase *)

(** For an end time that is not NaN, the status is the phase as the
    specification words it. *)
Lemma contestStatus_phase (now : number) (contest : Contest) :
  c_endTime contest <> NaN ->
  contestStatus now contest
  = contestPhase now (c_startTime contest) (c_endTime contest).
Proof.
  intros He. unfold contestStatus, contestPhase, geb.
  destruct (c_endTime contest) as [e| | |]; [| | |congruence];
    destruct now as [n| | |]; destruct (c_startTime contest) as [s| | |];
    cbn [ltb leb andb]; unfold Qlt_bool;
    repeat match goal with
           | |- context [Qle_bool ?a ?b] => destruct (Qle_bool a b)
           end;
    reflexivity.
Qed.

Lemma mapM_withMeta_status (now : number) (l : list Contest) (d d' : DB)
  (r : list ContestWithMeta) :
  mapM (withMeta now) l d = (Return r, d') ->
  d' = d
  /\ map cm_contest r = l
  /\ Forall (fun m => cm_status m = contestStatus now (cm_contest m)) r.
Proof.
  revert r. induction l as [|c l IH]; intros r; cbn [mapM].
  - run. intros E. injection E as <- <-. repeat split; constructor.
  - unfold bind at 1. unfold withMeta at 1. unfold lookupCreator. run.
    destruct (mapM (withMeta now) l d) as [[ys | e] d1] eqn:Rest.
    + intros E. injection E as <- <-.
      destruct (IH ys eq_refl) as [-> [Hm Hs]].
      repeat split.
      * simpl. now rewrite Hm.
      * constructor; [reflexivity | assumption].
    + intros E. discriminate.
Qed.

(** The [status] field of every contest returned by [listContests], and of
    the contest returned by [getContestDetails], is computed from
    [startTime], [endTime] and the current time only, and for an [endTime]
    that is not NaN it is the phase: "ended" if [now >= endTime], else
    "ongoing" if [now >= startTime], else "upcoming". *)
Lemma contest_status_is_phase_for_numeric_endTime (ctx : Ctx) (d : DB) :
  (forall args r d',
      listContests ctx args d = (Return r, d') ->
      Forall (fun m =>
                c_endTime (cm_contest m) <> NaN ->
                cm_status m
                = contestPhase (Date_now ctx) (c_startTime (cm_contest m))
                               (c_endTime (cm_contest m)))
             (lr_contests r))
  /\ (forall contestId r d',
        getContestDetails ctx contestId d = (Return r, d') ->
        c_endTime (cd_contest r) <> NaN ->
        cd_status r
        = contestPhase (Date_now ctx) (c_startTime (cd_contest r))
                       (c_endTime (cd_contest r)))
  /\ (forall now c c',
        c_startTime c = c_startTime c' -> c_endTime c = c_endTime c' ->
        contestStatus now c = contestStatus now c').
Proof.
  split; [|split].
  - intros args r d'. unfold listContests.
    unfold bind at 1. unfold requireAuth.
    destruct (ctx_requireAuth ctx d) as [user | e]; [|discriminate].
    unfold bind at 1.
    destruct (selectContests _ user (Date_now ctx) d) as [[cs | e] d1];
      [|discriminate].
    unfold bind at 1.
    match goal with
    | |- context [mapM (withMeta ?n) ?l ?s] =>
        destruct (mapM (withMeta n) l s) as [[ms | e] d2] eqn:Run
    end; [|discriminate].
    unfold ret. intros E. injection E as <- <-. simpl.
    apply mapM_withMeta_status in Run. destruct Run as [_ [_ Hs]].
    eapply Forall_impl; [|exact Hs].
    intros m Hm He. simpl in Hm. rewrite Hm. now apply contestStatus_phase.
  - intros contestId r d'. unfold getContestDetails.
    unfold bind at 1. unfold requireAuth.
    destruct (ctx_requireAuth ctx d) as [user | e]; [|discriminate].
    unfold bind at 1. unfold read at 1.
    destruct (first (fun c => String.eqb (c_contestId c) contestId) (contests d))
      as [contest|]; [|discriminate].
    match goal with
    | |- context [if ?b then throw _ else _] => destruct b
    end; [discriminate|].
    unfold bind at 1. unfold lookupCreator, read at 1.
    unfold bind at 1.
    destruct (mapMi contestProblemData (c_problems contest) 0 d)
      as [[cps | e] d1]; [|discriminate].
    unfold ret. intros E. injection E as <- <-. simpl.
    apply contestStatus_phase.
  - intros now c c' Hs He. unfold contestStatus. now rewrite Hs, He.
Qed.

(** C2, on an end time that is NaN.  [createContest] accepts
    [endTime = NaN], since [NaN <= startTime] is false, and stores it.  Once
    the contest has started its status is "upcoming", in the listing and on
    its page, where the phase derived from the three values as the
    specification words it is "ongoing". *)
Theorem contest_status_not_phase_for_NaN_endTime :
  let created :=
    createContest (requestBy alice 0 "contests:2")
      (mkCreateContestArgs "Open" "No end" 5 NaN true 3 false)
      (storeWith [alice; bob] [] []) in
  let later := requestBy bob 7 "unused" in
  exists c,
    fst created = Return ("Contest created successfully!", "contests:2")
    /\ contests (snd created) = [c]
    /\ c_startTime c = 5 /\ c_endTime c = NaN
    /\ listedContests later F_public (snd created) = Some [(c, "upcoming")]
    /\ pageStatus later (c_contestId c) (snd created) = Some "upcoming"
    /\ contestPhase (Date_now later) (c_startTime c) (c_endTime c) = "ongoing".
Proof.
  eexists. split; [vm_compute; reflexivity|].
  split; [vm_compute; reflexivity|].
  repeat split.
Qed.

(** *** The phase filters of listContests *)

(** C3, at the instant [now = endTime].  The public contest [weekly], open
    from 0 to 10, is listed at time 10 by none of the filters "upcoming",
    "ongoing" and "ended", while the status computed for it at that time
    (here through the filter "public") is "ended": the "ended" filter
    requires [endTime < now] where the status requires [now >= endTime]. *)
Theorem listContests_phase_filters_miss_end_instant :
  let ctx := requestBy bob 10 "unused" in
  let d := storeWith [alice; bob] [weekly []] [] in
  listedContests ctx F_upcoming d = Some []
  /\ listedContests ctx F_ongoing d = Some []
  /\ listedContests ctx F_ended d = Some []
  /\ listedContests ctx F_public d = Some [(weekly [], "ended")].
Proof.
  vm_compute. repeat split.
Qed.

(** X2. Away from the instant [now = endTime] (the clock [now] being a
    finite number) the three phase filters of [listContests] do partition
    the public contests with a non-empty window, in agreement with the
    status. *)
Lemma phase_filters_partition_off_end_instant
  (now : Q) (d : DB) (c : Contest) (filter : ContestFilter) :
  In c (contests d) -> c_isPublic c = true ->
  c_startTime c < c_endTime c -> ~ now == c_endTime c ->
  In filter [F_upcoming; F_ongoing; F_ended] ->
  (selectedBy filter now d c <-> contestStatus now c = filterName filter).
Proof.
  intros Hin Hpub Hwin Hne Hf.
  rewrite contestStatus_phase by apply (lt_numeric _ _ Hwin).
  unfold contestPhase, selectedBy.
  assert (Sel : forall p, (exists l, (Return (List.filter p (contests d)), d)
                                     = (Return l, d) /\ In c l)
                          <-> p c = true).
  { intros p. split.
    - intros [l [E Hl]]. injection E as <-. apply filter_In in Hl. tauto.
    - intros Hp. eexists. split; [reflexivity|]. apply filter_In. tauto. }
  simpl in Hf; destruct Hf as [<- | [<- | [<- | []]]];
    cbn [selectContests filterName]; unfold read; rewrite Sel, Hpub;
    unfold gtb, geb in *;
    destruct (c_startTime c) as [s| | |]; destruct (c_endTime c) as [e| | |];
    cbn [ltb leb strictEq andb] in *; try discriminate;
    try (split; [discriminate | intros _; reflexivity]);
    try (split; [intros _; reflexivity | reflexivity]);
    Qbools; unfold Qlt_bool;
    repeat match goal with
           | |- context [Qle_bool ?a ?b] => destruct (Qle_bool a b) eqn:?
           end;
    cbn [negb andb]; try (split; intros; (reflexivity || discriminate));
    Qbools; exfalso; try lra.
  all: destruct (Q_dec now e) as [[L | L] | L]; [lra | lra | contradiction].
Qed.

(** *** Disclosure of private testcases *)

Lemma collectTestcases_keep (keep : Testcase -> bool) (ids : list Id) (d : DB) :
  exists r,
    collectTestcases keep ids d = (Return r, d)
    /\ Forall (fun t => keep t = true) r.
Proof.
  induction ids as [|id ids [r [E Hr]]]; cbn [collectTestcases].
  - exists []. split; [reflexivity | constructor].
  - unfold getTestcaseDoc. run. rewrite E.
    destruct (find (fun t => String.eqb (t__id t) id) (testcases d)) as [t|].
    + destruct (keep t) eqn:K.
      * exists (t :: r). split; [reflexivity | now constructor].
      * exists r. split; [reflexivity | assumption].
    + exists r. split; [reflexivity | assumption].
Qed.

(** X23. [getProblem] returns public testcases only, and writes nothing. *)
Lemma getProblem_public_only (problemId : string) (d d' : DB) (r : ProblemView) :
  getProblem problemId d = (Return r, d') ->
  d' = d /\ Forall (fun t => t_isPublic t = true) (pv_testcases r).
Proof.
  unfold getProblem, getUserDoc. run.
  destruct (first (fun p => String.eqb (p_problemId p) problemId) (problems d))
    as [problem|]; [|discriminate].
  destruct (collectTestcases_keep t_isPublic (p_testcases problem) d)
    as [l [E Hl]].
  rewrite E. intros H. injection H as <- <-. split; [reflexivity | exact Hl].
Qed.

(** X24. Unless [publicOnly] is passed as [false], [getProblemTestCases] returns
    a private testcase only to the creator of the problem or to an admin. *)
Lemma getProblemTestCases_private_needs_privilege
  (ctx : Ctx) (args : GetProblemTestCasesArgs) (d d' : DB)
  (r : list Testcase) (t : Testcase) :
  tc_publicOnly args <> Some false ->
  getProblemTestCases ctx args d = (Return r, d') ->
  In t r -> t_isPublic t = false ->
  exists user problem,
    ctx_requireAuth ctx d = Return (Some user)
    /\ first (fun p => String.eqb (p_problemId p) (tc_problemId args))
             (problems d) = Some problem
    /\ (p_creatorId problem = u__id user \/ u_role user = ADMIN).
Proof.
  intros Hflag. unfold getProblemTestCases. run.
  destruct (first (fun p => String.eqb (p_problemId p) (tc_problemId args))
                  (problems d)) as [problem|]; [|discriminate].
  assert (Hfalse : publicOnlyIsFalse (tc_publicOnly args) = false).
  { destruct (tc_publicOnly args) as [[|]|]; try reflexivity. congruence. }
  rewrite Hfalse.
  destruct (notPublicOnly (tc_publicOnly args)).
  - run. destruct (ctx_requireAuth ctx d) as [[user|]|e]; try discriminate.
    match goal with
    | |- context [collectTestcases ?k ?ids d] =>
        destruct (collectTestcases_keep k ids d) as [l [E Hl]]; rewrite E
    end.
    intros H Hin Hpriv. injection H as <- <-.
    rewrite Forall_forall in Hl. specialize (Hl t Hin). simpl in Hl.
    rewrite Hpriv in Hl. rewrite !orb_false_r in Hl.
    exists user, problem. repeat split.
    apply orb_true_iff in Hl. destruct Hl as [Hl | Hl].
    + left. now apply String.eqb_eq.
    + right. destruct (u_role user); [discriminate | reflexivity].
  - match goal with
    | |- context [collectTestcases ?k ?ids d] =>
        destruct (collectTestcases_keep k ids d) as [l [E Hl]]; rewrite E
    end.
    intros H Hin Hpriv. injection H as <- <-.
    rewrite Forall_forall in Hl. specialize (Hl t Hin). simpl in Hl.
    rewrite Hpriv in Hl. discriminate.
Qed.

(** C1, on the request [publicOnly: false].  Bob is authenticated, is
    neither the creator of the problem nor an admin, and receives the
    private testcase: the disjunct [args.publicOnly === false] lets every
    testcase through whatever [canSeeAll] is. *)
Theorem getProblemTestCases_publicOnly_false_discloses :
  getProblemTestCases (requestBy bob 0 "unused")
                      (mkGetProblemTestCasesArgs "PROB_1" (Some false))
                      problemStore
  = (Return [publicCase; privateCase], problemStore)
  /\ t_isPublic privateCase = false
  /\ p_creatorId sumProblem <> u__id bob
  /\ u_role bob <> ADMIN.
Proof.
  split; [reflexivity|]. repeat split; discriminate.
Qed.

(** *** Verdict aggregation: first failure wins *)

Lemma passed_eq_total (executions : list ExecutionOutcome) :
  List.length (filter isPass executions) = List.length executions
  <-> Forall (fun o => o = PASS) executions.
Proof.
  induction executions as [|o l IH]; simpl.
  - split; [constructor | reflexivity].
  - pose proof (filter_length_le isPass l) as Hle.
    destruct o; simpl; split; intros H;
      try (exfalso; lia);
      try (inversion H; discriminate).
    + constructor; [reflexivity|]. apply IH. lia.
    + inversion H; subst. f_equal. now apply IH.
Qed.

Lemma firstFailing_split (pre post : list ExecutionOutcome) (o : ExecutionOutcome) :
  Forall (fun o => o = PASS) pre -> o <> PASS ->
  firstFailing (pre ++ o :: post)%list = Some o.
Proof.
  intros Hpre Ho. unfold firstFailing.
  induction Hpre as [|p pre Hp _ IH]; simpl.
  - destruct o; try reflexivity. congruence.
  - subst p. simpl. exact IH.
Qed.

(** C4. For a terminal execution set without compile-time failure, the
    aggregated verdict is ACCEPTED if and only if every execution passes;
    otherwise it is the label of the first failing execution in testcase
    order, whatever follows it.  In particular the outcomes PASS,
    WRONG_ANSWER, TIME_LIMIT_EXCEEDED give WRONG_ANSWER. *)
Theorem aggregateVerdict_first_failure_wins
  (partialScoring : bool) (executions : list ExecutionOutcome) :
  existsb isCompileFailure executions = false ->
  (ag_verdict (aggregateVerdict partialScoring executions) = ACCEPTED
   <-> Forall (fun o => o = PASS) executions)
  /\ (forall pre o post,
        executions = (pre ++ o :: post)%list ->
        Forall (fun o => o = PASS) pre -> o <> PASS ->
        ag_verdict (aggregateVerdict partialScoring executions) = verdictLabel o)
  /\ ag_verdict (aggregateVerdict partialScoring
                   [PASS; FAIL_WRONG_ANSWER; FAIL_TIME_LIMIT_EXCEEDED])
     = WRONG_ANSWER.
Proof.
  intros NoCompile.
  assert (Split : forall pre o post,
             executions = (pre ++ o :: post)%list ->
             Forall (fun o => o = PASS) pre -> o <> PASS ->
             ag_verdict (aggregateVerdict partialScoring executions)
             = verdictLabel o).
  { intros pre o post E Hpre Ho. unfold aggregateVerdict. rewrite NoCompile.
    cbn [ag_verdict].
    destruct (Nat.eqb _ _) eqn:Eq.
    - apply Nat.eqb_eq in Eq. apply passed_eq_total in Eq.
      rewrite E in Eq. apply Forall_app in Eq. destruct Eq as [_ Eq].
      inversion Eq; subst. congruence.
    - rewrite E. now rewrite firstFailing_split. }
  split; [|split].
  - split.
    + intros Acc. apply passed_eq_total.
      destruct (Nat.eq_dec (List.length (filter isPass executions))
                           (List.length executions)) as [E | NE]; [exact E|].
      exfalso.
      assert (Hex : exists pre o post,
                 executions = (pre ++ o :: post)%list
                 /\ Forall (fun o => o = PASS) pre /\ o <> PASS).
      { clear - NE. induction executions as [|x l IH]; [simpl in NE; congruence|].
        destruct (isPass x) eqn:P.
        - destruct x; try discriminate. simpl in NE.
          destruct IH as [pre [o [post [E [Hp Ho]]]]]; [lia|].
          exists (PASS :: pre), o, post. subst l. repeat split; auto.
        - exists [], x, l. repeat split; [constructor|].
          intros ->. discriminate. }
      destruct Hex as [pre [o [post [E [Hp Ho]]]]].
      rewrite (Split pre o post E Hp Ho) in Acc.
      assert (o <> COMPILE_FAILURE).
      { intros ->. rewrite E, existsb_app in NoCompile. simpl in NoCompile.
        rewrite orb_true_r in NoCompile. discriminate. }
      destruct o; simpl in Acc; congruence.
    + intros All. unfold aggregateVerdict. rewrite NoCompile. cbn [ag_verdict].
      apply passed_eq_total in All. rewrite All, Nat.eqb_refl. reflexivity.
  - exact Split.
  - destruct partialScoring; reflexivity.
Qed.

Lemma aggregateVerdict_first_failure_wins_witness :
  ag_verdict (aggregateVerdict true
                [PASS; PASS; FAIL_RUNTIME_ERROR; PASS; FAIL_WRONG_ANSWER])
  = verdictLabel FAIL_RUNTIME_ERROR.
Proof.
  apply (proj1 (proj2 (aggregateVerdict_first_failure_wins true
                         [PASS; PASS; FAIL_RUNTIME_ERROR; PASS; FAIL_WRONG_ANSWER]
                         eq_refl))
               [PASS; PASS] FAIL_RUNTIME_ERROR [PASS; FAIL_WRONG_ANSWER]).
  - reflexivity.
  - repeat constructor.
  - discriminate.
Defined.

(** *** getProblemStats: the acceptance rate *)

Lemma Math_round_range (x : Q) :
  (0 <= x)%Q -> (x <= 10000)%Q ->
  (0 <= Qfloor (x + (1 # 2)) <= 10000)%Z.
Proof.
  intros H0 H1. split.
  - change 0%Z with (Qfloor 0). apply Qfloor_resp_le. lra.
  - change 10000%Z with (Qfloor (10000 + (1 # 2))). apply Qfloor_resp_le. lra.
Qed.

Lemma ratio_bounds (a t : Q) :
  (0 <= a)%Q -> (a <= t)%Q -> (0 < t)%Q -> (0 <= a / t)%Q /\ (a / t <= 1)%Q.
Proof.
  intros Ha Hat Ht. split.
  - apply Qle_shift_div_l; [exact Ht | lra].
  - apply Qle_shift_div_r; [exact Ht | lra].
Qed.

Lemma div_positive (a b : Q) : (0 < b)%Q -> Fin a / Fin b = roundToDouble (a / b).
Proof.
  intros Hb. unfold div. destruct (Qcompare b 0) eqn:C; try reflexivity.
  apply Qeq_alt in C. lra.
Qed.

(** The rate computed for [0 <= a <= t] and [0 < t]. *)
Lemma acceptanceRate_computed (a t : Q) :
  (0 <= a)%Q -> (a <= t)%Q -> (0 < t)%Q ->
  exists (n : Z) (r : Q),
    Math_round ((Fin a / Fin t) * 100 * 100) = Fin (inject_Z n)
    /\ Fin (inject_Z n) / 100 = Fin r
    /\ (0 <= n <= 10000)%Z
    /\ (Qabs (inject_Z n - 10000 * a / t) <= (1 # 2) + (1 # 2 ^ 38))%Q
    /\ (0 <= r)%Q /\ (r <= 100)%Q.
Proof.
  intros Ha Hat Ht.
  destruct (ratio_bounds a t Ha Hat Ht) as [Q0 Q1].
  rewrite (div_positive a t Ht).
  destruct (roundToDouble_bounded (a / t) 1 Q0 Q1 eq_refl)
    as [y0 [-> [L0 [U0 E0]]]].
  change (Fin y0 * 100) with (roundToDouble (y0 * 100)).
  assert (U0' : (y0 * 100 <= 100)%Q) by lra.
  assert (L0' : (0 <= y0 * 100)%Q) by lra.
  destruct (roundToDouble_bounded (y0 * 100) 100 L0' U0' eq_refl)
    as [y1 [-> [L1 [U1 E1]]]].
  change (Fin y1 * 100) with (roundToDouble (y1 * 100)).
  assert (U1' : (y1 * 100 <= 10000)%Q) by lra.
  assert (L1' : (0 <= y1 * 100)%Q) by lra.
  destruct (roundToDouble_bounded (y1 * 100) 10000 L1' U1' eq_refl)
    as [y2 [-> [L2 [U2 E2]]]].
  cbn [Math_round].
  set (n := Qfloor (y2 + (1 # 2))).
  destruct (Math_round_range y2 L2 U2) as [N0 N1]. fold n in N0, N1.
  assert (B0 : (0 <= inject_Z n / 100)%Q).
  { apply Qle_shift_div_l; [lra|].
    change 0%Q with (inject_Z 0 * 100)%Q. rewrite Qmult_0_l.
    change 0%Q with (inject_Z 0). rewrite <- Zle_Qle. exact N0. }
  assert (B1 : (inject_Z n / 100 <= 100)%Q).
  { apply Qle_shift_div_r; [lra|].
    change (100 * 100)%Q with (inject_Z 10000). rewrite <- Zle_Qle. exact N1. }
  destruct (roundToDouble_bounded (inject_Z n / 100) 100 B0 B1 eq_refl)
    as [r [Er [Lr [Ur _]]]].
  exists n, r. split; [reflexivity|].
  split; [rewrite div_positive by lra; exact Er|].
  split; [exact (conj N0 N1)|]. split; [|split; assumption].
  assert (H1 : (halfUlp 1 == 1 # 2 ^ 53)%Q) by (vm_compute; reflexivity).
  assert (H2 : (halfUlp 100 == 1 # 2 ^ 47)%Q) by (vm_compute; reflexivity).
  assert (H3 : (halfUlp 10000 == 1 # 2 ^ 40)%Q) by (vm_compute; reflexivity).
  rewrite H1 in E0. rewrite H2 in E1. rewrite H3 in E2.
  apply Qabs_Qle_condition in E0. apply Qabs_Qle_condition in E1.
  apply Qabs_Qle_condition in E2.
  pose proof (Qfloor_le (y2 + (1 # 2))) as F1.
  pose proof (Qlt_floor (y2 + (1 # 2))) as F2. fold n in F1, F2.
  rewrite inject_Z_plus in F2. change (inject_Z 1) with 1%Q in F2.
  assert (X : (10000 * a / t == 10000 * (a / t))%Q) by (field; lra).
  rewrite X. set (x := (a / t)%Q) in *.
  apply Qabs_Qle_condition.
  change (1 # 2 ^ 53)%Q with (1 # 9007199254740992)%Q in E0.
  change (1 # 2 ^ 47)%Q with (1 # 140737488355328)%Q in E1.
  change (1 # 2 ^ 40)%Q with (1 # 1099511627776)%Q in E2.
  change (1 # 2 ^ 38)%Q with (1 # 274877906944)%Q.
  split; lra.
Qed.

(** C8, as amended.  For a statistics record whose counters satisfy
    [0 <= acceptedSubmissions <= totalSubmissions] with [totalSubmissions]
    finite, [getProblemStats] returns the two counters and an
    [acceptanceRate] that is 0 when [totalSubmissions = 0] (the division is
    not evaluated) and otherwise the double [n / 100] for a whole number
    [n] of hundredths between 0 and 10000 that is the percentage
    [acceptedSubmissions / totalSubmissions * 100] rounded to two decimal
    places up to the rounding errors of the double operations; in both
    cases the rate lies between 0 and 100. *)
Theorem getProblemStats_acceptanceRate
  (problemId : string) (d : DB) (problem : Problem) (stats : ProblemStats) :
  first (fun p => String.eqb (p_problemId p) problemId) (problems d)
  = Some problem ->
  first (fun s => String.eqb (ps_problemId s) (p__id problem)) (problemStats d)
  = Some stats ->
  0 <= ps_acceptedSubmissions stats ->
  ps_acceptedSubmissions stats <= ps_totalSubmissions stats ->
  ps_totalSubmissions stats < Infinity ->
  exists r,
    getProblemStats problemId d = (Return (HasStats r), d)
    /\ st_totalSubmissions r = ps_totalSubmissions stats
    /\ st_acceptedSubmissions r = ps_acceptedSubmissions stats
    /\ (ps_totalSubmissions stats == 0 ->
        acceptanceRate (ps_totalSubmissions stats) (ps_acceptedSubmissions stats)
        = 0
        /\ st_acceptanceRate r == 0)
    /\ (0 < ps_totalSubmissions stats ->
        exists n : Z,
          (0 <= n <= 10000)%Z
          /\ hundredthsOf (ps_acceptedSubmissions stats)
                          (ps_totalSubmissions stats) n
          /\ st_acceptanceRate r = Fin (inject_Z n) / 100)
    /\ 0 <= st_acceptanceRate r /\ st_acceptanceRate r <= 100.
Proof.
  intros Hp Hs H0 Hle Hfin. unfold getProblemStats.
  unfold bind at 1. rewrite read_run, Hp.
  unfold bind at 1. rewrite read_run, Hs. unfold ret.
  eexists. split; [reflexivity|].
  cbn [st_totalSubmissions st_acceptedSubmissions st_acceptanceRate].
  split; [reflexivity|]. split; [reflexivity|].
  destruct (ps_acceptedSubmissions stats) as [a| | |];
    destruct (ps_totalSubmissions stats) as [t| | |];
    cbn [ltb leb] in H0, Hle, Hfin; try discriminate.
  apply Qle_bool_iff in H0. apply Qle_bool_iff in Hle.
  unfold acceptanceRate, gtb. cbn [ltb strictEq].
  destruct (Qlt_bool 0 t) eqn:Pos.
  - apply Qlt_bool_iff in Pos.
    destruct (acceptanceRate_computed a t H0 Hle Pos)
      as [n [r [-> [E [Hn [Hh [R0 R1]]]]]]].
    split; [intros Z0; lra|]. split; [|split].
    + intros _. exists n. split; [exact Hn|]. split; [|reflexivity].
      exists a, t. split; [reflexivity|]. split; [reflexivity | exact Hh].
    + rewrite E. cbn [leb]. now apply Qle_bool_iff.
    + rewrite E. cbn [leb]. now apply Qle_bool_iff.
  - split; [|split; [|split]].
    + intros _. split; reflexivity.
    + intros Pos'. discriminate.
    + reflexivity.
    + reflexivity.
Qed.

Lemma getProblemStats_acceptanceRate_witness :
  exists r,
    getProblemStats "PROB_1" statsStore = (Return (HasStats r), statsStore)
    /\ (exists n : Z,
          (0 <= n <= 10000)%Z
          /\ hundredthsOf 1 3 n
          /\ st_acceptanceRate r = Fin (inject_Z n) / 100)
    /\ 0 <= st_acceptanceRate r /\ st_acceptanceRate r <= 100.
Proof.
  destruct (getProblemStats_acceptanceRate "PROB_1" statsStore sumProblem sumStats
              eq_refl eq_refl eq_refl eq_refl eq_refl)
    as [r [E [_ [_ [_ [H [H0 H1]]]]]]].
  exists r. split; [exact E|]. split; [|split; assumption].
  apply H. reflexivity.
Defined.

(** C8, as stated, fails on three records that satisfy
    [acceptedSubmissions <= totalSubmissions].  With -1 accepted of 3 the
    rate is negative.  With 23 accepted of 160 the percentage is 14.375 and
    the rate is below 14.37, more than half a hundredth away.  With both
    counters infinite the rate is NaN. *)
Lemma getProblemStats_acceptanceRate_counterexample :
  (exists r,
     getProblemStats "PROB_1" (statsOf 3 (-1))
     = (Return (HasStats r), statsOf 3 (-1))
     /\ Fin (-1) <= 3
     /\ st_acceptanceRate r < 0)
  /\ (exists r,
        getProblemStats "PROB_1" (statsOf 160 23)
        = (Return (HasStats r), statsOf 160 23)
        /\ Fin 23 <= 160
        /\ st_acceptanceRate r < 1437 # 100)
  /\ (exists r,
        getProblemStats "PROB_1" (statsOf Infinity Infinity)
        = (Return (HasStats r), statsOf Infinity Infinity)
        /\ Infinity <= Infinity
        /\ st_acceptanceRate r = NaN).
Proof.
  split; [|split]; eexists; (split; [vm_compute; reflexivity|]);
    split; vm_compute; reflexivity.
Qed.

(** On the operands met in these examples, the quotient, the product, the
    sum and the difference of numbers are those the machine computes on
    binary64 values. *)
Example operations_as_on_binary64 :
  Fin 40 + 20 = ofFloat (PrimFloat.add (toFloat 40) (toFloat 20))
  /\ Fin 5 - 20 = ofFloat (PrimFloat.sub (toFloat 5) (toFloat 20))
  /\ Fin 100000 + (1 # 2) * 900000
     = ofFloat (PrimFloat.add (toFloat 100000)
                  (PrimFloat.mul (PrimFloat.div (toFloat 1) (toFloat 2))
                                 (toFloat 900000)))
  /\ Fin 23 / 160 = ofFloat (PrimFloat.div (toFloat 23) (toFloat 160))
  /\ Fin 23 / 160 * 100
     = ofFloat (PrimFloat.mul (PrimFloat.div (toFloat 23) (toFloat 160))
                              (toFloat 100))
  /\ Fin 23 / 160 * 100 * 100
     = ofFloat (PrimFloat.mul
                  (PrimFloat.mul (PrimFloat.div (toFloat 23) (toFloat 160))
                                 (toFloat 100))
                  (toFloat 100))
  /\ Fin 1437 / 100 = ofFloat (PrimFloat.div (toFloat 1437) (toFloat 100))
  /\ Fin 1 / 3 * 100 * 100
     = ofFloat (PrimFloat.mul
                  (PrimFloat.mul (PrimFloat.div (toFloat 1) (toFloat 3))
                                 (toFloat 100))
                  (toFloat 100))
  /\ Fin 3333 / 100 = ofFloat (PrimFloat.div (toFloat 3333) (toFloat 100))
  /\ Fin (-1) / 3 = ofFloat (PrimFloat.div (PrimFloat.opp (toFloat 1)) (toFloat 3))
  /\ Fin 1 / 0 = ofFloat (PrimFloat.div (toFloat 1) (toFloat 0))
  /\ Fin 0 / 0 = ofFloat (PrimFloat.div (toFloat 0) (toFloat 0)).
Proof.
  vm_compute. repeat split.
Qed.

(** The rate for 23 accepted of 160 is the double nearest to 14.37. *)
Example getProblemStats_23_of_160 :
  exists r,
    getProblemStats "PROB_1" (statsOf 160 23)
    = (Return (HasStats r), statsOf 160 23)
    /\ st_acceptanceRate r = roundToDouble (1437 # 100)
    /\ st_acceptanceRate r == 8089590830664253 # 562949953421312.
Proof.
  eexists. split; [vm_compute; reflexivity|]. split; vm_compute; reflexivity.
Qed.

(** *** Contest capacity *)

(** C9, on a fractional capacity.  [createContest] accepts [maxSize = 1/2]
    (it is positive) and, with [addSelf], seeds one participant: the
    contest it inserts has more participants than its capacity. *)
Theorem createContest_fractional_maxSize_over_capacity :
  exists c d',
    createContest (requestBy alice 0 "contests:2")
      (mkCreateContestArgs "Tiny" "Half a seat" 5 20 true (1 # 2) true)
      (storeWith [alice] [] [])
    = (Return ("Contest created successfully!", "contests:2"), d')
    /\ contests d' = [c]
    /\ c_users c = ["users:1"]
    /\ c_maxSize c = 1 # 2
    /\ ~ withinCapacity c.
Proof.
  eexists. eexists. split; [vm_compute; reflexivity|].
  repeat split. vm_compute. discriminate.
Qed.

(** [joinContest] has the same gap: with capacity 3/2 and one participant
    the contest is not full, and the join brings it to two participants. *)
Example joinContest_fractional_maxSize_over_capacity :
  let halfOpen :=
    mkContest "contests:3" "contest_0_jjjjjjj" "Pair" "One and a half seats"
              "users:1" 0 10 true (3 # 2) [] ["users:1"] 0 in
  exists c d',
    joinContest (requestBy bob 3 "unused") "contest_0_jjjjjjj"
                (storeWith [alice; bob] [halfOpen] [])
    = (Return ("Joined contest: Pair successfully", true), d')
    /\ withinCapacity halfOpen
    /\ contests d' = [c]
    /\ c_users c = ["users:1"; "users:2"]
    /\ ~ withinCapacity c.
Proof.
  eexists. eexists. split; [vm_compute; reflexivity|].
  repeat split. vm_compute. discriminate.
Qed.

(** With whole capacities the invariant does hold.  The store keeps the
    identifiers of its documents distinct; the invariant is stated on the
    [contests] table together with that fact. *)

Lemma len_le {A B : Type} (l : list A) (l' : list B) :
  len l <= len l' <-> (List.length l <= List.length l')%nat.
Proof.
  unfold len. cbn [leb]. rewrite Qle_bool_iff, <- Zle_Qle. lia.
Qed.

Lemma len_filter_le {A : Type} (f : A -> bool) (l : list A) :
  len (filter f l) <= len l.
Proof.
  apply len_le. apply filter_length_le.
Qed.

(** Below a whole capacity there is room for one more. *)
Lemma integral_next {A : Type} (m : number) (l : list A) (x : A) :
  integral m -> ~ len l >= m -> len (l ++ [x]) <= m.
Proof.
  intros [k Hk] Hlt. unfold len, geb in *. rewrite length_app. cbn [List.length].
  destruct m as [q| | |]; cbn [strictEq leb] in *; try contradiction.
  apply not_true_is_false in Hlt. apply Qle_bool_false_iff in Hlt.
  apply Qle_bool_iff. rewrite Hk in *. rewrite <- Zlt_Qlt in Hlt.
  rewrite <- Zle_Qle. lia.
Qed.

(** A whole capacity that is positive holds one participant. *)
Lemma integral_positive (m : number) (l : list Id) :
  integral m -> ~ m <= 0 -> (List.length l <= 1)%nat -> len l <= m.
Proof.
  intros [k Hk] Hpos Hl. unfold len.
  destruct m as [q| | |]; cbn [strictEq leb] in *; try contradiction.
  apply not_true_is_false in Hpos. apply Qle_bool_false_iff in Hpos.
  apply Qle_bool_iff. rewrite Hk in *.
  change 0%Q with (inject_Z 0) in Hpos. rewrite <- Zlt_Qlt in Hpos.
  rewrite <- Zle_Qle. lia.
Qed.

Lemma NoDup_map_eq {A B : Type} (g : A -> B) (l : list A) (x y : A) :
  NoDup (map g l) -> In x l -> In y l -> g x = g y -> x = y.
Proof.
  induction l as [|a l IH]; simpl; [tauto|].
  intros ND Hx Hy E. inversion ND as [|? ? Hnot ND']; subst.
  destruct Hx as [-> | Hx]; destruct Hy as [-> | Hy].
  - reflexivity.
  - exfalso. apply Hnot. rewrite E. now apply in_map.
  - exfalso. apply Hnot. rewrite <- E. now apply in_map.
  - now apply IH.
Qed.

Lemma patchIn_capacity (l : list Contest) (c : Contest) (f : Contest -> Contest) :
  capacityInvariant l -> In c l ->
  (forall x, c__id (f x) = c__id x) ->
  withinCapacity (f c) /\ integral (c_maxSize (f c)) ->
  capacityInvariant (patchIn c__id (c__id c) f l).
Proof.
  intros [ND All] Hin Hid Hc. unfold capacityInvariant, patchIn. split.
  - rewrite map_map.
    erewrite map_ext; [exact ND|].
    intros x. simpl. destruct (String.eqb (c__id x) (c__id c)); auto.
  - apply Forall_map. rewrite Forall_forall in *. intros x Hx.
    destruct (String.eqb (c__id x) (c__id c)) eqn:E.
    + apply String.eqb_eq in E.
      rewrite (NoDup_map_eq c__id l x c ND Hx Hin E). exact Hc.
    + auto.
Qed.

Lemma filter_capacity (p : Contest -> bool) (l : list Contest) :
  capacityInvariant l -> capacityInvariant (filter p l).
Proof.
  intros [ND All]. split.
  - clear All. induction l as [|a l IH]; simpl; [constructor|].
    inversion ND as [|? ? Hnot ND']; subst.
    destruct (p a); simpl; [|auto].
    constructor; [|auto]. intros Hin. apply Hnot.
    apply in_map_iff in Hin. destruct Hin as [x [Hx Hf]].
    apply filter_In in Hf. apply in_map_iff. exists x. tauto.
  - rewrite Forall_forall in *. intros x Hx. apply filter_In in Hx.
    apply All. tauto.
Qed.

Lemma patchUser_contests (id : Id) (f : User -> User) (d : DB) :
  contests (snd (patchUser id f d)) = contests d.
Proof.
  unfold patchUser. destruct (existsb _ _); reflexivity.
Qed.

Lemma patchContest_contests (id : Id) (f : Contest -> Contest) (d : DB) :
  contests (snd (patchContest id f d)) = contests d
  \/ contests (snd (patchContest id f d)) = patchIn c__id id f (contests d).
Proof.
  unfold patchContest. destruct (existsb _ _); [right | left]; reflexivity.
Qed.

Lemma bind_snd {A B : Type} (m : Handler A) (k : A -> Handler B) (d : DB) :
  snd (bind m k d)
  = match fst (m d) with
    | Return a => snd (k a (snd (m d)))
    | Throw _ => snd (m d)
    end.
Proof.
  unfold bind. destruct (m d) as [[a | e] d']; reflexivity.
Qed.

Lemma forEach_contests {A : Type} (body : A -> Handler unit) (xs : list A) :
  (forall x d, contests (snd (body x d)) = contests d) ->
  forall d, contests (snd (forEach xs body d)) = contests d.
Proof.
  intros Hbody. induction xs as [|x xs IH]; intros d; cbn [forEach].
  - reflexivity.
  - rewrite bind_snd. destruct (fst (body x d)).
    + rewrite IH. apply Hbody.
    + apply Hbody.
Qed.

Lemma mapM_getUserDoc_store (ids : list Id) (d : DB) :
  exists us, mapM getUserDoc ids d = (Return us, d).
Proof.
  induction ids as [|id ids [us E]]; cbn [mapM].
  - exists []. reflexivity.
  - unfold bind at 1. change (getUserDoc id d) with
      (Return (find (fun u => String.eqb (u__id u) id) (users d)), d).
    unfold bind at 1. rewrite E. eexists. reflexivity.
Qed.

Lemma createContest_preserves_capacity
  (ctx : Ctx) (args : CreateContestArgs) (d : DB) :
  integral (cc_maxSize args) ->
  ~ In (ctx_newId ctx) (map c__id (contests d)) ->
  capacityInvariant (contests d) ->
  capacityInvariant (contests (snd (createContest ctx args d))).
Proof.
  intros Hint Hfresh Inv. unfold createContest, insertContest. run.
  destruct (ctx_requireAuth ctx d) as [[user|]|e]; try exact Inv.
  destruct (ltb (cc_startTime args) (Date_now ctx)); [exact Inv|].
  destruct (leb (cc_endTime args) (cc_startTime args)); [exact Inv|].
  destruct (leb (cc_maxSize args) 0) eqn:Pos; [exact Inv|].
  match goal with
  | |- context [patchUser ?i ?f ?s] =>
      assert (E : contests (snd (patchUser i f s)) = contests s)
        by apply patchUser_contests;
      destruct (patchUser i f s) as [[[]|e] d1]
  end; cbn [snd] in *; rewrite E; simpl.
  all: destruct Inv as [ND All]; split.
  all: try (rewrite map_app; simpl; apply NoDup_app;
            [exact ND | repeat constructor; simpl; tauto
            | intros a Ha [<- | []]; contradiction]).
  all: apply Forall_app; split; [exact All|]; repeat constructor;
       try exact Hint; unfold withinCapacity; cbn [c_users c_maxSize].
  all: apply integral_positive;
       [exact Hint | rewrite Pos; discriminate
       | destruct (cc_addSelf args); simpl; lia].
Qed.

Ltac through_patchUser :=
  match goal with
  | |- context [patchUser ?i ?f ?s] =>
      let E := fresh "E" in
      assert (E : contests (snd (patchUser i f s)) = contests s)
        by apply patchUser_contests;
      destruct (patchUser i f s) as [[[]|?] ?]; cbn [snd] in *; rewrite E; simpl
  end.

Lemma joinContest_preserves_capacity (ctx : Ctx) (contestId : string) (d : DB) :
  capacityInvariant (contests d) ->
  capacityInvariant (contests (snd (joinContest ctx contestId d))).
Proof.
  intros Inv. unfold joinContest. run.
  destruct (ctx_requireAuth ctx d) as [[user|]|e]; try exact Inv.
  unfold unique.
  destruct (filter (fun c => String.eqb (c_contestId c) contestId) (contests d))
    as [|c [|c' rest]] eqn:Sel; run; try exact Inv.
  destruct (filter_singleton_In _ _ _ _ Sel) as [Hin _].
  destruct (negb (c_isPublic c)); [exact Inv|].
  destruct (includes (c_users c) (u__id user)); [exact Inv|].
  destruct (geb (len (c_users c)) (c_maxSize c)) eqn:Full; [exact Inv|].
  destruct (gtb (Date_now ctx) (c_endTime c)); [exact Inv|].
  unfold patchContest.
  destruct (existsb (fun c0 => String.eqb (c__id c0) (c__id c)) (contests d));
    [|exact Inv].
  assert (Hc : withinCapacity c /\ integral (c_maxSize c)).
  { destruct Inv as [_ All]. rewrite Forall_forall in All. now apply All. }
  assert (New : capacityInvariant
                  (patchIn c__id (c__id c)
                     (withUsers (c_users c ++ [u__id user]) (Date_now ctx))
                     (contests d))).
  { apply patchIn_capacity; auto.
    split; [|apply Hc]. unfold withinCapacity. cbn [withUsers c_users c_maxSize].
    apply integral_next; [apply Hc | rewrite Full; discriminate]. }
  through_patchUser; exact New.
Qed.

Lemma leaveContest_preserves_capacity (ctx : Ctx) (contestId : string) (d : DB) :
  capacityInvariant (contests d) ->
  capacityInvariant (contests (snd (leaveContest ctx contestId d))).
Proof.
  intros Inv. unfold leaveContest. run.
  destruct (ctx_requireAuth ctx d) as [[user|]|e]; try exact Inv.
  unfold unique.
  destruct (filter (fun c => String.eqb (c_contestId c) contestId) (contests d))
    as [|c [|c' rest]] eqn:Sel; run; try exact Inv.
  destruct (filter_singleton_In _ _ _ _ Sel) as [Hin _].
  destruct (negb (includes (c_users c) (u__id user))); [exact Inv|].
  destruct (geb (Date_now ctx) (c_startTime c)); [exact Inv|].
  unfold patchContest.
  destruct (existsb (fun c0 => String.eqb (c__id c0) (c__id c)) (contests d));
    [|exact Inv].
  assert (Hc : withinCapacity c /\ integral (c_maxSize c)).
  { destruct Inv as [_ All]. rewrite Forall_forall in All. now apply All. }
  assert (New : capacityInvariant
                  (patchIn c__id (c__id c)
                     (withUsers (removeId (u__id user) (c_users c)) (Date_now ctx))
                     (contests d))).
  { apply patchIn_capacity; auto.
    split; [|apply Hc]. unfold withinCapacity, removeId, withUsers.
    cbn [c_users c_maxSize].
    destruct Hc as [Hc _]. unfold withinCapacity in Hc.
    eapply le_trans; [apply len_filter_le | exact Hc]. }
  through_patchUser; exact New.
Qed.

Lemma updateContest_preserves_capacity (ctx : Ctx) (args : UpdateContestArgs) (d : DB) :
  (forall m, uc_maxSize args = Some m -> integral m) ->
  capacityInvariant (contests d) ->
  capacityInvariant (contests (snd (updateContest ctx args d))).
Proof.
  intros Hint Inv. unfold updateContest. run.
  destruct (ctx_requireAuth ctx d) as [[user|]|e]; try exact Inv.
  destruct (first (fun c => String.eqb (c_contestId c) (uc_contestId args))
                  (contests d)) as [c|] eqn:Sel; [|exact Inv].
  apply find_some in Sel. destruct Sel as [Hin _].
  assert (Hc : withinCapacity c /\ integral (c_maxSize c)).
  { destruct Inv as [_ All]. rewrite Forall_forall in All. now apply All. }
  assert (Patch :
             (forall m, uc_maxSize args = Some m -> len (c_users c) <= m) ->
             capacityInvariant
               (contests (snd (patchContest (c__id c)
                                 (applyUpdate args (Date_now ctx)) d)))).
  { intros Hm.
    destruct (patchContest_contests (c__id c) (applyUpdate args (Date_now ctx)) d)
      as [-> | ->]; [exact Inv|].
    apply patchIn_capacity; auto. unfold withinCapacity, applyUpdate.
    cbn [c_users c_maxSize].
    destruct (uc_maxSize args) as [m'|] eqn:M; cbn [orElse].
    - split; [now apply Hm | now apply Hint].
    - exact Hc. }
  repeat match goal with
         | |- context [if ?b then _ else _] => destruct b eqn:?; [exact Inv|]
         end.
  destruct (uc_maxSize args) as [m|] eqn:M.
  - destruct (leb m 0); [exact Inv|].
    destruct (ltb m (len (c_users c))) eqn:Lt; [exact Inv|].
    assert (Room : len (c_users c) <= m).
    { destruct (Hint m eq_refl) as [k Hk].
      apply not_gt_le; [discriminate | | unfold gtb; rewrite Lt; discriminate].
      intros ->. exact Hk. }
    destruct (patchContest (c__id c) (applyUpdate args (Date_now ctx)) d)
      as [[[]|?] ?]; cbn [snd] in *; apply Patch; intros m0 E;
      injection E as <-; exact Room.
  - destruct (patchContest (c__id c) (applyUpdate args (Date_now ctx)) d)
      as [[[]|?] ?]; cbn [snd] in *; apply Patch; discriminate.
Qed.

Lemma deleteContest_preserves_capacity (ctx : Ctx) (contestId : string) (d : DB) :
  capacityInvariant (contests d) ->
  capacityInvariant (contests (snd (deleteContest ctx contestId d))).
Proof.
  intros Inv. unfold deleteContest.
  rewrite bind_snd. unfold requireAuth. cbn [fst snd].
  destruct (ctx_requireAuth ctx d) as [[user|]|e]; try exact Inv.
  rewrite bind_snd. rewrite !read_run. cbn [fst snd].
  rewrite bind_snd.
  destruct (unique_cases (fun c => String.eqb (c_contestId c) contestId)
                         (contests d) d) as [[-> _] | [[c [-> _]] | [e ->]]];
    cbn [fst snd]; try exact Inv.
  destruct (negb (String.eqb (c_creatorId c) (u__id user))
            && negb (Role_eqb (u_role user) ADMIN)); [exact Inv|].
  rewrite bind_snd. rewrite !read_run. cbn [fst snd].
  destruct (isSome _); [exact Inv|].
  rewrite bind_snd. rewrite !read_run. cbn [fst snd].
  rewrite bind_snd.
  match goal with
  | |- context [forEach ?xs ?body d] =>
      assert (E1 : contests (snd (forEach xs body d)) = contests d)
        by (apply forEach_contests; intros; reflexivity);
      destruct (forEach xs body d) as [[[]|?] d1]
  end; cbn [fst snd] in *; [|rewrite E1; exact Inv].
  rewrite bind_snd.
  destruct (mapM_getUserDoc_store (c_users c) d1) as [us ->]. cbn [fst snd].
  rewrite bind_snd.
  match goal with
  | |- context [forEach ?xs ?body d1] =>
      assert (E2 : contests (snd (forEach xs body d1)) = contests d1)
        by (apply forEach_contests; intros [p|] s;
            [apply patchUser_contests | reflexivity]);
      destruct (forEach xs body d1) as [[[]|?] d2]
  end; cbn [fst snd] in *; [|rewrite E2, E1; exact Inv].
  rewrite bind_snd. unfold deleteContestDoc, write. cbn [fst snd].
  unfold ret. cbn [snd contests setContests].
  rewrite E2, E1. apply filter_capacity. exact Inv.
Qed.

(** X1. When the capacities passed to [createContest] and [updateContest]
    are whole numbers, [users.length <= maxSize] is preserved by every mutation
    of [contests.ts]. *)
Lemma capacity_preserved_for_whole_capacities
  (ctx : Ctx) (m : Mutation) (d : DB) :
  wholeCapacity m ->
  ~ In (ctx_newId ctx) (map c__id (contests d)) ->
  capacityInvariant (contests d) ->
  capacityInvariant (contests (runMutation ctx m d)).
Proof.
  intros Hw Hfresh Inv. destruct m; simpl in *.
  - now apply createContest_preserves_capacity.
  - now apply updateContest_preserves_capacity.
  - now apply deleteContest_preserves_capacity.
  - now apply joinContest_preserves_capacity.
  - now apply leaveContest_preserves_capacity.
Qed.

(** *** The handlers on their success paths *)

Example createContest_success :
  let d' := snd (createContest (requestBy alice 0 "contests:2")
                   (mkCreateContestArgs " Spring " "Open round" 5 20 true 3 true)
                   (storeWith [alice] [] [])) in
  map (fun c => (c_contestId c, c_name c, c_users c)) (contests d')
  = [("contest_0_i", "Spring", ["users:1"])]
  /\ map (fun u => (u_createdContests u, u_participatedContests u)) (users d')
     = [(["contests:2"], ["contests:2"])].
Proof. vm_compute. split; reflexivity. Qed.

Example joinContest_success :
  let d' := snd (joinContest (requestBy bob 3 "unused") "contest_0_iiiiiii"
                   (storeWith [alice; bob] [weekly []] [])) in
  map c_users (contests d') = [["users:2"]]
  /\ map u_participatedContests (users d') = [[]; ["contests:1"]].
Proof. vm_compute. split; reflexivity. Qed.

Example leaveContest_before_start :
  let d' := snd (leaveContest (requestBy bob (-1) "unused") "contest_0_iiiiiii"
                   (storeWith [alice; bob] [weekly ["users:2"]] [])) in
  fst (leaveContest (requestBy bob (-1) "unused") "contest_0_iiiiiii"
         (storeWith [alice; bob] [weekly ["users:2"]] []))
  = Return ("Successfully left the contest", true)
  /\ map c_users (contests d') = [[]].
Proof. vm_compute. split; reflexivity. Qed.

Example deleteContest_without_submissions :
  deleteContest (requestBy alice 20 "unused") "contest_0_iiiiiii"
                (storeWith [alice; bob] [weekly ["users:2"]] [])
  = (Return ("Contest deleted successfully", true),
     storeWith [alice; bob] [] []).
Proof. vm_compute. reflexivity. Qed.

Example getProblem_hides_private_case :
  option_map pv_testcases
    (match fst (getProblem "PROB_1" problemStore) with
     | Return r => Some r
     | Throw _ => None
     end)
  = Some [publicCase].
Proof. vm_compute. reflexivity. Qed.

Example getProblemTestCases_default_hides_private_case :
  fst (getProblemTestCases (requestBy bob 0 "unused")
         (mkGetProblemTestCasesArgs "PROB_1" None) problemStore)
  = Return [publicCase].
Proof. vm_compute. reflexivity. Qed.

Example aggregateVerdict_three_of_five :
  let a := aggregateVerdict true
             [PASS; FAIL_TIME_LIMIT_EXCEEDED; PASS; PASS; FAIL_WRONG_ANSWER] in
  ag_verdict a = TIME_LIMIT_EXCEEDED /\ ag_passed a = 3%nat
  /\ ag_total a = 5%nat /\ ag_score a == 60.
Proof. vm_compute. repeat split. Qed.

(** ** Further properties of the handlers *)

(** *** Arrays: sort and slice *)

Lemma sortInsert_In {A : Type} (cmp : A -> A -> number) (x y : A) (l : list A) :
  In y (sortInsert cmp x l) <-> y = x \/ In y l.
Proof.
  induction l as [|a l IH]; cbn [sortInsert].
  - simpl. intuition.
  - destruct (gtb (cmp x a) 0); cbn [In]; [rewrite IH; intuition | intuition].
Qed.

Lemma sort_In {A : Type} (cmp : A -> A -> number) (y : A) (l : list A) :
  In y (sort cmp l) <-> In y l.
Proof.
  unfold sort. induction l as [|a l IH]; simpl; [tauto|].
  rewrite sortInsert_In, IH. intuition.
Qed.

Lemma sortInsert_length {A : Type} (cmp : A -> A -> number) (x : A) (l : list A) :
  List.length (sortInsert cmp x l) = S (List.length l).
Proof.
  induction l as [|a l IH]; cbn [sortInsert]; [reflexivity|].
  destruct (gtb (cmp x a) 0); cbn [List.length]; [now rewrite IH | reflexivity].
Qed.

Lemma sort_length {A : Type} (cmp : A -> A -> number) (l : list A) :
  List.length (sort cmp l) = List.length l.
Proof.
  unfold sort. induction l as [|a l IH]; simpl; [reflexivity|].
  now rewrite sortInsert_length, IH.
Qed.

(** The array is sorted for an order [R] that the comparator decides on
    the elements that satisfy [P], and that is transitive on them. *)
Section SortedArrays.
Context {A : Type} (cmp : A -> A -> number) (P : A -> Prop) (R : A -> A -> Prop).
Hypothesis stays_before :
  forall a b, P a -> P b -> gtb (cmp a b) 0 = false -> R a b.
Hypothesis goes_after :
  forall a b, P a -> P b -> gtb (cmp a b) 0 = true -> R b a.
Hypothesis R_trans :
  forall a b c, P a -> P b -> P c -> R a b -> R b c -> R a c.

Lemma sortInsert_Forall (x : A) (l : list A) :
  P x -> Forall P l -> Forall P (sortInsert cmp x l).
Proof.
  intros Hx Hl. apply Forall_forall. intros y Hy. apply sortInsert_In in Hy.
  destruct Hy as [-> | Hy]; [exact Hx|]. rewrite Forall_forall in Hl. auto.
Qed.

Lemma sortInsert_sorted (x : A) (l : list A) :
  P x -> Forall P l ->
  StronglySorted R l -> StronglySorted R (sortInsert cmp x l).
Proof.
  intros Hx. induction l as [|a l IH]; intros Hl Hs; cbn [sortInsert].
  - repeat constructor.
  - apply StronglySorted_inv in Hs. destruct Hs as [Hsl Ha].
    apply Forall_cons_iff in Hl. destruct Hl as [Pa Pl].
    destruct (gtb (cmp x a) 0) eqn:E.
    + constructor; [now apply IH|].
      apply Forall_forall. intros y Hy. apply sortInsert_In in Hy.
      destruct Hy as [-> | Hy]; [now apply goes_after|].
      rewrite Forall_forall in Ha. now apply Ha.
    + assert (Rxa : R x a) by now apply stays_before.
      constructor.
      * now constructor.
      * constructor; [exact Rxa|].
        rewrite Forall_forall in *. intros b Hb.
        apply (R_trans x a b); auto.
Qed.

Lemma sort_sorted (l : list A) :
  Forall P l -> Forall P (sort cmp l) /\ StronglySorted R (sort cmp l).
Proof.
  unfold sort. induction l as [|a l IH]; intros Hl; cbn [fold_right].
  - split; constructor.
  - apply Forall_cons_iff in Hl. destruct Hl as [Pa Pl].
    destruct (IH Pl) as [F S]. split.
    + now apply sortInsert_Forall.
    + now apply sortInsert_sorted.
Qed.
End SortedArrays.

Lemma StronglySorted_impl {A : Type} (R S : A -> A -> Prop) (l : list A) :
  (forall a b, R a b -> S a b) -> StronglySorted R l -> StronglySorted S l.
Proof.
  intros HRS. induction 1 as [|a l _ IH Ha]; constructor; [exact IH|].
  eapply Forall_impl; [|exact Ha]. auto.
Qed.

Lemma In_firstn {A : Type} (n : nat) (l : list A) (x : A) :
  In x (firstn n l) -> In x l.
Proof.
  revert l. induction n as [|n IH]; intros [|a l]; simpl; try tauto.
  intros [-> | H]; [now left | right; now apply IH].
Qed.

Lemma In_skipn {A : Type} (n : nat) (l : list A) (x : A) :
  In x (skipn n l) -> In x l.
Proof.
  revert l. induction n as [|n IH]; intros [|a l]; simpl; try tauto.
  intros H. right. now apply IH.
Qed.

Lemma In_slice {A : Type} (l : list A) (start stop : number) (x : A) :
  In x (slice l start stop) -> In x l.
Proof.
  unfold slice. intros H. apply In_firstn in H. now apply In_skipn in H.
Qed.

Lemma StronglySorted_skipn {A : Type} (R : A -> A -> Prop) (n : nat) (l : list A) :
  StronglySorted R l -> StronglySorted R (skipn n l).
Proof.
  revert l. induction n as [|n IH]; intros l Hs; simpl; [exact Hs|].
  destruct l as [|a l]; [constructor|].
  apply StronglySorted_inv in Hs. now apply IH.
Qed.

Lemma StronglySorted_firstn {A : Type} (R : A -> A -> Prop) (n : nat) (l : list A) :
  StronglySorted R l -> StronglySorted R (firstn n l).
Proof.
  revert l. induction n as [|n IH]; intros l Hs; simpl; [constructor|].
  destruct l as [|a l]; [constructor|].
  apply StronglySorted_inv in Hs. destruct Hs as [Hl Ha].
  constructor; [now apply IH|].
  apply Forall_forall. intros y Hy. rewrite Forall_forall in Ha.
  apply Ha. eapply In_firstn. exact Hy.
Qed.

(** *** listContests: selection, order and pagination *)

Lemma filter_all {A : Type} (l : list A) : filter (fun _ => true) l = l.
Proof.
  induction l as [|a l IH]; simpl; [reflexivity | now rewrite IH].
Qed.

Lemma selectContests_run (filter : ContestFilter) (user : option User)
  (now : number) (d d' : DB) (sel : list Contest) :
  selectContests filter user now d = (Return sel, d') ->
  d' = d
  /\ sel = List.filter (selectionTest filter user now) (contests d)
  /\ (publicListing filter = false -> user <> None).
Proof.
  destruct filter; simpl; unfold read, throw;
    try (destruct user as [u|]; [|discriminate]);
    intros E; injection E as <- <-; repeat split; try discriminate.
  now rewrite filter_all.
Qed.

Lemma listContests_run (ctx : Ctx) (args : ListContestsArgs) (d d' : DB)
  (r : ListContestsResult) :
  listContests ctx args d = (Return r, d') ->
  exists user sel,
    ctx_requireAuth ctx d = Return user
    /\ selectContests (effectiveFilter (lc_filter args)) user (Date_now ctx) d
       = (Return sel, d)
    /\ d' = d
    /\ map cm_contest (lr_contests r)
       = slice (sort (listComparator (effectiveFilter (lc_filter args))) sel)
               (orNumber (lc_offset args) 0)
               (orNumber (lc_offset args) 0 + orNumber (lc_limit args) 20)
    /\ Forall (fun m => cm_participantCount m = len (c_users (cm_contest m))
                        /\ cm_problemCount m = len (c_problems (cm_contest m)))
              (lr_contests r)
    /\ lr_total r = len sel
    /\ lr_hasMore r
       = ltb (orNumber (lc_offset args) 0 + orNumber (lc_limit args) 20)
             (len sel).
Proof.
  unfold listContests. unfold bind at 1. unfold requireAuth.
  destruct (ctx_requireAuth ctx d) as [user | e]; [|discriminate].
  unfold bind at 1.
  change (match lc_filter args with Some f => f | None => F_public end)
    with (effectiveFilter (lc_filter args)).
  destruct (selectContests (effectiveFilter (lc_filter args)) user (Date_now ctx) d)
    as [[sel | e] d1] eqn:Sel; [|discriminate].
  destruct (selectContests_run _ _ _ _ _ _ Sel) as [-> _].
  unfold bind at 1.
  match goal with
  | |- context [mapM (withMeta ?n) ?l d] =>
      destruct (mapM (withMeta n) l d) as [[ms | e] d2] eqn:Run
  end; [|discriminate].
  unfold ret. intros E. injection E as <- <-.
  assert (Hcount : Forall (fun m =>
             cm_participantCount m = len (c_users (cm_contest m))
             /\ cm_problemCount m = len (c_problems (cm_contest m))) ms).
  { clear - Run. revert ms d2 Run.
    match goal with
    | |- forall ms d2, mapM _ ?l d = _ -> _ => generalize l
    end.
    induction l as [|c l IH]; intros ms d2; cbn [mapM].
    - unfold ret. intros E. injection E as <- <-. constructor.
    - unfold bind at 1. unfold withMeta at 1. unfold lookupCreator.
      unfold bind at 1. unfold read, ret at 1. unfold bind at 1.
      destruct (mapM (withMeta (Date_now ctx)) l d) as [[ys | e] d1] eqn:Rest;
        [|discriminate].
      unfold ret. intros E. injection E as <- <-.
      constructor; [split; reflexivity | eapply IH; reflexivity]. }
  apply mapM_withMeta_status in Run. destruct Run as [-> [Hm _]].
  exists user, sel. cbn [lr_contests lr_total lr_hasMore].
  repeat split; try assumption.
  - unfold len. now rewrite sort_length.
  - unfold len. now rewrite sort_length.
Qed.

(** X3. When no stored contest has a start time that is NaN, the contests
    returned by [listContests] are in order of start time: ascending for
    the filter "upcoming", descending for every other filter (and for the
    default). *)
Theorem listContests_sorted_by_startTime
  (ctx : Ctx) (args : ListContestsArgs) (d d' : DB) (r : ListContestsResult) :
  Forall (fun c => c_startTime c <> NaN) (contests d) ->
  listContests ctx args d = (Return r, d') ->
  StronglySorted (listOrder (lc_filter args)) (map cm_contest (lr_contests r)).
Proof.
  intros Numeric Run. apply listContests_run in Run.
  destruct Run as [user [sel [_ [Sel [_ [-> _]]]]]].
  apply selectContests_run in Sel. destruct Sel as [_ [-> _]].
  unfold slice. apply StronglySorted_firstn, StronglySorted_skipn.
  apply (sort_sorted (listComparator (effectiveFilter (lc_filter args)))
                     (fun c => c_startTime c <> NaN)).
  - intros a b Ha Hb. unfold listComparator, listOrder, effectiveFilter.
    destruct (lc_filter args) as [[]|];
      destruct (c_startTime a) as [x| | |]; destruct (c_startTime b) as [y| | |];
      try congruence; unfold gtb; cbn [sub add opp ltb leb]; try congruence;
      intros H; Qbools; lra.
  - intros a b Ha Hb. unfold listComparator, listOrder, effectiveFilter.
    destruct (lc_filter args) as [[]|];
      destruct (c_startTime a) as [x| | |]; destruct (c_startTime b) as [y| | |];
      try congruence; unfold gtb; cbn [sub add opp ltb leb]; try congruence;
      intros H; Qbools; lra.
  - intros a b c Ha Hb Hc. unfold listOrder.
    destruct (lc_filter args) as [[]|]; intros H1 H2;
      first [exact (le_trans _ _ _ H1 H2) | exact (le_trans _ _ _ H2 H1)].
  - rewrite Forall_forall in *. intros c Hc. apply filter_In in Hc.
    apply Numeric. tauto.
Qed.

Lemma listContests_sorted_by_startTime_witness :
  exists r,
    listContests (requestBy bob 3 "unused")
      (mkListContestsArgs (Some F_all) None None)
      (storeWith [alice; bob] [weekly []; monthly] [])
    = (Return r, storeWith [alice; bob] [weekly []; monthly] [])
    /\ map cm_contest (lr_contests r) = [monthly; weekly []]
    /\ StronglySorted (listOrder (Some F_all)) (map cm_contest (lr_contests r)).
Proof.
  eexists. split; [vm_compute; reflexivity|]. split; [reflexivity|].
  apply (listContests_sorted_by_startTime
           (requestBy bob 3 "unused")
           (mkListContestsArgs (Some F_all) None None)
           (storeWith [alice; bob] [weekly []; monthly] [])
           (storeWith [alice; bob] [weekly []; monthly] [])).
  - repeat constructor; discriminate.
  - vm_compute. reflexivity.
Defined.

(** X4. [listContests] is a read: the store is unchanged and every
    returned contest is a document of the [contests] table that passes the
    test of the requested filter, with its participant and problem counts.
    With the filters "public", "upcoming", "ongoing", "ended" (and by
    default) only public contests are returned; with the other filters the
    handler returns only when there is a user (it throws otherwise). *)
Theorem listContests_returns_selected_contests
  (ctx : Ctx) (args : ListContestsArgs) (d d' : DB) (r : ListContestsResult) :
  listContests ctx args d = (Return r, d') ->
  d' = d
  /\ exists user,
       ctx_requireAuth ctx d = Return user
       /\ (publicListing (effectiveFilter (lc_filter args)) = false ->
           user <> None)
       /\ Forall (fun m =>
                    In (cm_contest m) (contests d)
                    /\ selectionTest (effectiveFilter (lc_filter args)) user
                                     (Date_now ctx) (cm_contest m) = true
                    /\ (publicListing (effectiveFilter (lc_filter args)) = true ->
                        c_isPublic (cm_contest m) = true)
                    /\ cm_participantCount m = len (c_users (cm_contest m))
                    /\ cm_problemCount m = len (c_problems (cm_contest m)))
                 (lr_contests r).
Proof.
  intros Run. apply listContests_run in Run.
  destruct Run as [user [sel [Auth [Sel [-> [Hmap [Hcount _]]]]]]].
  split; [reflexivity|]. exists user. split; [exact Auth|].
  apply selectContests_run in Sel. destruct Sel as [_ [-> Huser]].
  split; [exact Huser|].
  rewrite Forall_forall in *. intros m Hm.
  assert (Hin : In (cm_contest m)
                   (List.filter (selectionTest (effectiveFilter (lc_filter args))
                                               user (Date_now ctx))
                                (contests d))).
  { apply (in_map cm_contest) in Hm. rewrite Hmap in Hm.
    apply In_slice in Hm. now apply sort_In in Hm. }
  apply filter_In in Hin. destruct Hin as [Hin Htest].
  destruct (Hcount m Hm) as [Hp Hq].
  repeat split; try assumption.
  intros Hpub. revert Htest.
  destruct (effectiveFilter (lc_filter args)); simpl in *; try discriminate;
    intros Htest; repeat (apply andb_true_iff in Htest; destruct Htest as [Htest _]);
    exact Htest.
Qed.

Lemma listContests_returns_selected_contests_witness :
  exists r,
    listContests (requestBy bob 3 "unused")
      (mkListContestsArgs (Some F_ongoing) None None)
      (storeWith [alice; bob] [weekly []] [])
    = (Return r, storeWith [alice; bob] [weekly []] [])
    /\ Forall (fun m => In (cm_contest m) [weekly []]
                        /\ c_isPublic (cm_contest m) = true)
              (lr_contests r).
Proof.
  eexists. split.
  - vm_compute. reflexivity.
  - destruct (listContests_returns_selected_contests
                (requestBy bob 3 "unused")
                (mkListContestsArgs (Some F_ongoing) None None)
                (storeWith [alice; bob] [weekly []] [])
                (storeWith [alice; bob] [weekly []] [])
                _ eq_refl) as [_ [user [_ [_ Hall]]]].
    eapply Forall_impl; [|exact Hall].
    intros m [Hin [_ [Hpub _]]]. split; [exact Hin | now apply Hpub].
Defined.

Lemma toInteger_inject (x : number) (n : Z) :
  x == inject_Z n -> ToIntegerOrInfinity x = Integer n.
Proof.
  destruct x as [[p q]| | |]; cbn [strictEq]; try contradiction.
  unfold Qeq. simpl. rewrite Z.mul_1_r. intros ->.
  f_equal. apply Z.quot_mul. discriminate.
Qed.

Lemma add_inject (x y : number) (a b : Z) :
  x == inject_Z a -> y == inject_Z b -> x + y == inject_Z (a + b).
Proof.
  destruct x as [p| | |]; destruct y as [q| | |]; cbn [strictEq add];
    try contradiction.
  intros Hp Hq. rewrite Hp, Hq, inject_Z_plus. reflexivity.
Qed.

Lemma slice_length {A : Type} (l : list A) (start stop : number) (O L : Z) :
  start == inject_Z O -> stop == inject_Z (O + L) ->
  (0 <= O)%Z -> (0 < L)%Z ->
  Z.of_nat (List.length (slice l start stop))
  = Z.min L (Z.max (Z.of_nat (List.length l) - O) 0).
Proof.
  intros Hs He HO HL. unfold slice.
  rewrite (toInteger_inject _ _ Hs), (toInteger_inject _ _ He).
  cbn [clampIndex].
  destruct (O <? 0)%Z eqn:E1; [apply Z.ltb_lt in E1; lia|].
  destruct (O + L <? 0)%Z eqn:E2; [apply Z.ltb_lt in E2; lia|].
  rewrite length_firstn, length_skipn. lia.
Qed.

(** X5. Pagination of [listContests].  With a whole offset [O >= 0] and a
    whole limit [L > 0] (after the defaults: an absent or zero limit is 20,
    an absent offset is 0), [total] is the number of contests the filter
    selects, the page holds [min L (max (total - O) 0)] contests, and
    [hasMore] is true exactly when [O + L < total]. *)
Theorem listContests_pagination
  (ctx : Ctx) (args : ListContestsArgs) (d d' : DB) (r : ListContestsResult)
  (O L : Z) :
  listContests ctx args d = (Return r, d') ->
  orNumber (lc_offset args) 0 == inject_Z O -> (0 <= O)%Z ->
  orNumber (lc_limit args) 20 == inject_Z L -> (0 < L)%Z ->
  exists user,
    ctx_requireAuth ctx d = Return user
    /\ let total :=
         List.length (List.filter
                        (selectionTest (effectiveFilter (lc_filter args)) user
                                       (Date_now ctx))
                        (contests d)) in
       lr_total r = inject_Z (Z.of_nat total)
       /\ Z.of_nat (List.length (lr_contests r))
          = Z.min L (Z.max (Z.of_nat total - O) 0)
       /\ (lr_hasMore r = true <-> (O + L < Z.of_nat total)%Z).
Proof.
  intros Run HO HO0 HL HL0. apply listContests_run in Run.
  destruct Run as [user [sel [Auth [Sel [_ [Hmap [_ [Ht Hm]]]]]]]].
  apply selectContests_run in Sel. destruct Sel as [_ [-> _]].
  exists user. split; [exact Auth|]. cbv zeta.
  set (sel := List.filter _ (contests d)) in *.
  assert (Hsum : orNumber (lc_offset args) 0 + orNumber (lc_limit args) 20
                 == inject_Z (O + L))
    by now apply add_inject.
  split; [exact Ht|]. split.
  - rewrite <- (length_map cm_contest), Hmap.
    rewrite (slice_length _ _ _ O L HO Hsum HO0 HL0).
    now rewrite sort_length.
  - rewrite Hm. unfold len.
    destruct (orNumber (lc_offset args) 0 + orNumber (lc_limit args) 20)
      as [q| | |]; cbn [strictEq ltb] in *; try contradiction.
    rewrite Qlt_bool_iff, Hsum, <- Zlt_Qlt. reflexivity.
Qed.

Lemma listContests_pagination_witness :
  exists r,
    listContests (requestBy bob 3 "unused")
      (mkListContestsArgs (Some F_all) (Some (Fin 2)) (Some (Fin 1)))
      (storeWith [alice; bob]
                 [weekly []; weekly ["users:2"]; weekly ["users:1"];
                  weekly ["users:1"; "users:2"]] [])
    = (Return r,
       storeWith [alice; bob]
                 [weekly []; weekly ["users:2"]; weekly ["users:1"];
                  weekly ["users:1"; "users:2"]] [])
    /\ lr_total r = inject_Z 4
    /\ Z.of_nat (List.length (lr_contests r)) = 2%Z
    /\ (lr_hasMore r = true <-> (1 + 2 < 4)%Z).
Proof.
  eexists. split.
  - vm_compute. reflexivity.
  - destruct (listContests_pagination
                (requestBy bob 3 "unused")
                (mkListContestsArgs (Some F_all) (Some (Fin 2)) (Some (Fin 1)))
                (storeWith [alice; bob]
                   [weekly []; weekly ["users:2"]; weekly ["users:1"];
                    weekly ["users:1"; "users:2"]] [])
                (storeWith [alice; bob]
                   [weekly []; weekly ["users:2"]; weekly ["users:1"];
                    weekly ["users:1"; "users:2"]] [])
                _ 1%Z 2%Z eq_refl
                ltac:(vm_compute; reflexivity) ltac:(lia)
                ltac:(vm_compute; reflexivity) ltac:(lia))
      as [user [Auth H]].
    injection Auth as <-. exact H.
Defined.

(** *** getContestDetails: who may read a contest *)

Lemma contestProblemData_run (cpId : Id) (idx : nat) (d : DB) :
  exists x, contestProblemData cpId idx d = (Return x, d).
Proof.
  unfold contestProblemData, getContestProblemDoc, getProblemDoc.
  unfold bind, read, ret.
  destruct (find (fun cp => String.eqb (cp__id cp) cpId) (contestProblems d));
    eexists; reflexivity.
Qed.

Lemma mapMi_contestProblemData_run (ids : list Id) (idx : nat) (d : DB) :
  exists l, mapMi contestProblemData ids idx d = (Return l, d).
Proof.
  revert idx. induction ids as [|id ids IH]; intros idx; cbn [mapMi].
  - exists []. reflexivity.
  - destruct (contestProblemData_run id idx d) as [x Ex].
    destruct (IH (S idx)) as [l El].
    unfold bind at 1. rewrite Ex. unfold bind at 1. rewrite El.
    eexists. reflexivity.
Qed.

(** X6. [getContestDetails] on an existing contest: a private contest is
    refused with "Access Denied!" unless the caller's [userId] is the
    contest's [creatorId] or is listed in its [users]; otherwise the handler
    returns that contest with its participant count and the caller's
    [isCreator] and [isParticipant] flags.  In both cases the store is
    unchanged. *)
Theorem getContestDetails_access_control
  (ctx : Ctx) (contestId : string) (d : DB) (user : option User) (c : Contest) :
  ctx_requireAuth ctx d = Return user ->
  first (fun c => String.eqb (c_contestId c) contestId) (contests d) = Some c ->
  (mayView user c = false ->
   getContestDetails ctx contestId d = (Throw "Access Denied!", d))
  /\ (mayView user c = true ->
      exists r,
        getContestDetails ctx contestId d = (Return r, d)
        /\ cd_contest r = c
        /\ cd_participantCount r = len (c_users c)
        /\ cd_isCreator r
           = andUser user (fun u => String.eqb (c_creatorId c) (u_userId u))
        /\ cd_isParticipant r
           = andUser user (fun u => includes (c_users c) (u_userId u))).
Proof.
  intros Auth Found.
  assert (Guard :
            negb (c_isPublic c)
            && negb (truthy (andUser user
                       (fun u => String.eqb (c_creatorId c) (u_userId u))))
            && negb (truthy (andUser user
                       (fun u => includes (c_users c) (u_userId u))))
            = negb (mayView user c)).
  { unfold mayView. destruct (c_isPublic c); [reflexivity|].
    destruct user as [u|]; simpl; [|reflexivity].
    destruct (String.eqb (c_creatorId c) (u_userId u));
      destruct (includes (c_users c) (u_userId u)); reflexivity. }
  split; intros View; unfold getContestDetails;
    unfold bind at 1; unfold requireAuth; rewrite Auth;
    unfold bind at 1; unfold read at 1; rewrite Found;
    rewrite Guard, View; simpl.
  - reflexivity.
  - unfold bind at 1. unfold lookupCreator, read at 1.
    unfold bind at 1.
    destruct (mapMi_contestProblemData_run (c_problems c) 0 d) as [l ->].
    eexists. split; [reflexivity|]. repeat split.
Qed.

Lemma getContestDetails_access_control_witness :
  getContestDetails (requestBy bob 3 "unused") "contest_0_kkkkkkk"
    (storeWith [alice; bob]
       [mkContest "contests:4" "contest_0_kkkkkkk" "Closed" "By invitation"
                  "clerk_alice" 0 10 false 5 [] [] 0] [])
  = (Throw "Access Denied!",
     storeWith [alice; bob]
       [mkContest "contests:4" "contest_0_kkkkkkk" "Closed" "By invitation"
                  "clerk_alice" 0 10 false 5 [] [] 0] []).
Proof.
  apply (proj1 (getContestDetails_access_control
                  (requestBy bob 3 "unused") "contest_0_kkkkkkk"
                  (storeWith [alice; bob]
                     [mkContest "contests:4" "contest_0_kkkkkkk" "Closed"
                                "By invitation" "clerk_alice" 0 10 false 5 [] [] 0]
                     [])
                  (Some bob)
                  (mkContest "contests:4" "contest_0_kkkkkkk" "Closed"
                             "By invitation" "clerk_alice" 0 10 false 5 [] [] 0)
                  eq_refl eq_refl)).
  reflexivity.
Defined.

(** *** The mutations of contests.ts, path by path *)

Lemma patchUser_run (id : Id) (f : User -> User) (d : DB) :
  (hasUser id d = true
   /\ patchUser id f d = (Return tt, setUsers (patchIn u__id id f (users d)) d))
  \/ (hasUser id d = false
      /\ patchUser id f d = (Throw "patch: document not found", d)).
Proof.
  unfold patchUser, hasUser.
  destruct (existsb (fun u => String.eqb (u__id u) id) (users d));
    [left | right]; split; reflexivity.
Qed.

Lemma patchContest_present (c : Contest) (f : Contest -> Contest) (d : DB) :
  In c (contests d) ->
  patchContest (c__id c) f d
  = (Return tt, setContests (patchIn c__id (c__id c) f (contests d)) d).
Proof.
  intros Hin. unfold patchContest.
  assert (E : existsb (fun x => String.eqb (c__id x) (c__id c)) (contests d) = true).
  { apply existsb_exists. exists c. split; [exact Hin | apply String.eqb_refl]. }
  now rewrite E.
Qed.

Lemma createContest_run (ctx : Ctx) (args : CreateContestArgs) (d : DB) :
  (exists e, createContest ctx args d = (Throw e, d))
  \/ exists user,
       ctx_requireAuth ctx d = Return (Some user)
       /\ validContestArgs (Date_now ctx) args
       /\ ((hasUser (u__id user) d = true
            /\ createContest ctx args d
               = (Return ("Contest created successfully!", ctx_newId ctx),
                  setUsers (patchIn u__id (u__id user)
                              (afterCreate args user (ctx_newId ctx)) (users d))
                           (setContests (contests d ++ [newContest ctx args user])
                                        d)))
           \/ (hasUser (u__id user) d = false
               /\ createContest ctx args d
                  = (Throw "patch: document not found",
                     setContests (contests d ++ [newContest ctx args user]) d))).
Proof.
  unfold createContest, insertContest. run.
  destruct (ctx_requireAuth ctx d) as [[user|]|e];
    try (left; eexists; reflexivity).
  destruct (ltb (cc_startTime args) (Date_now ctx)) eqn:E1;
    [left; eexists; reflexivity|].
  destruct (leb (cc_endTime args) (cc_startTime args)) eqn:E2;
    [left; eexists; reflexivity|].
  destruct (leb (cc_maxSize args) 0) eqn:E3;
    [left; eexists; reflexivity|].
  right. exists user. split; [reflexivity|].
  split; [repeat split; intro; congruence|].
  match goal with
  | |- context [patchUser ?i ?f ?s] =>
      destruct (patchUser_run i f s) as [[Hu ->] | [Hu ->]]
  end; [left | right]; (split; [exact Hu | reflexivity]).
Qed.

Lemma joinContest_run (ctx : Ctx) (contestId : string) (d : DB) :
  (exists e, joinContest ctx contestId d = (Throw e, d))
  \/ exists user c,
       ctx_requireAuth ctx d = Return (Some user)
       /\ filter (fun c => String.eqb (c_contestId c) contestId) (contests d) = [c]
       /\ mayJoin (Date_now ctx) user c
       /\ let d1 :=
            setContests
              (patchIn c__id (c__id c)
                 (withUsers (c_users c ++ [u__id user]) (Date_now ctx))
                 (contests d)) d in
          (hasUser (u__id user) d = true
           /\ joinContest ctx contestId d
              = (Return ("Joined contest: " ++ c_name c ++ " successfully", true),
                 setUsers
                   (patchIn u__id (u__id user)
                      (withParticipated
                         (u_participatedContests user ++ [c__id c]))
                      (users d)) d1))
          \/ (hasUser (u__id user) d = false
              /\ joinContest ctx contestId d
                 = (Throw "patch: document not found", d1)).
Proof.
  unfold joinContest. run.
  destruct (ctx_requireAuth ctx d) as [[user|]|e];
    try (left; eexists; reflexivity).
  unfold unique.
  destruct (filter (fun c => String.eqb (c_contestId c) contestId) (contests d))
    as [|c [|c' rest]] eqn:Sel; run; try (left; eexists; reflexivity).
  destruct (filter_singleton_In _ _ _ _ Sel) as [Hin _].
  destruct (c_isPublic c) eqn:Pub; simpl; [|left; eexists; reflexivity].
  destruct (includes (c_users c) (u__id user)) eqn:Inc;
    [left; eexists; reflexivity|].
  destruct (geb (len (c_users c)) (c_maxSize c)) eqn:Full;
    [left; eexists; reflexivity|].
  destruct (gtb (Date_now ctx) (c_endTime c)) eqn:Ended;
    [left; eexists; reflexivity|].
  right. exists user, c. split; [reflexivity|]. split; [reflexivity|].
  split.
  { split; [assumption|]. split; [|split; intro; congruence].
    intros H. apply includes_In in H. congruence. }
  rewrite (patchContest_present c _ d Hin). cbv zeta.
  match goal with
  | |- context [patchUser ?i ?f ?s] =>
      destruct (patchUser_run i f s) as [[Hu ->] | [Hu ->]]
  end; [left | right]; (split; [exact Hu | reflexivity]).
Qed.

Lemma leaveContest_run (ctx : Ctx) (contestId : string) (d : DB) :
  (exists e, leaveContest ctx contestId d = (Throw e, d))
  \/ exists user c,
       ctx_requireAuth ctx d = Return (Some user)
       /\ filter (fun c => String.eqb (c_contestId c) contestId) (contests d) = [c]
       /\ mayLeave (Date_now ctx) user c
       /\ let d1 :=
            setContests
              (patchIn c__id (c__id c)
                 (withUsers (removeId (u__id user) (c_users c)) (Date_now ctx))
                 (contests d)) d in
          (hasUser (u__id user) d = true
           /\ leaveContest ctx contestId d
              = (Return ("Successfully left the contest", true),
                 setUsers
                   (patchIn u__id (u__id user)
                      (withParticipated
                         (removeId (c__id c) (u_participatedContests user)))
                      (users d)) d1))
          \/ (hasUser (u__id user) d = false
              /\ leaveContest ctx contestId d
                 = (Throw "patch: document not found", d1)).
Proof.
  unfold leaveContest. run.
  destruct (ctx_requireAuth ctx d) as [[user|]|e];
    try (left; eexists; reflexivity).
  unfold unique.
  destruct (filter (fun c => String.eqb (c_contestId c) contestId) (contests d))
    as [|c [|c' rest]] eqn:Sel; run; try (left; eexists; reflexivity).
  destruct (filter_singleton_In _ _ _ _ Sel) as [Hin _].
  destruct (includes (c_users c) (u__id user)) eqn:Inc; simpl;
    [|left; eexists; reflexivity].
  destruct (geb (Date_now ctx) (c_startTime c)) eqn:Started;
    [left; eexists; reflexivity|].
  apply includes_In in Inc.
  right. exists user, c. split; [reflexivity|]. split; [reflexivity|].
  split; [split; [assumption | intro; congruence]|].
  rewrite (patchContest_present c _ d Hin). cbv zeta.
  match goal with
  | |- context [patchUser ?i ?f ?s] =>
      destruct (patchUser_run i f s) as [[Hu ->] | [Hu ->]]
  end; [left | right]; (split; [exact Hu | reflexivity]).
Qed.

Lemma updateContest_run (ctx : Ctx) (args : UpdateContestArgs) (d : DB) :
  (exists e, updateContest ctx args d = (Throw e, d))
  \/ exists user c,
       ctx_requireAuth ctx d = Return (Some user)
       /\ first (fun c => String.eqb (c_contestId c) (uc_contestId args))
                (contests d) = Some c
       /\ managesContest user c
       /\ validUpdate (Date_now ctx) args c
       /\ updateContest ctx args d
          = (Return "Contest has been updated successfully!",
             setContests
               (patchIn c__id (c__id c) (applyUpdate args (Date_now ctx))
                        (contests d)) d).
Proof.
  unfold updateContest. run.
  destruct (ctx_requireAuth ctx d) as [[user|]|e];
    try (left; eexists; reflexivity).
  destruct (first (fun c => String.eqb (c_contestId c) (uc_contestId args))
                  (contests d)) as [c|] eqn:Sel;
    [|left; eexists; reflexivity].
  pose proof Sel as Hin. apply find_some in Hin. destruct Hin as [Hin _].
  destruct (negb (String.eqb (c_creatorId c) (u__id user))
            && negb (Role_eqb (u_role user) ADMIN)) eqn:Denied;
    [left; eexists; reflexivity|].
  assert (Hman : managesContest user c).
  { unfold managesContest.
    destruct (String.eqb (c_creatorId c) (u__id user)) eqn:E.
    - left. now apply String.eqb_eq.
    - right. simpl in Denied. destruct (u_role user); [discriminate | reflexivity]. }
  destruct (geb (Date_now ctx) (c_startTime c)
            && (isSome (uc_name args) || isSome (uc_startTime args)
                || isSome (uc_endTime args) || isSome (uc_isPublic args)
                || isSome (uc_maxSize args))) eqn:G1;
    [left; eexists; reflexivity|].
  destruct ((isSome (uc_startTime args) || isSome (uc_endTime args))
            && negb (geb (Date_now ctx) (c_startTime c))
            && ltb (orElse (uc_startTime args) (c_startTime c))
                   (Date_now ctx)) eqn:G2;
    [left; eexists; reflexivity|].
  destruct ((isSome (uc_startTime args) || isSome (uc_endTime args))
            && leb (orElse (uc_endTime args) (c_endTime c))
                   (orElse (uc_startTime args) (c_startTime c))) eqn:G3;
    [left; eexists; reflexivity|].
  assert (V12 :
    (Date_now ctx >= c_startTime c ->
     uc_name args = None /\ uc_startTime args = None /\ uc_endTime args = None
     /\ uc_isPublic args = None /\ uc_maxSize args = None)
    /\ (uc_startTime args <> None \/ uc_endTime args <> None ->
        (~ Date_now ctx >= c_startTime c ->
         ~ orElse (uc_startTime args) (c_startTime c) < Date_now ctx)
        /\ ~ orElse (uc_endTime args) (c_endTime c)
             <= orElse (uc_startTime args) (c_startTime c))).
  { split.
    - intros Hs. rewrite Hs in G1. simpl in G1.
      destruct (uc_name args), (uc_startTime args), (uc_endTime args),
        (uc_isPublic args), (uc_maxSize args); simpl in G1;
        try discriminate; repeat split.
    - intros Hsome.
      assert (S : isSome (uc_startTime args) || isSome (uc_endTime args) = true).
      { destruct (uc_startTime args), (uc_endTime args); simpl; try reflexivity.
        destruct Hsome; congruence. }
      rewrite S in G2, G3. cbn [andb] in G2, G3.
      split; [|intro; congruence].
      intros Hns. apply not_true_is_false in Hns.
      rewrite Hns in G2. cbn [andb negb] in G2. intro; congruence. }
  destruct V12 as [V1 V2].
  destruct (uc_maxSize args) as [m|] eqn:M.
  - destruct (leb m 0) eqn:M1; [left; eexists; reflexivity|].
    destruct (ltb m (len (c_users c))) eqn:M2; [left; eexists; reflexivity|].
    right. exists user, c. rewrite (patchContest_present c _ d Hin).
    split; [reflexivity|]. split; [reflexivity|]. split; [exact Hman|].
    split; [|reflexivity].
    split; [intros Hs; destruct (V1 Hs) as (_ & _ & _ & _ & N); discriminate|].
    split; [exact V2|].
    intros m0 E. rewrite M in E. injection E as <-.
    split; intro; congruence.
  - right. exists user, c. rewrite (patchContest_present c _ d Hin).
    split; [reflexivity|]. split; [reflexivity|]. split; [exact Hman|].
    split; [|reflexivity].
    split; [intros Hs; destruct (V1 Hs) as (N1 & N2 & N3 & N4 & _);
            repeat split; assumption|].
    split; [exact V2|].
    intros m0 E. rewrite M in E. discriminate.
Qed.

Lemma mapM_getUserDoc_run (ids : list Id) (d : DB) :
  mapM getUserDoc ids d
  = (Return (map (fun id => find (fun u => String.eqb (u__id u) id) (users d)) ids),
     d).
Proof.
  induction ids as [|id ids IH]; cbn [mapM map]; [reflexivity|].
  unfold bind at 1. change (getUserDoc id d) with
    (Return (find (fun u => String.eqb (u__id u) id) (users d)), d).
  unfold bind at 1. rewrite IH. reflexivity.
Qed.

Lemma forEach_deleteContestProblems_run (cps : list ContestProblem) (d : DB) :
  forEach cps (fun cp => deleteContestProblemDoc (cp__id cp)) d
  = (Return tt,
     setContestProblems
       (fold_left
          (fun rest cp =>
             filter (fun x => negb (String.eqb (cp__id x) (cp__id cp))) rest)
          cps (contestProblems d)) d).
Proof.
  revert d. induction cps as [|cp cps IH]; intros d; cbn [forEach fold_left].
  - destruct d; reflexivity.
  - unfold bind at 1. unfold deleteContestProblemDoc at 1. unfold write.
    rewrite IH. reflexivity.
Qed.

Lemma patchIn_ids (id : Id) (f : User -> User) (us : list User) :
  (forall x, u__id (f x) = u__id x) ->
  map u__id (patchIn u__id id f us) = map u__id us.
Proof.
  intros Hf. unfold patchIn. rewrite map_map. apply map_ext.
  intros x. destruct (String.eqb (u__id x) id); auto.
Qed.

Lemma hasUser_ids (id : Id) (d : DB) :
  hasUser id d = existsb (String.eqb id) (map u__id (users d)).
Proof.
  unfold hasUser. induction (users d) as [|u us IH]; simpl; [reflexivity|].
  rewrite IH, (String.eqb_sym id). reflexivity.
Qed.

Lemma forEach_withoutParticipation_run (contestDocId : Id)
  (participants : list (option User)) (d : DB) :
  (forall p, In (Some p) participants -> hasUser (u__id p) d = true) ->
  forEach participants
    (fun participant =>
       match participant with
       | Some participant =>
           patchUser (u__id participant)
             (withContestLists
                (removeId contestDocId (u_createdContests participant))
                (removeId contestDocId (u_participatedContests participant)))
       | None => ret tt
       end) d
  = (Return tt,
     setUsers (withoutParticipation contestDocId participants (users d)) d).
Proof.
  unfold withoutParticipation.
  revert d. induction participants as [|p ps IH]; intros d Hall;
    cbn [forEach fold_left].
  - destruct d; reflexivity.
  - unfold bind at 1. destruct p as [p|].
    + destruct (patchUser_run (u__id p)
                  (withContestLists
                     (removeId contestDocId (u_createdContests p))
                     (removeId contestDocId (u_participatedContests p))) d)
        as [[Hu ->] | [Hu _]].
      * rewrite IH.
        -- reflexivity.
        -- intros q Hq. rewrite hasUser_ids. cbn [users setUsers].
           rewrite patchIn_ids by reflexivity.
           rewrite <- hasUser_ids. apply Hall. now right.
      * rewrite Hall in Hu by now left. discriminate.
    + unfold ret at 1. rewrite IH.
      * destruct d; reflexivity.
      * intros q Hq. apply Hall. now right.
Qed.

Lemma find_hasUser (id : Id) (d : DB) (p : User) :
  find (fun u => String.eqb (u__id u) id) (users d) = Some p ->
  hasUser (u__id p) d = true.
Proof.
  intros F. apply find_some in F. destruct F as [Hin _].
  unfold hasUser. apply existsb_exists. exists p.
  split; [exact Hin | apply String.eqb_refl].
Qed.

Lemma deleteContest_run (ctx : Ctx) (contestId : string) (d : DB) :
  (exists e, deleteContest ctx contestId d = (Throw e, d))
  \/ exists user c,
       ctx_requireAuth ctx d = Return (Some user)
       /\ filter (fun c => String.eqb (c_contestId c) contestId) (contests d) = [c]
       /\ managesContest user c
       /\ first (fun s => String.eqb (cs_contestId s) (c__id c))
                (contestSubmissions d) = None
       /\ deleteContest ctx contestId d
          = (Return ("Contest deleted successfully", true), afterDelete c d).
Proof.
  cut (forall res,
          deleteContest ctx contestId d = res ->
          (exists e, res = (Throw e, d))
          \/ exists user c,
               ctx_requireAuth ctx d = Return (Some user)
               /\ filter (fun c => String.eqb (c_contestId c) contestId)
                         (contests d) = [c]
               /\ managesContest user c
               /\ first (fun s => String.eqb (cs_contestId s) (c__id c))
                        (contestSubmissions d) = None
               /\ res = (Return ("Contest deleted successfully", true),
                         afterDelete c d)).
  { intros H. exact (H _ eq_refl). }
  intros res.
  unfold deleteContest. unfold bind at 1. unfold requireAuth.
  destruct (ctx_requireAuth ctx d) as [[user|]|e];
    try (intros <-; left; eexists; reflexivity).
  unfold bind at 1. rewrite read_run. unfold bind at 1.
  destruct (unique_cases (fun c => String.eqb (c_contestId c) contestId)
                         (contests d) d) as [[-> _] | [[c [-> Sel]] | [e ->]]];
    try (intros <-; left; eexists; reflexivity).
  destruct (negb (String.eqb (c_creatorId c) (u__id user))
            && negb (Role_eqb (u_role user) ADMIN)) eqn:Denied;
    [intros <-; left; eexists; reflexivity|].
  assert (Hman : managesContest user c).
  { unfold managesContest.
    destruct (String.eqb (c_creatorId c) (u__id user)) eqn:E.
    - left. now apply String.eqb_eq.
    - right. simpl in Denied. destruct (u_role user); [discriminate | reflexivity]. }
  unfold bind at 1. rewrite read_run.
  destruct (first (fun s => String.eqb (cs_contestId s) (c__id c))
                  (contestSubmissions d)) as [s|] eqn:Subs; cbn [isSome];
    [intros <-; left; eexists; reflexivity|].
  unfold bind at 1. rewrite read_run.
  unfold bind at 1. rewrite forEach_deleteContestProblems_run.
  unfold bind at 1. rewrite mapM_getUserDoc_run.
  unfold bind at 1. rewrite forEach_withoutParticipation_run.
  - unfold bind, deleteContestDoc, write, ret. intros <-.
    right. exists user, c.
    split; [reflexivity|]. split; [exact Sel|]. split; [exact Hman|].
    split; [exact Subs|]. reflexivity.
  - intros p Hp. apply in_map_iff in Hp. destruct Hp as [id [F _]].
    cbn [users setContestProblems] in F.
    rewrite hasUser_ids. cbn [users setContestProblems]. rewrite <- hasUser_ids.
    eapply find_hasUser. exact F.
Qed.

(** *** Invariants of the contests table *)

Lemma patchIn_invariant (P : Contest -> Prop) (l : list Contest) (c : Contest)
  (f : Contest -> Contest) :
  contestsInvariant P l -> In c l ->
  (forall x, c__id (f x) = c__id x) -> P (f c) ->
  contestsInvariant P (patchIn c__id (c__id c) f l).
Proof.
  intros [ND All] Hin Hid Hc. unfold contestsInvariant, patchIn. split.
  - rewrite map_map.
    erewrite map_ext; [exact ND|].
    intros x. simpl. destruct (String.eqb (c__id x) (c__id c)); auto.
  - apply Forall_map. rewrite Forall_forall in *. intros x Hx.
    destruct (String.eqb (c__id x) (c__id c)) eqn:E.
    + apply String.eqb_eq in E.
      rewrite (NoDup_map_eq c__id l x c ND Hx Hin E). exact Hc.
    + auto.
Qed.

Lemma filter_invariant (P : Contest -> Prop) (p : Contest -> bool)
  (l : list Contest) :
  contestsInvariant P l -> contestsInvariant P (filter p l).
Proof.
  intros [ND All]. split.
  - clear All. induction l as [|a l IH]; simpl; [constructor|].
    inversion ND as [|? ? Hnot ND']; subst.
    destruct (p a); simpl; [|auto].
    constructor; [|auto]. intros Hin. apply Hnot.
    apply in_map_iff in Hin. destruct Hin as [x [Hx Hf]].
    apply filter_In in Hf. apply in_map_iff. exists x. tauto.
  - rewrite Forall_forall in *. intros x Hx. apply filter_In in Hx.
    apply All. tauto.
Qed.

(** A property [P] of contests that the documents written by the admitted
    mutations have is an invariant of the [contests] table. *)
Section ContestInvariants.
Variable P : Contest -> Prop.
Variable admitted : Mutation -> Prop.
Hypothesis P_create :
  forall ctx args user,
    admitted (CreateContest args) ->
    validContestArgs (Date_now ctx) args -> P (newContest ctx args user).
Hypothesis P_join :
  forall now user c,
    P c -> mayJoin now user c ->
    P (withUsers (c_users c ++ [u__id user]) now c).
Hypothesis P_leave :
  forall now user c,
    P c -> mayLeave now user c ->
    P (withUsers (removeId (u__id user) (c_users c)) now c).
Hypothesis P_update :
  forall now args c,
    admitted (UpdateContest args) ->
    P c -> validUpdate now args c -> P (applyUpdate args now c).

Lemma invariant_member (l : list Contest) (c : Contest) :
  contestsInvariant P l -> In c l -> P c.
Proof.
  intros [_ All] Hin. rewrite Forall_forall in All. now apply All.
Qed.

Lemma runMutation_preserves (ctx : Ctx) (m : Mutation) (d : DB) :
  admitted m ->
  ~ In (ctx_newId ctx) (map c__id (contests d)) ->
  contestsInvariant P (contests d) ->
  contestsInvariant P (contests (runMutation ctx m d)).
Proof.
  intros Hadm Hfresh Inv. destruct m as [args | args | cid | cid | cid];
    cbn [runMutation].
  - destruct (createContest_run ctx args d)
      as [[e ->] | [user [_ [Hv [[_ ->] | [_ ->]]]]]];
      cbn [snd contests setUsers setContests]; try exact Inv.
    all: destruct Inv as [ND All]; split;
      [ rewrite map_app; apply NoDup_app;
        [ exact ND | repeat constructor; simpl; tauto
        | intros a Ha [<- | []]; contradiction ]
      | apply Forall_app; split; [exact All|];
        constructor; [now apply P_create | constructor] ].
  - destruct (updateContest_run ctx args d)
      as [[e ->] | [user [c [_ [Sel [_ [Hv ->]]]]]]];
      cbn [snd contests setContests]; try exact Inv.
    apply find_some in Sel. destruct Sel as [Hin _].
    apply patchIn_invariant; auto.
    apply P_update;
      [exact Hadm | now apply (invariant_member (contests d)) | exact Hv].
  - destruct (deleteContest_run ctx cid d)
      as [[e ->] | [user [c [_ [_ [_ [_ ->]]]]]]];
      cbn [snd]; try exact Inv.
    unfold afterDelete. cbn [contests setContests].
    now apply filter_invariant.
  - destruct (joinContest_run ctx cid d)
      as [[e ->] | [user [c [_ [Sel [Hj [[_ ->] | [_ ->]]]]]]]];
      cbn [snd contests setUsers setContests]; try exact Inv.
    all: destruct (filter_singleton_In _ _ _ _ Sel) as [Hin _];
      apply patchIn_invariant; auto;
      apply P_join; [now apply (invariant_member (contests d)) | exact Hj].
  - destruct (leaveContest_run ctx cid d)
      as [[e ->] | [user [c [_ [Sel [Hl [[_ ->] | [_ ->]]]]]]]];
      cbn [snd contests setUsers setContests]; try exact Inv.
    all: destruct (filter_singleton_In _ _ _ _ Sel) as [Hin _];
      apply patchIn_invariant; auto;
      apply P_leave; [now apply (invariant_member (contests d)) | exact Hl].
Qed.
End ContestInvariants.

(** X7. The mutations of [contests.ts] keep the time window of every
    contest non-empty ([startTime < endTime]) as long as the times the
    requests carry are not NaN: [createContest] then only inserts such a
    contest and [updateContest] rejects a window that would be empty.  (The
    store assigns a fresh identifier to an inserted contest.) *)
Theorem contest_window_stays_open (ctx : Ctx) (m : Mutation) (d : DB) :
  numericTimes m ->
  ~ In (ctx_newId ctx) (map c__id (contests d)) ->
  contestsInvariant windowOpen (contests d) ->
  contestsInvariant windowOpen (contests (runMutation ctx m d)).
Proof.
  apply runMutation_preserves; unfold windowOpen.
  - intros c args user [Ns Ne] (_ & Hw & _). cbn [newContest c_startTime c_endTime].
    now apply not_ge_lt.
  - intros now user c Hc _. exact Hc.
  - intros now user c Hc _. exact Hc.
  - intros now args c [Ns Ne] Hc (_ & Hw & _). unfold applyUpdate.
    cbn [c_startTime c_endTime].
    destruct (lt_numeric _ _ Hc) as [Cs Ce].
    destruct (uc_startTime args) as [s|] eqn:S;
      destruct (uc_endTime args) as [e|] eqn:E; cbn [orElse] in *;
      try exact Hc;
      (apply not_ge_lt;
       [congruence | congruence
       | apply Hw; (left; discriminate) || (right; discriminate)]).
Qed.

Lemma contest_window_stays_open_witness :
  contestsInvariant windowOpen
    (contests
       (runMutation (requestBy alice 0 "contests:2")
          (UpdateContest
             (mkUpdateContestArgs "contest_0_iiiiiii" None None
                                  (Some (Fin 2)) (Some (Fin 8)) None None))
          (storeWith [alice; bob] [mkContest "contests:1" "contest_0_iiiiiii"
                                     "Weekly" "Weekly round" "users:1" 5 10 true 5
                                     [] [] 0] []))).
Proof.
  apply contest_window_stays_open.
  - split; discriminate.
  - simpl. intros [H | []]. discriminate.
  - split.
    + repeat constructor. simpl. tauto.
    + constructor; [|constructor]. unfold windowOpen. vm_compute. reflexivity.
Defined.

(** X8. No mutation of [contests.ts] lists a user twice among the
    participants of a contest: [createContest] seeds at most the creator,
    [joinContest] rejects a user who is already listed, [leaveContest] and
    [updateContest] add nobody. *)
Theorem participants_stay_distinct (ctx : Ctx) (m : Mutation) (d : DB) :
  ~ In (ctx_newId ctx) (map c__id (contests d)) ->
  contestsInvariant participantsDistinct (contests d) ->
  contestsInvariant participantsDistinct (contests (runMutation ctx m d)).
Proof.
  apply (runMutation_preserves participantsDistinct (fun _ => True));
    unfold participantsDistinct; try exact I.
  - intros c args user _ _. unfold newContest. cbn [c_users].
    destruct (cc_addSelf args); repeat constructor. simpl. tauto.
  - intros now user c Hc (_ & Hnew & _). cbn [withUsers c_users].
    apply NoDup_app; [exact Hc | repeat constructor; simpl; tauto|].
    intros a Ha [<- | []]. contradiction.
  - intros now user c Hc _. cbn [withUsers c_users]. unfold removeId.
    now apply NoDup_filter.
  - intros now args c _ Hc _. exact Hc.
Qed.

Lemma participants_stay_distinct_witness :
  contestsInvariant participantsDistinct
    (contests
       (runMutation (requestBy bob 3 "unused") (JoinContest "contest_0_iiiiiii")
          (storeWith [alice; bob] [weekly ["users:1"]] []))).
Proof.
  apply participants_stay_distinct.
  - simpl. intros [H | []]. discriminate.
  - split.
    + repeat constructor. simpl. tauto.
    + repeat constructor. simpl. tauto.
Defined.

(** *** joinContest and leaveContest *)

Lemma includes_false (l : list string) (x : string) :
  ~ In x l -> includes l x = false.
Proof.
  intros H. destruct (includes l x) eqn:E; [|reflexivity].
  apply includes_In in E. contradiction.
Qed.

Lemma joinContest_steps
  (ctx : Ctx) (contestId : string) (d : DB) (user : User) (c : Contest) :
  ctx_requireAuth ctx d = Return (Some user) ->
  filter (fun c => String.eqb (c_contestId c) contestId) (contests d) = [c] ->
  joinContest ctx contestId d
  = (if negb (c_isPublic c) then throw "Contest is private"
     else if includes (c_users c) (u__id user) then
       throw "Already joined this contest"
     else if geb (len (c_users c)) (c_maxSize c) then
       throw "Contest is full"
     else if gtb (Date_now ctx) (c_endTime c) then
       throw "Contest has ended"
     else
       patchContest (c__id c)
         (withUsers (c_users c ++ [u__id user]) (Date_now ctx)) ;;;
       patchUser (u__id user)
         (withParticipated (u_participatedContests user ++ [c__id c])) ;;;
       ret ("Joined contest: " ++ c_name c ++ " successfully", true)) d.
Proof.
  intros Auth Sel. unfold joinContest. unfold bind at 1. unfold requireAuth.
  rewrite Auth. unfold bind at 1. rewrite read_run. unfold bind at 1.
  unfold unique. rewrite Sel. reflexivity.
Qed.

Lemma joinContest_allowed
  (ctx : Ctx) (contestId : string) (d : DB) (user : User) (c : Contest) :
  ctx_requireAuth ctx d = Return (Some user) ->
  hasUser (u__id user) d = true ->
  filter (fun c => String.eqb (c_contestId c) contestId) (contests d) = [c] ->
  mayJoin (Date_now ctx) user c ->
  joinContest ctx contestId d
  = (Return ("Joined contest: " ++ c_name c ++ " successfully", true),
     setUsers
       (patchIn u__id (u__id user)
          (withParticipated (u_participatedContests user ++ [c__id c]))
          (users d))
       (setContests
          (patchIn c__id (c__id c)
             (withUsers (c_users c ++ [u__id user]) (Date_now ctx))
             (contests d)) d)).
Proof.
  intros Auth Has Sel (Pub & Nin & Room & Open).
  destruct (filter_singleton_In _ _ _ _ Sel) as [Hin _].
  rewrite (joinContest_steps ctx contestId d user c Auth Sel).
  rewrite Pub. cbn [negb]. rewrite (includes_false _ _ Nin).
  apply not_true_is_false in Room. rewrite Room.
  apply not_true_is_false in Open. rewrite Open.
  unfold bind at 1. rewrite (patchContest_present c _ d Hin).
  unfold bind at 1.
  match goal with
  | |- context [patchUser ?i ?f ?s] =>
      destruct (patchUser_run i f s) as [[_ ->] | [Hu _]]
  end; [reflexivity|].
  rewrite hasUser_ids in Hu. cbn [users setContests] in Hu.
  rewrite <- hasUser_ids in Hu. congruence.
Qed.

(** X9. [joinContest], for a caller whose document is in the store and a
    [contestId] carried by one contest: when the contest is public, the
    caller is not yet listed, [users.length >= maxSize] does not hold and
    [now > endTime] does not hold, the caller is appended to the contest's
    [users] and the contest to the caller's [participatedContests], and
    nothing else is written; in every other case the handler throws and the
    store is unchanged.  (A capacity or an end time that is NaN passes both
    comparisons.) *)
Theorem joinContest_joins_exactly_when_allowed
  (ctx : Ctx) (contestId : string) (d : DB) (user : User) (c : Contest) :
  ctx_requireAuth ctx d = Return (Some user) ->
  hasUser (u__id user) d = true ->
  filter (fun c => String.eqb (c_contestId c) contestId) (contests d) = [c] ->
  (mayJoin (Date_now ctx) user c ->
   joinContest ctx contestId d
   = (Return ("Joined contest: " ++ c_name c ++ " successfully", true),
      setUsers
        (patchIn u__id (u__id user)
           (withParticipated (u_participatedContests user ++ [c__id c]))
           (users d))
        (setContests
           (patchIn c__id (c__id c)
              (withUsers (c_users c ++ [u__id user]) (Date_now ctx))
              (contests d)) d)))
  /\ (~ mayJoin (Date_now ctx) user c ->
      exists e, joinContest ctx contestId d = (Throw e, d)).
Proof.
  intros Auth Has Sel. split.
  - now apply joinContest_allowed.
  - intros Not. rewrite (joinContest_steps ctx contestId d user c Auth Sel).
    destruct (c_isPublic c) eqn:Pub; cbn [negb]; [|eexists; reflexivity].
    destruct (includes (c_users c) (u__id user)) eqn:Inc; [eexists; reflexivity|].
    destruct (geb (len (c_users c)) (c_maxSize c)) eqn:Full;
      [eexists; reflexivity|].
    destruct (gtb (Date_now ctx) (c_endTime c)) eqn:Ended;
      [eexists; reflexivity|].
    exfalso. apply Not. split; [exact Pub|]. split; [|split].
    + intros H. apply includes_In in H. congruence.
    + intro; congruence.
    + intro; congruence.
Qed.

Lemma joinContest_joins_exactly_when_allowed_witness :
  joinContest (requestBy bob 10 "unused") "contest_0_iiiiiii"
              (storeWith [alice; bob] [weekly ["users:1"]] [])
  = (Return ("Joined contest: Weekly successfully", true),
     storeWith
       [alice; withParticipated ["contests:1"] bob]
       [withUsers ["users:1"; "users:2"] 10 (weekly ["users:1"])] []).
Proof.
  apply (proj1 (joinContest_joins_exactly_when_allowed
                  (requestBy bob 10 "unused") "contest_0_iiiiiii"
                  (storeWith [alice; bob] [weekly ["users:1"]] [])
                  bob (weekly ["users:1"]) eq_refl eq_refl eq_refl)).
  split; [reflexivity|]. split; [|split].
  - simpl. intros [H | []]. discriminate.
  - vm_compute. discriminate.
  - vm_compute. discriminate.
Defined.

Lemma leaveContest_steps
  (ctx : Ctx) (contestId : string) (d : DB) (user : User) (c : Contest) :
  ctx_requireAuth ctx d = Return (Some user) ->
  filter (fun c => String.eqb (c_contestId c) contestId) (contests d) = [c] ->
  leaveContest ctx contestId d
  = (if negb (includes (c_users c) (u__id user)) then
       throw "Not participating in this contest"
     else if geb (Date_now ctx) (c_startTime c) then
       throw "Cannot leave contest after it has started"
     else
       patchContest (c__id c)
         (withUsers (removeId (u__id user) (c_users c)) (Date_now ctx)) ;;;
       patchUser (u__id user)
         (withParticipated (removeId (c__id c) (u_participatedContests user))) ;;;
       ret ("Successfully left the contest", true)) d.
Proof.
  intros Auth Sel. unfold leaveContest. unfold bind at 1. unfold requireAuth.
  rewrite Auth. unfold bind at 1. rewrite read_run. unfold bind at 1.
  unfold unique. rewrite Sel. reflexivity.
Qed.

Lemma leaveContest_allowed
  (ctx : Ctx) (contestId : string) (d : DB) (user : User) (c : Contest) :
  ctx_requireAuth ctx d = Return (Some user) ->
  hasUser (u__id user) d = true ->
  filter (fun c => String.eqb (c_contestId c) contestId) (contests d) = [c] ->
  mayLeave (Date_now ctx) user c ->
  leaveContest ctx contestId d
  = (Return ("Successfully left the contest", true),
     setUsers
       (patchIn u__id (u__id user)
          (withParticipated (removeId (c__id c) (u_participatedContests user)))
          (users d))
       (setContests
          (patchIn c__id (c__id c)
             (withUsers (removeId (u__id user) (c_users c)) (Date_now ctx))
             (contests d)) d)).
Proof.
  intros Auth Has Sel (Listed & Before).
  destruct (filter_singleton_In _ _ _ _ Sel) as [Hin _].
  rewrite (leaveContest_steps ctx contestId d user c Auth Sel).
  apply includes_In in Listed. rewrite Listed. cbn [negb].
  apply not_true_is_false in Before. rewrite Before.
  unfold bind at 1. rewrite (patchContest_present c _ d Hin).
  unfold bind at 1.
  match goal with
  | |- context [patchUser ?i ?f ?s] =>
      destruct (patchUser_run i f s) as [[_ ->] | [Hu _]]
  end; [reflexivity|].
  rewrite hasUser_ids in Hu. cbn [users setContests] in Hu.
  rewrite <- hasUser_ids in Hu. congruence.
Qed.

(** X10. [leaveContest], for a caller whose document is in the store and a
    [contestId] carried by one contest: when the caller is listed and
    [now >= startTime] does not hold, the caller is removed from the
    contest's [users] and the contest from the caller's
    [participatedContests], and nothing else is written; in every other
    case the handler throws and the store is unchanged.  (A start time that
    is NaN passes the comparison.) *)
Theorem leaveContest_leaves_exactly_when_allowed
  (ctx : Ctx) (contestId : string) (d : DB) (user : User) (c : Contest) :
  ctx_requireAuth ctx d = Return (Some user) ->
  hasUser (u__id user) d = true ->
  filter (fun c => String.eqb (c_contestId c) contestId) (contests d) = [c] ->
  (mayLeave (Date_now ctx) user c ->
   leaveContest ctx contestId d
   = (Return ("Successfully left the contest", true),
      setUsers
        (patchIn u__id (u__id user)
           (withParticipated (removeId (c__id c) (u_participatedContests user)))
           (users d))
        (setContests
           (patchIn c__id (c__id c)
              (withUsers (removeId (u__id user) (c_users c)) (Date_now ctx))
              (contests d)) d)))
  /\ (~ mayLeave (Date_now ctx) user c ->
      exists e, leaveContest ctx contestId d = (Throw e, d)).
Proof.
  intros Auth Has Sel. split.
  - now apply leaveContest_allowed.
  - intros Not. rewrite (leaveContest_steps ctx contestId d user c Auth Sel).
    destruct (includes (c_users c) (u__id user)) eqn:Inc; cbn [negb];
      [|eexists; reflexivity].
    destruct (geb (Date_now ctx) (c_startTime c)) eqn:Started;
      [eexists; reflexivity|].
    exfalso. apply Not. split.
    + now apply includes_In.
    + intro; congruence.
Qed.

Lemma leaveContest_leaves_exactly_when_allowed_witness :
  leaveContest (requestBy bob (-1) "unused") "contest_0_iiiiiii"
               (storeWith [alice; withParticipated ["contests:1"] bob]
                          [weekly ["users:1"; "users:2"]] [])
  = (Return ("Successfully left the contest", true),
     storeWith [alice; bob] [withUsers ["users:1"] (-1) (weekly ["users:1"])] []).
Proof.
  apply (proj1 (leaveContest_leaves_exactly_when_allowed
                  (requestBy bob (-1) "unused") "contest_0_iiiiiii"
                  (storeWith [alice; withParticipated ["contests:1"] bob]
                             [weekly ["users:1"; "users:2"]] [])
                  bob (weekly ["users:1"; "users:2"]) eq_refl eq_refl eq_refl)).
  split.
  - simpl. tauto.
  - vm_compute. discriminate.
Defined.

Lemma patchIn_patchIn {A : Type} (key : A -> Id) (id : Id) (f g : A -> A)
  (l : list A) :
  (forall x, key (f x) = key x) ->
  patchIn key id g (patchIn key id f l) = patchIn key id (fun x => g (f x)) l.
Proof.
  intros Hf. unfold patchIn. rewrite map_map. apply map_ext. intros x.
  destruct (String.eqb (key x) id) eqn:E.
  - now rewrite Hf, E.
  - now rewrite E.
Qed.

Lemma patchIn_same {A : Type} (key : A -> Id) (id : Id) (f : A -> A) (l : list A) :
  (forall x, In x l -> key x = id -> f x = x) -> patchIn key id f l = l.
Proof.
  intros Hf. unfold patchIn. rewrite <- (map_id l) at 2. apply map_ext_in.
  intros x Hx. destruct (String.eqb (key x) id) eqn:E; [|reflexivity].
  apply Hf; [exact Hx | now apply String.eqb_eq].
Qed.

Lemma filter_patchIn {A : Type} (key : A -> Id) (id : Id) (f : A -> A)
  (p : A -> bool) (l : list A) :
  (forall x, p (f x) = p x) ->
  filter p (patchIn key id f l) = patchIn key id f (filter p l).
Proof.
  intros Hp. unfold patchIn. induction l as [|a l IH]; simpl; [reflexivity|].
  destruct (String.eqb (key a) id) eqn:E.
  - rewrite Hp. destruct (p a); simpl; [rewrite E|]; now rewrite IH.
  - destruct (p a); simpl; [rewrite E|]; now rewrite IH.
Qed.

Lemma removeId_snoc (x : Id) (l : list Id) :
  ~ In x l -> removeId x (l ++ [x]) = l.
Proof.
  intros Hn. unfold removeId. rewrite filter_app. simpl.
  rewrite String.eqb_refl. simpl. rewrite app_nil_r.
  induction l as [|a l IH]; simpl; [reflexivity|].
  destruct (String.eqb a x) eqn:E.
  - apply String.eqb_eq in E. subst. exfalso. apply Hn. now left.
  - simpl. f_equal. apply IH. intros H. apply Hn. now right.
Qed.

(** X11. Joining and then leaving restores the store.  When a user whose
    document is in the store joins a contest and leaves it before it
    starts, [leaveContest] succeeds, the [users] table is what it was
    before the join, and the [contests] table is what it was except for the
    [updatedAt] of that contest.  (Identifiers of user documents are
    distinct; the second request is made by the same user, whose document
    is the one the join left.) *)
Theorem join_then_leave_restores
  (ctx ctx' : Ctx) (contestId : string) (d : DB) (user : User) (c : Contest) :
  NoDup (map u__id (users d)) ->
  In user (users d) ->
  ~ In (c__id c) (u_participatedContests user) ->
  ctx_requireAuth ctx d = Return (Some user) ->
  filter (fun c => String.eqb (c_contestId c) contestId) (contests d) = [c] ->
  mayJoin (Date_now ctx) user c ->
  ctx_requireAuth ctx' (snd (joinContest ctx contestId d))
  = Return (Some (withParticipated (u_participatedContests user ++ [c__id c])
                                   user)) ->
  Date_now ctx' < c_startTime c ->
  exists d2,
    leaveContest ctx' contestId (snd (joinContest ctx contestId d))
    = (Return ("Successfully left the contest", true), d2)
    /\ users d2 = users d
    /\ contests d2
       = patchIn c__id (c__id c) (withUsers (c_users c) (Date_now ctx'))
                 (contests d)
    /\ problems d2 = problems d
    /\ testcases d2 = testcases d
    /\ contestProblems d2 = contestProblems d
    /\ contestSubmissions d2 = contestSubmissions d.
Proof.
  intros NDu Hu Hfresh Auth Sel Hjoin Auth' Before.
  assert (Has : hasUser (u__id user) d = true).
  { unfold hasUser. apply existsb_exists. exists user.
    split; [exact Hu | apply String.eqb_refl]. }
  rewrite (joinContest_allowed ctx contestId d user c Auth Has Sel Hjoin) in *.
  cbn [snd] in *.
  set (c1 := withUsers (c_users c ++ [u__id user]) (Date_now ctx) c).
  set (u1 := withParticipated (u_participatedContests user ++ [c__id c]) user)
    in *.
  set (d1 := setUsers _ (setContests _ d)) in *.
  assert (Sel1 : filter (fun c => String.eqb (c_contestId c) contestId)
                        (contests d1) = [c1]).
  { unfold d1. cbn [contests setUsers setContests].
    rewrite filter_patchIn by reflexivity. rewrite Sel.
    unfold patchIn. simpl. now rewrite String.eqb_refl. }
  assert (Has1 : hasUser (u__id u1) d1 = true).
  { rewrite hasUser_ids. unfold d1. cbn [users setUsers].
    rewrite patchIn_ids by reflexivity. rewrite <- hasUser_ids. exact Has. }
  assert (Leave1 : mayLeave (Date_now ctx') u1 c1).
  { split.
    - unfold c1, u1. cbn [withUsers c_users withParticipated withContestLists u__id].
      apply in_or_app. right. now left.
    - now apply lt_not_ge. }
  rewrite (leaveContest_allowed ctx' contestId d1 u1 c1 Auth' Has1 Sel1 Leave1).
  eexists. split; [reflexivity|].
  cbn [users contests problems testcases contestProblems contestSubmissions
       setUsers setContests d1].
  repeat split.
  - unfold d1. cbn [users setUsers].
    change (u__id u1) with (u__id user).
    rewrite patchIn_patchIn by reflexivity.
    apply patchIn_same. intros x Hx Hid.
    rewrite (NoDup_map_eq u__id (users d) x user NDu Hx Hu Hid).
    unfold u1. cbn [withParticipated withContestLists u_participatedContests
                    u_createdContests c__id c1 withUsers].
    rewrite removeId_snoc by exact Hfresh.
    destruct user; reflexivity.
  - unfold d1. cbn [contests setUsers setContests].
    change (c__id c1) with (c__id c).
    rewrite patchIn_patchIn by reflexivity.
    unfold patchIn. apply map_ext. intros x.
    destruct (String.eqb (c__id x) (c__id c)); [|reflexivity].
    unfold c1, u1. cbn [withUsers c_users withParticipated withContestLists u__id].
    rewrite removeId_snoc; [reflexivity|]. apply Hjoin.
Qed.

Lemma join_then_leave_restores_witness :
  exists d2,
    leaveContest (mkCtx (fun _ => Return (Some (withParticipated ["contests:1"] bob)))
                        (-1) (1 # 2) "0.i" "unused")
                 "contest_0_iiiiiii"
                 (snd (joinContest (requestBy bob (-2) "unused") "contest_0_iiiiiii"
                         (storeWith [alice; bob] [weekly ["users:1"]] [])))
    = (Return ("Successfully left the contest", true), d2)
    /\ users d2 = [alice; bob]
    /\ contests d2 = [withUsers ["users:1"] (-1) (weekly ["users:1"])].
Proof.
  destruct (join_then_leave_restores
              (requestBy bob (-2) "unused")
              (mkCtx (fun _ => Return (Some (withParticipated ["contests:1"] bob)))
                     (-1) (1 # 2) "0.i" "unused")
              "contest_0_iiiiiii"
              (storeWith [alice; bob] [weekly ["users:1"]] [])
              bob (weekly ["users:1"]))
    as [d2 [E [Hu [Hc _]]]].
  - repeat constructor; simpl; intuition discriminate.
  - simpl. tauto.
  - simpl. tauto.
  - reflexivity.
  - reflexivity.
  - split; [reflexivity|]. split; [|split].
    + simpl. intros [H | []]. discriminate.
    + vm_compute. discriminate.
    + vm_compute. discriminate.
  - reflexivity.
  - vm_compute. reflexivity.
  - exists d2. split; [exact E|]. split; [exact Hu | exact Hc].
Defined.

(** *** updateContest and deleteContest *)

Lemma find_filter_head {A : Type} (p : A -> bool) (l : list A) (x : A) (r : list A) :
  filter p l = x :: r -> find p l = Some x.
Proof.
  induction l as [|a l IH]; simpl; [discriminate|].
  destruct (p a); [intros E; now injection E as -> _ | exact IH].
Qed.

Lemma not_manages (user : User) (c : Contest) :
  ~ managesContest user c ->
  negb (String.eqb (c_creatorId c) (u__id user))
  && negb (Role_eqb (u_role user) ADMIN) = true.
Proof.
  intros Not. unfold managesContest in Not.
  destruct (String.eqb (c_creatorId c) (u__id user)) eqn:E.
  - apply String.eqb_eq in E. tauto.
  - destruct (u_role user); [reflexivity | tauto].
Qed.

Lemma manages (user : User) (c : Contest) :
  managesContest user c ->
  negb (String.eqb (c_creatorId c) (u__id user))
  && negb (Role_eqb (u_role user) ADMIN) = false.
Proof.
  intros [E | E].
  - rewrite E, String.eqb_refl. reflexivity.
  - rewrite E. apply andb_false_r.
Qed.

Lemma updateContest_steps
  (ctx : Ctx) (args : UpdateContestArgs) (d : DB) (user : User) (c : Contest) :
  ctx_requireAuth ctx d = Return (Some user) ->
  first (fun c => String.eqb (c_contestId c) (uc_contestId args)) (contests d)
  = Some c ->
  updateContest ctx args d
  = (if negb (String.eqb (c_creatorId c) (u__id user))
        && negb (Role_eqb (u_role user) ADMIN)
     then throw "Only contest creator or admin can update contest"
     else if geb (Date_now ctx) (c_startTime c)
             && changesMoreThanDescription args
     then throw "Can only update description for contests that have started"
     else if (isSome (uc_startTime args) || isSome (uc_endTime args))
             && negb (geb (Date_now ctx) (c_startTime c))
             && ltb (orElse (uc_startTime args) (c_startTime c))
                    (Date_now ctx)
     then throw "Contest start time cannot be in the past"
     else if (isSome (uc_startTime args) || isSome (uc_endTime args))
             && leb (orElse (uc_endTime args) (c_endTime c))
                    (orElse (uc_startTime args) (c_startTime c))
     then throw "Contest end time must be after start time"
     else
       match uc_maxSize args with
       | Some maxSize =>
           if leb maxSize 0 then throw "Max size must be positive"
           else if ltb maxSize (len (c_users c)) then
             throw "Max size cannot be less than current participant count"
           else
             patchContest (c__id c) (applyUpdate args (Date_now ctx)) ;;;
             ret "Contest has been updated successfully!"
       | None =>
           patchContest (c__id c) (applyUpdate args (Date_now ctx)) ;;;
           ret "Contest has been updated successfully!"
       end) d.
Proof.
  intros Auth Sel. unfold updateContest. unfold bind at 1. unfold requireAuth.
  rewrite Auth. unfold bind at 1. rewrite read_run. rewrite Sel. reflexivity.
Qed.

(** X12. Once a contest has started, [updateContest] changes its
    description only.  For a caller who is the creator or an admin and a
    contest with [now >= startTime]: a request carrying a name, a start
    time, an end time, a visibility or a capacity is refused and the store
    is unchanged; a request carrying none of them succeeds and leaves every
    field of every contest except [description] and [updatedAt] as it
    was. *)
Theorem updateContest_after_start_changes_description_only
  (ctx : Ctx) (args : UpdateContestArgs) (d : DB) (user : User) (c : Contest) :
  ctx_requireAuth ctx d = Return (Some user) ->
  first (fun c => String.eqb (c_contestId c) (uc_contestId args)) (contests d)
  = Some c ->
  managesContest user c ->
  c_startTime c <= Date_now ctx ->
  (changesMoreThanDescription args = true ->
   updateContest ctx args d
   = (Throw "Can only update description for contests that have started", d))
  /\ (changesMoreThanDescription args = false ->
      exists d',
        updateContest ctx args d
        = (Return "Contest has been updated successfully!", d')
        /\ map contestCore (contests d') = map contestCore (contests d)
        /\ users d' = users d
        /\ contestProblems d' = contestProblems d
        /\ contestSubmissions d' = contestSubmissions d).
Proof.
  intros Auth Sel Hman Started.
  pose proof (updateContest_steps ctx args d user c Auth Sel) as Steps.
  rewrite (manages user c Hman) in Steps.
  change (geb (Date_now ctx) (c_startTime c) = true) in Started.
  rewrite Started in Steps. cbn [andb negb] in Steps.
  split; intros Ch; rewrite Ch in Steps.
  - exact Steps.
  - unfold changesMoreThanDescription in Ch.
    destruct (uc_name args) eqn:N, (uc_startTime args) eqn:S,
      (uc_endTime args) eqn:E, (uc_isPublic args) eqn:P, (uc_maxSize args) eqn:M;
      try discriminate.
    cbn [isSome orb andb] in Steps.
    apply find_some in Sel. destruct Sel as [Hin _].
    unfold bind in Steps. rewrite (patchContest_present c _ d Hin) in Steps.
    eexists. split; [exact Steps|].
    cbn [contests users contestProblems contestSubmissions setContests].
    repeat split.
    unfold patchIn. rewrite map_map. apply map_ext. intros x.
    destruct (String.eqb (c__id x) (c__id c)); [|reflexivity].
    unfold applyUpdate, contestCore. rewrite N, S, E, P, M. reflexivity.
Qed.

Lemma updateContest_after_start_changes_description_only_witness :
  updateContest (requestBy alice 3 "unused")
    (mkUpdateContestArgs "contest_0_iiiiiii" None (Some "x") None None None (Some (Fin 9)))
    (storeWith [alice; bob] [weekly []] [])
  = (Throw "Can only update description for contests that have started",
     storeWith [alice; bob] [weekly []] []).
Proof.
  apply (proj1 (updateContest_after_start_changes_description_only
                  (requestBy alice 3 "unused")
                  (mkUpdateContestArgs "contest_0_iiiiiii" None (Some "x") None
                                       None None (Some (Fin 9)))
                  (storeWith [alice; bob] [weekly []] [])
                  alice (weekly []) eq_refl eq_refl
                  (or_introl eq_refl)
                  ltac:(vm_compute; reflexivity))).
  reflexivity.
Defined.

(** X13. Only the creator of a contest (the user whose document identifier
    is its [creatorId]) or an admin can update or delete it: for any other
    authenticated caller both handlers throw their "Only contest creator or
    admin" error and the store is unchanged. *)
Theorem contest_managed_by_creator_or_admin_only
  (ctx : Ctx) (d : DB) (user : User) (c : Contest) :
  ctx_requireAuth ctx d = Return (Some user) ->
  ~ managesContest user c ->
  (forall args,
      first (fun c => String.eqb (c_contestId c) (uc_contestId args)) (contests d)
      = Some c ->
      updateContest ctx args d
      = (Throw "Only contest creator or admin can update contest", d))
  /\ (forall contestId,
        filter (fun c => String.eqb (c_contestId c) contestId) (contests d) = [c] ->
        deleteContest ctx contestId d
        = (Throw "Only contest creator or admin can delete contest", d)).
Proof.
  intros Auth Not. split.
  - intros args Sel. rewrite (updateContest_steps ctx args d user c Auth Sel).
    now rewrite (not_manages user c Not).
  - intros contestId Sel. unfold deleteContest.
    unfold bind at 1. unfold requireAuth. rewrite Auth.
    unfold bind at 1. rewrite read_run. unfold bind at 1.
    unfold unique. rewrite Sel. unfold ret at 1.
    now rewrite (not_manages user c Not).
Qed.

Lemma contest_managed_by_creator_or_admin_only_witness :
  deleteContest (requestBy bob 3 "unused") "contest_0_iiiiiii"
                (storeWith [alice; bob] [weekly []] [])
  = (Throw "Only contest creator or admin can delete contest",
     storeWith [alice; bob] [weekly []] []).
Proof.
  apply (proj2 (contest_managed_by_creator_or_admin_only
                  (requestBy bob 3 "unused")
                  (storeWith [alice; bob] [weekly []] [])
                  bob (weekly []) eq_refl
                  ltac:(intros [H | H]; discriminate))).
  reflexivity.
Defined.

Lemma withoutContestProblems_In (dels l : list ContestProblem) (x : ContestProblem) :
  In x (fold_left
          (fun rest cp =>
             filter (fun y => negb (String.eqb (cp__id y) (cp__id cp))) rest)
          dels l)
  <-> In x l /\ forall q, In q dels -> cp__id x <> cp__id q.
Proof.
  revert l. induction dels as [|cp dels IH]; intros l; cbn [fold_left].
  - simpl. intuition.
  - rewrite IH, filter_In, negb_true_iff, String.eqb_neq. simpl. split.
    + intros [[Hin Hne] Hall]. split; [exact Hin|].
      intros q [<- | Hq]; auto.
    + intros [Hin Hall]. repeat split; auto.
Qed.

Lemma withoutParticipation_ids (contestDocId : Id)
  (participants : list (option User)) (us : list User) :
  map u__id (withoutParticipation contestDocId participants us) = map u__id us.
Proof.
  unfold withoutParticipation. revert us.
  induction participants as [|p ps IH]; intros us; cbn [fold_left];
    [reflexivity|].
  rewrite IH. destruct p as [p|]; [|reflexivity].
  now apply patchIn_ids.
Qed.

Lemma withoutParticipation_keeps (contestDocId : Id)
  (participants : list (option User)) (us : list User) (u : User) :
  In u us ->
  (forall p, In (Some p) participants -> u__id p <> u__id u) ->
  In u (withoutParticipation contestDocId participants us).
Proof.
  unfold withoutParticipation. revert us.
  induction participants as [|p ps IH]; intros us Hin Hne; cbn [fold_left];
    [exact Hin|].
  apply IH.
  - destruct p as [p|]; [|exact Hin].
    unfold patchIn. apply in_map_iff. exists u. split; [|exact Hin].
    assert (N : u__id p <> u__id u) by (apply Hne; now left).
    destruct (String.eqb (u__id u) (u__id p)) eqn:E; [|reflexivity].
    apply String.eqb_eq in E. congruence.
  - intros q Hq. apply Hne. now right.
Qed.

(** A user document that does not refer to the contest any more. *)
Lemma withoutParticipation_cleans (contestDocId : Id)
  (participants : list (option User)) (us : list User) (u : User) :
  In u (withoutParticipation contestDocId participants us) ->
  (~ In contestDocId (u_createdContests u)
   /\ ~ In contestDocId (u_participatedContests u))
  \/ (In u us /\ forall p, In (Some p) participants -> u__id p <> u__id u).
Proof.
  unfold withoutParticipation. revert us.
  induction participants as [|p ps IH]; intros us Hin; cbn [fold_left] in Hin.
  - right. split; [exact Hin | intros p []].
  - destruct (IH _ Hin) as [Clean | [Hin' Hne]]; [now left|].
    destruct p as [p|].
    + unfold patchIn in Hin'. apply in_map_iff in Hin'.
      destruct Hin' as [x [Hx Hxin]].
      destruct (String.eqb (u__id x) (u__id p)) eqn:E.
      * left. subst u. unfold withoutContest, withContestLists, removeId.
        cbn [u_createdContests u_participatedContests].
        split; intros H; apply filter_In in H; destruct H as [_ H];
          rewrite String.eqb_refl in H; discriminate.
      * right. subst u. split; [exact Hxin|].
        intros q [Hq | Hq]; [|now apply Hne].
        injection Hq as <-. apply String.eqb_neq in E. congruence.
    + right. split; [exact Hin'|].
      intros q [Hq | Hq]; [discriminate | now apply Hne].
Qed.

(** X14. The effect of a successful [deleteContest].  The caller is the
    creator or an admin and the contest had no ContestSubmission row; the
    contest is gone from [contests] and nothing else is; no contestProblem
    of the contest is left; submissions, problems and testcases are
    untouched; every user keeps their document, the documents of users who
    were not participants are unchanged, and no participant's document
    refers to the contest any more. *)
Theorem deleteContest_effect
  (ctx : Ctx) (contestId : string) (d d' : DB) (r : string * bool) :
  deleteContest ctx contestId d = (Return r, d') ->
  exists user c,
    ctx_requireAuth ctx d = Return (Some user)
    /\ filter (fun c => String.eqb (c_contestId c) contestId) (contests d) = [c]
    /\ managesContest user c
    /\ (forall s, In s (contestSubmissions d) -> cs_contestId s <> c__id c)
    /\ contests d'
       = filter (fun x => negb (String.eqb (c__id x) (c__id c))) (contests d)
    /\ (forall cp, In cp (contestProblems d') ->
                   In cp (contestProblems d) /\ cp_contestId cp <> c__id c)
    /\ contestSubmissions d' = contestSubmissions d
    /\ problems d' = problems d
    /\ testcases d' = testcases d
    /\ map u__id (users d') = map u__id (users d)
    /\ (forall u, In u (users d) -> ~ In (u__id u) (c_users c) ->
                  In u (users d'))
    /\ (forall u, In u (users d') -> In (u__id u) (c_users c) ->
                  ~ In (c__id c) (u_createdContests u)
                  /\ ~ In (c__id c) (u_participatedContests u)).
Proof.
  intros Run.
  destruct (deleteContest_run ctx contestId d)
    as [[e E] | [user [c [Auth [Sel [Hman [Subs E]]]]]]];
    rewrite E in Run; [discriminate|].
  injection Run as _ <-.
  exists user, c. split; [exact Auth|]. split; [exact Sel|]. split; [exact Hman|].
  unfold afterDelete.
  cbn [contests contestProblems contestSubmissions problems testcases users
       setContests setUsers setContestProblems].
  set (parts := map (fun id => find (fun u => String.eqb (u__id u) id) (users d))
                    (c_users c)).
  assert (Parts : forall p, In (Some p) parts -> In (u__id p) (c_users c)).
  { intros p Hp. apply in_map_iff in Hp. destruct Hp as [id [F Hid]].
    apply find_some in F. destruct F as [_ F]. apply String.eqb_eq in F.
    now rewrite F. }
  split.
  { intros s Hs Heq.
    pose proof (find_none _ _ Subs s Hs) as N. simpl in N.
    apply String.eqb_neq in N. contradiction. }
  split; [reflexivity|]. split.
  { intros cp Hcp. unfold withoutContestProblems in Hcp.
    apply withoutContestProblems_In in Hcp. destruct Hcp as [Hin Hall].
    split; [exact Hin|]. intros Heq. apply (Hall cp); [|reflexivity].
    apply filter_In. split; [exact Hin | now apply String.eqb_eq]. }
  split; [reflexivity|]. split; [reflexivity|]. split; [reflexivity|].
  split; [apply withoutParticipation_ids|]. split.
  { intros u Hu Hnot. apply withoutParticipation_keeps; [exact Hu|].
    intros p Hp Heq. apply Hnot. rewrite <- Heq. now apply Parts. }
  intros u Hu Hpart.
  destruct (withoutParticipation_cleans _ _ _ _ Hu) as [Clean | [Hin Hne]];
    [exact Clean|].
  exfalso.
  destruct (find (fun x => String.eqb (u__id x) (u__id u)) (users d))
    as [p|] eqn:F.
  - apply (Hne p).
    + unfold parts. apply in_map_iff. exists (u__id u). split; assumption.
    + apply find_some in F. destruct F as [_ F]. now apply String.eqb_eq in F.
  - pose proof (find_none _ _ F u Hin) as N. simpl in N.
    rewrite String.eqb_refl in N. discriminate.
Qed.

Lemma deleteContest_effect_witness :
  exists user c,
    ctx_requireAuth (requestBy alice 20 "unused")
      (storeWith [alice; withParticipated ["contests:1"] bob]
                 [weekly ["users:2"]] [])
    = Return (Some user)
    /\ filter (fun c => String.eqb (c_contestId c) "contest_0_iiiiiii")
              [weekly ["users:2"]] = [c]
    /\ managesContest user c
    /\ contests (storeWith [alice; bob] [] [])
       = filter (fun x => negb (String.eqb (c__id x) (c__id c)))
                [weekly ["users:2"]].
Proof.
  destruct (deleteContest_effect
              (requestBy alice 20 "unused") "contest_0_iiiiiii"
              (storeWith [alice; withParticipated ["contests:1"] bob]
                         [weekly ["users:2"]] [])
              (storeWith [alice; bob] [] [])
              ("Contest deleted successfully", true) eq_refl)
    as (user & c & Auth & Sel & Hman & _ & Hc & _).
  exists user, c. repeat split; assumption.
Defined.

(** *** createContest *)

Lemma createContest_steps
  (ctx : Ctx) (args : CreateContestArgs) (d : DB) (user : User) :
  ctx_requireAuth ctx d = Return (Some user) ->
  createContest ctx args d
  = (if ltb (cc_startTime args) (Date_now ctx) then
       throw "Contest startTime cannot be in the past"
     else if leb (cc_endTime args) (cc_startTime args) then
       throw "Contest end time must be after start time"
     else if leb (cc_maxSize args) 0 then
       throw "Max size must be positive"
     else
       contestDocId <- insertContest (newContest ctx args user) ;;
       patchUser (u__id user) (afterCreate args user contestDocId) ;;;
       ret ("Contest created successfully!", contestDocId)) d.
Proof.
  intros Auth. unfold createContest. unfold bind at 1. unfold requireAuth.
  rewrite Auth. reflexivity.
Qed.

Lemma createContest_allowed
  (ctx : Ctx) (args : CreateContestArgs) (d : DB) (user : User) :
  ctx_requireAuth ctx d = Return (Some user) ->
  hasUser (u__id user) d = true ->
  validContestArgs (Date_now ctx) args ->
  createContest ctx args d
  = (Return ("Contest created successfully!", ctx_newId ctx),
     setUsers (patchIn u__id (u__id user)
                 (afterCreate args user (ctx_newId ctx)) (users d))
              (setContests (contests d ++ [newContest ctx args user]) d)).
Proof.
  intros Auth Has (V1 & V2 & V3).
  rewrite (createContest_steps ctx args d user Auth).
  apply not_true_is_false in V1. rewrite V1.
  apply not_true_is_false in V2. rewrite V2.
  apply not_true_is_false in V3. rewrite V3.
  unfold insertContest, bind, write, ret. cbn [c__id newContest].
  match goal with
  | |- context [patchUser ?i ?f ?s] =>
      destruct (patchUser_run i f s) as [[_ ->] | [Hu _]]
  end; [reflexivity|].
  rewrite hasUser_ids in Hu. cbn [users setContests] in Hu.
  rewrite <- hasUser_ids in Hu. congruence.
Qed.

(** X15. [createContest], for a caller whose document is in the store:
    when none of [startTime < now], [endTime <= startTime] and
    [maxSize <= 0] holds, the handler returns the identifier the store
    assigned, the [contests] table gains exactly one document at its end
    (created by the caller, name and description trimmed as
    [String.prototype.trim] does, times and capacity as given, no problems,
    the caller as only participant when [addSelf] and no participant
    otherwise) and the caller's [createdContests] gains the new identifier;
    when one of the three comparisons holds it throws and the store is
    unchanged.  (Arguments that are NaN make all three comparisons false and
    are stored.) *)
Theorem createContest_creates_exactly_when_valid
  (ctx : Ctx) (args : CreateContestArgs) (d : DB) (user : User) :
  ctx_requireAuth ctx d = Return (Some user) ->
  hasUser (u__id user) d = true ->
  (validContestArgs (Date_now ctx) args ->
   exists d' c,
     createContest ctx args d
     = (Return ("Contest created successfully!", ctx_newId ctx), d')
     /\ contests d' = (contests d ++ [c])%list
     /\ c__id c = ctx_newId ctx
     /\ c_creatorId c = u__id user
     /\ c_name c = trim (cc_name args)
     /\ c_description c = trim (cc_description args)
     /\ c_startTime c = cc_startTime args /\ c_endTime c = cc_endTime args
     /\ c_isPublic c = cc_isPublic args /\ c_maxSize c = cc_maxSize args
     /\ c_problems c = []
     /\ c_users c = (if cc_addSelf args then [u__id user] else [])
     /\ users d'
        = patchIn u__id (u__id user)
            (afterCreate args user (ctx_newId ctx)) (users d)
     /\ u_createdContests (afterCreate args user (ctx_newId ctx) user)
        = (u_createdContests user ++ [ctx_newId ctx])%list)
  /\ (~ validContestArgs (Date_now ctx) args ->
      exists e, createContest ctx args d = (Throw e, d)).
Proof.
  intros Auth Has. split.
  - intros Valid. eexists. exists (newContest ctx args user).
    split; [exact (createContest_allowed ctx args d user Auth Has Valid)|].
    cbn [contests users setUsers setContests]. repeat split.
  - intros Not. rewrite (createContest_steps ctx args d user Auth).
    destruct (ltb (cc_startTime args) (Date_now ctx)) eqn:E1;
      [eexists; reflexivity|].
    destruct (leb (cc_endTime args) (cc_startTime args)) eqn:E2;
      [eexists; reflexivity|].
    destruct (leb (cc_maxSize args) 0) eqn:E3; [eexists; reflexivity|].
    exfalso. apply Not. split; [|split]; intro; congruence.
Qed.

Lemma createContest_creates_exactly_when_valid_witness :
  exists d' c,
    createContest (requestBy alice 0 "contests:2")
      (mkCreateContestArgs " Spring " "Open round" 5 20 true 3 true)
      (storeWith [alice] [] [])
    = (Return ("Contest created successfully!", "contests:2"), d')
    /\ contests d' = [c]
    /\ c_name c = "Spring"
    /\ c_users c = ["users:1"].
Proof.
  destruct (proj1 (createContest_creates_exactly_when_valid
                     (requestBy alice 0 "contests:2")
                     (mkCreateContestArgs " Spring " "Open round" 5 20 true 3 true)
                     (storeWith [alice] [] []) alice eq_refl eq_refl))
    as (d' & c & E & Hc & _ & _ & Hn & _ & _ & _ & _ & _ & _ & Hu & _).
  - split; [|split]; vm_compute; congruence.
  - exists d', c. repeat split; assumption.
Defined.

(** X16. The filter "my_created" compares a contest's [creatorId] with the
    caller's [userId], while [createContest] stores the caller's document
    identifier [_id] as [creatorId].  So the contest a user has just
    created is in the store, but [listContests] with "my_created" returns
    it to that user only if the user's [_id] and [userId] are the same
    string. *)
Theorem my_created_misses_created_contest
  (ctx ctx' : Ctx) (args : CreateContestArgs) (largs : ListContestsArgs)
  (d d1 d2 : DB) (user user' : User) (res : string * Id)
  (r : ListContestsResult) :
  ctx_requireAuth ctx d = Return (Some user) ->
  createContest ctx args d = (Return res, d1) ->
  ctx_requireAuth ctx' d1 = Return (Some user') ->
  u__id user' = u__id user -> u_userId user' = u_userId user ->
  lc_filter largs = Some F_my_created ->
  listContests ctx' largs d1 = (Return r, d2) ->
  In (newContest ctx args user) (contests d1)
  /\ (In (newContest ctx args user) (map cm_contest (lr_contests r)) ->
      u__id user = u_userId user).
Proof.
  intros Auth Create Auth' Hid Huid Hf List. split.
  - destruct (createContest_run ctx args d)
      as [[e E] | [u [A [_ [[_ E] | [_ E]]]]]];
      rewrite E in Create; try discriminate.
    injection Create as _ <-. rewrite Auth in A. injection A as <-.
    cbn [contests setUsers setContests]. apply in_or_app. right. now left.
  - intros Listed. apply listContests_run in List.
    destruct List as [u [sel [A [Sel [_ [Hmap _]]]]]].
    rewrite Auth' in A. injection A as <-.
    apply selectContests_run in Sel. destruct Sel as [_ [-> _]].
    rewrite Hmap in Listed. apply In_slice in Listed. apply sort_In in Listed.
    apply filter_In in Listed. destruct Listed as [_ T].
    rewrite Hf in T. cbn [effectiveFilter selectionTest newContest c_creatorId] in T.
    apply String.eqb_eq in T. congruence.
Qed.

Lemma my_created_misses_created_contest_witness :
  In (newContest (requestBy alice 0 "contests:2")
        (mkCreateContestArgs "Spring" "Open round" 5 20 true 3 true) alice)
     (contests
        (snd (createContest (requestBy alice 0 "contests:2")
                (mkCreateContestArgs "Spring" "Open round" 5 20 true 3 true)
                (storeWith [alice] [] []))))
  /\ (exists r,
        listContests (requestBy alice 1 "unused")
          (mkListContestsArgs (Some F_my_created) None None)
          (snd (createContest (requestBy alice 0 "contests:2")
                  (mkCreateContestArgs "Spring" "Open round" 5 20 true 3 true)
                  (storeWith [alice] [] [])))
        = (Return r,
           snd (createContest (requestBy alice 0 "contests:2")
                  (mkCreateContestArgs "Spring" "Open round" 5 20 true 3 true)
                  (storeWith [alice] [] [])))
        /\ lr_contests r = []).
Proof.
  split.
  - apply (my_created_misses_created_contest
             (requestBy alice 0 "contests:2") (requestBy alice 1 "unused")
             (mkCreateContestArgs "Spring" "Open round" 5 20 true 3 true)
             (mkListContestsArgs (Some F_my_created) None None)
             (storeWith [alice] [] []) _ _ alice alice _ _
             eq_refl eq_refl eq_refl eq_refl eq_refl eq_refl eq_refl).
  - eexists. split; vm_compute; reflexivity.
Defined.

(** *** users.ts *)

Lemma find_snoc_some {A : Type} (p : A -> bool) (l : list A) (x y : A) :
  find p l = Some y -> find p (l ++ [x]) = Some y.
Proof.
  induction l as [|a l IH]; simpl; [discriminate|].
  destruct (p a); [auto | exact IH].
Qed.

Lemma find_snoc_none {A : Type} (p : A -> bool) (l : list A) (x : A) :
  find p l = None -> find p (l ++ [x]) = (if p x then Some x else None).
Proof.
  induction l as [|a l IH]; simpl; [reflexivity|].
  destruct (p a); [discriminate | exact IH].
Qed.

(** X18. For a non-empty [userId] that a document carries already,
    [syncUser] leaves the store as it is, and [getUser] for that [userId]
    and [getCurrentUser] for an identity with that subject both return the
    first document of the table with that [userId], after the call as
    before it.  For the empty [userId], [getUser] answers [null] whatever
    the store holds. *)
Theorem syncUser_then_getUser
  (ctx : Ctx) (args : SyncUserArgs) (d : DB) :
  su_userId args <> "" ->
  (exists v, In v (users d) /\ u_userId v = su_userId args) ->
  exists u,
    snd (syncUser ctx args d) = d
    /\ getUser (su_userId args) (snd (syncUser ctx args d))
       = (Return (Some u), snd (syncUser ctx args d))
    /\ getCurrentUser (Some (su_userId args)) (snd (syncUser ctx args d))
       = (Return (Some u), snd (syncUser ctx args d))
    /\ first (fun x => String.eqb (u_userId x) (su_userId args)) (users d)
       = Some u
    /\ u_userId u = su_userId args
    /\ In u (users d)
    /\ getUser (su_userId args) d = (Return (Some u), d)
    /\ getUser "" (snd (syncUser ctx args d))
       = (Return None, snd (syncUser ctx args d)).
Proof.
  intros Hne [v [Hv Ev]]. apply String.eqb_neq in Hne.
  assert (Get : forall s,
             getUser (su_userId args) s
             = (Return (first (fun u => String.eqb (u_userId u) (su_userId args))
                              (users s)), s)).
  { intros s. unfold getUser. rewrite Hne. unfold bind. rewrite read_run.
    destruct (first _ (users s)); reflexivity. }
  assert (Empty : getUser "" (snd (syncUser ctx args d))
                  = (Return None, snd (syncUser ctx args d))) by reflexivity.
  assert (Pos : (0 < countUserId (su_userId args) d)%nat).
  { unfold countUserId.
    destruct (filter (fun u => String.eqb (u_userId u) (su_userId args))
                     (users d)) as [|x r] eqn:Fl; [|simpl; lia].
    assert (In v []) as [].
    rewrite <- Fl. apply filter_In. split; [exact Hv|]. now apply String.eqb_eq. }
  rewrite !Get. unfold getCurrentUser. rewrite read_run.
  rewrite (syncUser_existing ctx args d Pos) in *. cbn [snd] in *.
  unfold first in *.
  destruct (find (fun u => String.eqb (u_userId u) (su_userId args)) (users d))
    as [u|] eqn:F.
  - exists u. pose proof F as F'. apply find_some in F'. destruct F' as [Hin E].
    apply String.eqb_eq in E. repeat split; assumption || reflexivity.
  - pose proof (find_none _ _ F v Hv) as N. simpl in N.
    rewrite Ev, String.eqb_refl in N. discriminate.
Qed.

Lemma syncUser_then_getUser_witness :
  snd (syncUser (requestBy alice 0 "users:3")
         (mkSyncUserArgs "clerk_bob" "bob@example.org" "bob")
         (storeWith [alice; bob] [] []))
  = storeWith [alice; bob] [] []
  /\ getUser "clerk_bob"
       (snd (syncUser (requestBy alice 0 "users:3")
               (mkSyncUserArgs "clerk_bob" "bob@example.org" "bob")
               (storeWith [alice; bob] [] [])))
     = (Return (Some bob), storeWith [alice; bob] [] []).
Proof.
  destruct (syncUser_then_getUser
              (requestBy alice 0 "users:3")
              (mkSyncUserArgs "clerk_bob" "bob@example.org" "bob")
              (storeWith [alice; bob] [] []))
    as (u & S & G & _ & F & _).
  - discriminate.
  - exists bob. split; [right; now left | reflexivity].
  - split; [exact S|]. vm_compute in F. injection F as <-. exact G.
Defined.

(** *** Testcases *)

Lemma problemRights_granted (user : User) (problem : Problem) (d : DB) :
  managesProblem user problem ->
  requireProblemRights (Some user) problem d = (Return tt, d).
Proof.
  intros [E | E]; unfold requireProblemRights.
  - now rewrite E, String.eqb_refl.
  - rewrite E. now rewrite andb_false_r.
Qed.

Lemma problemRights_denied (user : User) (problem : Problem) (d : DB) :
  ~ managesProblem user problem ->
  requireProblemRights (Some user) problem d = (Throw "Permission denied", d).
Proof.
  intros Not. unfold requireProblemRights, managesProblem in *.
  destruct (String.eqb (p_creatorId problem) (u__id user)) eqn:E.
  - apply String.eqb_eq in E. tauto.
  - destruct (u_role user); [reflexivity | tauto].
Qed.

Lemma problemRights_cases (user : option User) (problem : Problem) (d : DB) :
  (exists u, user = Some u /\ managesProblem u problem
             /\ requireProblemRights user problem d = (Return tt, d))
  \/ (exists e, requireProblemRights user problem d = (Throw e, d)).
Proof.
  destruct user as [u|]; [|right; eexists; reflexivity].
  unfold requireProblemRights, managesProblem.
  destruct (String.eqb (p_creatorId problem) (u__id u)) eqn:E.
  - left. exists u. apply String.eqb_eq in E. simpl. auto.
  - destruct (u_role u) eqn:R; simpl.
    + right. eexists. reflexivity.
    + left. exists u. auto.
Qed.

Lemma patchProblem_present (p : Problem) (f : Problem -> Problem) (d : DB) :
  In p (problems d) ->
  patchProblem (p__id p) f d
  = (Return tt, setProblems (patchIn p__id (p__id p) f (problems d)) d).
Proof.
  intros Hin. unfold patchProblem.
  assert (E : existsb (fun x => String.eqb (p__id x) (p__id p)) (problems d) = true).
  { apply existsb_exists. exists p. split; [exact Hin | apply String.eqb_refl]. }
  now rewrite E.
Qed.

Lemma patchTestcase_present (t : Testcase) (f : Testcase -> Testcase) (d : DB) :
  In t (testcases d) ->
  patchTestcase (t__id t) f d
  = (Return tt, setTestcases (patchIn t__id (t__id t) f (testcases d)) d).
Proof.
  intros Hin. unfold patchTestcase.
  assert (E : existsb (fun x => String.eqb (t__id x) (t__id t)) (testcases d) = true).
  { apply existsb_exists. exists t. split; [exact Hin | apply String.eqb_refl]. }
  now rewrite E.
Qed.

Lemma deleteTestcaseDoc_present (t : Testcase) (d : DB) :
  In t (testcases d) ->
  deleteTestcaseDoc (t__id t) d
  = (Return tt,
     setTestcases
       (filter (fun x => negb (String.eqb (t__id x) (t__id t))) (testcases d)) d).
Proof.
  intros Hin. unfold deleteTestcaseDoc.
  assert (E : existsb (fun x => String.eqb (t__id x) (t__id t)) (testcases d) = true).
  { apply existsb_exists. exists t. split; [exact Hin | apply String.eqb_refl]. }
  now rewrite E.
Qed.

Lemma canModifyProblem_steps (ctx : Ctx) (problemId : string) (d : DB)
  (user : option User) (problem : Problem) :
  ctx_requireAuth ctx d = Return user ->
  first (fun p => String.eqb (p_problemId p) problemId) (problems d)
  = Some problem ->
  canModifyProblem ctx problemId d
  = (requireProblemRights user problem ;;; ret (user, problem)) d.
Proof.
  intros Auth Sel. unfold canModifyProblem. unfold bind at 1.
  unfold requireAuth. rewrite Auth. unfold bind at 1. rewrite read_run, Sel.
  reflexivity.
Qed.

(** X19. [createTestCase] on an existing problem: for a caller who is the
    creator of the problem or an admin, one testcase document is appended
    to [testcases] (the given input, output and visibility, owned by the
    problem) and its identifier is appended to the problem's [testcases]
    array; for any other authenticated caller the handler throws
    "Permission denied" and the store is unchanged. *)
Theorem createTestCase_needs_rights
  (ctx : Ctx) (args : CreateTestCaseArgs) (d : DB) (user : User)
  (problem : Problem) :
  ctx_requireAuth ctx d = Return (Some user) ->
  first (fun p => String.eqb (p_problemId p) (ct_problemId args)) (problems d)
  = Some problem ->
  (managesProblem user problem ->
   createTestCase ctx args d
   = (Return ("Testcase created successfully!",
              t_testcaseId (newTestcase ctx args problem)),
      setProblems
        (patchIn p__id (p__id problem)
           (withTestcases (p_testcases problem ++ [ctx_newId ctx]) (Date_now ctx))
           (problems d))
        (setTestcases (testcases d ++ [newTestcase ctx args problem]) d)))
  /\ (~ managesProblem user problem ->
      createTestCase ctx args d = (Throw "Permission denied", d)).
Proof.
  intros Auth Sel.
  pose proof Sel as Hin. apply find_some in Hin. destruct Hin as [Hin _].
  split; intros Rights; unfold createTestCase; unfold bind at 1;
    rewrite (canModifyProblem_steps ctx _ d (Some user) problem Auth Sel);
    unfold bind at 1.
  - rewrite (problemRights_granted user problem d Rights).
    unfold ret at 1. cbn [snd].
    unfold insertTestcase, bind, write, ret. cbn [t__id].
    rewrite patchProblem_present; [reflexivity | exact Hin].
  - now rewrite (problemRights_denied user problem d Rights).
Qed.

Lemma createTestCase_needs_rights_witness :
  createTestCase (requestBy bob 0 "testcases:3")
                 (mkCreateTestCaseArgs "PROB_1" "7 8" "15" false) problemStore
  = (Throw "Permission denied", problemStore).
Proof.
  apply (proj2 (createTestCase_needs_rights
                  (requestBy bob 0 "testcases:3")
                  (mkCreateTestCaseArgs "PROB_1" "7 8" "15" false)
                  problemStore bob sumProblem eq_refl eq_refl)).
  intros [H | H]; discriminate.
Defined.

Lemma collectTestcases_run (keep : Testcase -> bool) (ids : list Id) (d : DB) :
  collectTestcases keep ids d = (Return (collected keep ids d), d).
Proof.
  unfold collected. induction ids as [|id ids IH]; cbn [collectTestcases flat_map].
  - reflexivity.
  - unfold bind at 1. unfold getTestcaseDoc. rewrite read_run.
    unfold bind at 1. rewrite IH.
    destruct (find (fun t => String.eqb (t__id t) id) (testcases d)) as [t|];
      [destruct (keep t)|]; reflexivity.
Qed.

Lemma find_patchIn {A : Type} (key : A -> Id) (id : Id) (f : A -> A)
  (p : A -> bool) (l : list A) :
  (forall x, p (f x) = p x) ->
  find p (patchIn key id f l)
  = option_map (fun x => if String.eqb (key x) id then f x else x) (find p l).
Proof.
  intros Hp. unfold patchIn. induction l as [|a l IH]; simpl; [reflexivity|].
  destruct (String.eqb (key a) id) eqn:E.
  - rewrite Hp. destruct (p a); simpl; [now rewrite E | exact IH].
  - destruct (p a); simpl; [now rewrite E | exact IH].
Qed.

Lemma collected_after_insert (keep : Testcase -> bool) (ids : list Id)
  (ps : list Problem) (d : DB) (t : Testcase) :
  ~ In (t__id t) ids ->
  collected keep ids (setProblems ps (setTestcases (testcases d ++ [t]) d))
  = collected keep ids d.
Proof.
  intros Hn. unfold collected. cbn [testcases setProblems setTestcases].
  induction ids as [|id ids IH]; cbn [flat_map]; [reflexivity|].
  rewrite IH by (intros H; apply Hn; now right). f_equal.
  destruct (find (fun x => String.eqb (t__id x) id) (testcases d)) as [x|] eqn:F.
  - now rewrite (find_snoc_some _ _ _ _ F).
  - rewrite (find_snoc_none _ _ _ F).
    destruct (String.eqb (t__id t) id) eqn:E; [|reflexivity].
    apply String.eqb_eq in E. exfalso. apply Hn. now left.
Qed.

Lemma getProblemTestCases_for_manager
  (ctx : Ctx) (problemId : string) (d : DB) (user : User) (problem : Problem) :
  ctx_requireAuth ctx d = Return (Some user) ->
  first (fun p => String.eqb (p_problemId p) problemId) (problems d)
  = Some problem ->
  managesProblem user problem ->
  getProblemTestCases ctx (mkGetProblemTestCasesArgs problemId None) d
  = (Return (collected (fun _ => true) (p_testcases problem) d), d).
Proof.
  intros Auth Sel Rights. unfold getProblemTestCases.
  unfold bind at 1. rewrite read_run. cbn [tc_problemId tc_publicOnly].
  rewrite Sel. cbn [notPublicOnly publicOnlyIsFalse].
  unfold bind at 1. unfold bind at 1. unfold requireAuth. rewrite Auth.
  assert (See : String.eqb (p_creatorId problem) (u__id user)
                || Role_eqb (u_role user) ADMIN = true).
  { destruct Rights as [E | E].
    - now rewrite E, String.eqb_refl.
    - rewrite E. apply orb_true_r. }
  unfold ret at 1. rewrite See. cbn [orb].
  apply collectTestcases_run.
Qed.

(** X20. A testcase created by [createTestCase] is returned by
    [getProblemTestCases] to the creator of the problem (or an admin),
    after the testcases that were returned before, whether it is public or
    not.  (The store assigns the new document an identifier that no
    testcase carries and that the problem does not list.) *)
Theorem created_testcase_is_returned
  (ctx ctx' : Ctx) (args : CreateTestCaseArgs) (d : DB) (user : User)
  (problem : Problem) :
  ctx_requireAuth ctx d = Return (Some user) ->
  first (fun p => String.eqb (p_problemId p) (ct_problemId args)) (problems d)
  = Some problem ->
  managesProblem user problem ->
  ~ In (ctx_newId ctx) (map t__id (testcases d)) ->
  ~ In (ctx_newId ctx) (p_testcases problem) ->
  ctx_requireAuth ctx' (snd (createTestCase ctx args d)) = Return (Some user) ->
  exists before,
    getProblemTestCases ctx (mkGetProblemTestCasesArgs (ct_problemId args) None) d
    = (Return before, d)
    /\ getProblemTestCases ctx'
         (mkGetProblemTestCasesArgs (ct_problemId args) None)
         (snd (createTestCase ctx args d))
       = (Return (before ++ [newTestcase ctx args problem])%list,
          snd (createTestCase ctx args d)).
Proof.
  intros Auth Sel Rights Fresh Unlisted Auth'.
  exists (collected (fun _ => true) (p_testcases problem) d).
  split; [exact (getProblemTestCases_for_manager ctx _ d user problem Auth Sel Rights)|].
  assert (Create :
            createTestCase ctx args d
            = (Return ("Testcase created successfully!",
                       t_testcaseId (newTestcase ctx args problem)),
               setProblems
                 (patchIn p__id (p__id problem)
                    (withTestcases (p_testcases problem ++ [ctx_newId ctx])
                                   (Date_now ctx))
                    (problems d))
                 (setTestcases (testcases d ++ [newTestcase ctx args problem]) d))).
  { pose proof Sel as Hin. apply find_some in Hin. destruct Hin as [Hin _].
    unfold createTestCase. unfold bind at 1.
    rewrite (canModifyProblem_steps ctx _ d (Some user) problem Auth Sel).
    unfold bind at 1. rewrite (problemRights_granted user problem d Rights).
    unfold ret at 1. cbn [snd].
    unfold insertTestcase, bind, write, ret. cbn [t__id].
    rewrite patchProblem_present; [reflexivity | exact Hin]. }
  rewrite Create in *. cbn [snd] in *.
  set (d' := setProblems _ (setTestcases _ d)) in *.
  set (problem' := withTestcases (p_testcases problem ++ [ctx_newId ctx])
                                 (Date_now ctx) problem).
  assert (Sel' : first (fun p => String.eqb (p_problemId p) (ct_problemId args))
                       (problems d') = Some problem').
  { unfold d', first. cbn [problems setProblems].
    rewrite find_patchIn by reflexivity. unfold first in Sel. rewrite Sel.
    cbn [option_map]. now rewrite String.eqb_refl. }
  rewrite (getProblemTestCases_for_manager ctx' _ d' user problem' Auth' Sel' Rights).
  f_equal. f_equal. unfold problem'. cbn [p_testcases withTestcases].
  unfold collected at 1. rewrite flat_map_app. f_equal.
  - exact (collected_after_insert (fun _ => true) (p_testcases problem)
             (patchIn p__id (p__id problem)
                (withTestcases (p_testcases problem ++ [ctx_newId ctx])
                               (Date_now ctx))
                (problems d))
             d (newTestcase ctx args problem) Unlisted).
  - unfold d'. cbn [flat_map testcases setProblems setTestcases].
    assert (F : find (fun t => String.eqb (t__id t) (ctx_newId ctx)) (testcases d)
                = None).
    { destruct (find _ (testcases d)) as [t|] eqn:F; [|reflexivity].
      apply find_some in F. destruct F as [Hin E]. apply String.eqb_eq in E.
      exfalso. apply Fresh. rewrite <- E. now apply in_map. }
    rewrite (find_snoc_none _ _ _ F). cbn [t__id newTestcase].
    rewrite String.eqb_refl. reflexivity.
Qed.

Lemma created_testcase_is_returned_witness :
  exists before,
    getProblemTestCases (requestBy alice 0 "testcases:3")
      (mkGetProblemTestCasesArgs "PROB_1" None) problemStore
    = (Return before, problemStore)
    /\ getProblemTestCases (requestBy alice 1 "unused")
         (mkGetProblemTestCasesArgs "PROB_1" None)
         (snd (createTestCase (requestBy alice 0 "testcases:3")
                 (mkCreateTestCaseArgs "PROB_1" "7 8" "15" false) problemStore))
       = (Return (before
                  ++ [newTestcase (requestBy alice 0 "testcases:3")
                        (mkCreateTestCaseArgs "PROB_1" "7 8" "15" false)
                        sumProblem])%list,
          snd (createTestCase (requestBy alice 0 "testcases:3")
                 (mkCreateTestCaseArgs "PROB_1" "7 8" "15" false) problemStore)).
Proof.
  apply (created_testcase_is_returned
           (requestBy alice 0 "testcases:3") (requestBy alice 1 "unused")
           (mkCreateTestCaseArgs "PROB_1" "7 8" "15" false)
           problemStore alice sumProblem eq_refl eq_refl (or_introl eq_refl)).
  - simpl. intuition discriminate.
  - simpl. intuition discriminate.
  - reflexivity.
Defined.

(** X21. [updateTestCase] never throws.  Either it answers "Something went
    wrong. Try again later!" and the store is unchanged (no such testcase,
    no owning problem, no authenticated user, or a caller who is neither
    the creator of the problem nor an admin), or the caller has that right
    and the testcase is patched with the fields the request carries: its
    [testcaseId], its [problemId] and every other document are as they
    were. *)
Theorem updateTestCase_outcomes (ctx : Ctx) (args : UpdateTestCaseArgs) (d : DB) :
  updateTestCase ctx args d
  = (Return "Something went wrong. Try again later!", d)
  \/ exists t p user,
       first (fun t => String.eqb (t_testcaseId t) (ut_testcaseId args))
             (testcases d) = Some t
       /\ find (fun p => String.eqb (p__id p) (t_problemId t)) (problems d) = Some p
       /\ ctx_requireAuth ctx d = Return (Some user)
       /\ managesProblem user p
       /\ updateTestCase ctx args d
          = (Return "Successfully updated testcase.",
             setTestcases
               (patchIn t__id (t__id t) (applyTestcaseUpdate args) (testcases d))
               d)
       /\ map (fun x => (t__id x, t_testcaseId x, t_problemId x))
              (patchIn t__id (t__id t) (applyTestcaseUpdate args) (testcases d))
          = map (fun x => (t__id x, t_testcaseId x, t_problemId x)) (testcases d).
Proof.
  cut (forall res,
          updateTestCase ctx args d = res ->
          res = (Return "Something went wrong. Try again later!", d)
          \/ exists t p user,
               first (fun t => String.eqb (t_testcaseId t) (ut_testcaseId args))
                     (testcases d) = Some t
               /\ find (fun p => String.eqb (p__id p) (t_problemId t)) (problems d)
                  = Some p
               /\ ctx_requireAuth ctx d = Return (Some user)
               /\ managesProblem user p
               /\ res = (Return "Successfully updated testcase.",
                         setTestcases
                           (patchIn t__id (t__id t) (applyTestcaseUpdate args)
                                    (testcases d)) d)
               /\ map (fun x => (t__id x, t_testcaseId x, t_problemId x))
                      (patchIn t__id (t__id t) (applyTestcaseUpdate args)
                               (testcases d))
                  = map (fun x => (t__id x, t_testcaseId x, t_problemId x))
                        (testcases d)).
  { intros H. exact (H _ eq_refl). }
  intros res. unfold updateTestCase, tryCatch.
  unfold bind at 1. rewrite read_run.
  destruct (first (fun t => String.eqb (t_testcaseId t) (ut_testcaseId args))
                  (testcases d)) as [t|] eqn:Ft;
    [|intros <-; left; reflexivity].
  unfold bind at 1. unfold getProblemDoc. rewrite read_run.
  destruct (find (fun p => String.eqb (p__id p) (t_problemId t)) (problems d))
    as [p|] eqn:Fp; [|intros <-; left; reflexivity].
  unfold bind at 1. unfold requireAuth.
  destruct (ctx_requireAuth ctx d) as [user | e] eqn:Auth;
    [|intros <-; left; reflexivity].
  unfold bind at 1.
  destruct (problemRights_cases user p d) as [[u [-> [Rights ->]]] | [e ->]];
    [|intros <-; left; reflexivity].
  pose proof Ft as Hin. apply find_some in Hin. destruct Hin as [Hin _].
  unfold bind at 1. rewrite (patchTestcase_present t _ d Hin).
  unfold ret. intros <-. right. exists t, p, u.
  repeat split; try assumption.
  unfold patchIn. rewrite map_map. apply map_ext. intros x.
  destruct (String.eqb (t__id x) (t__id t)); reflexivity.
Qed.

(** X22. [deleteTestCase] never throws.  Either it answers "Something went
    wrong. Try again later!" and the store is unchanged, or the caller is
    the creator of the owning problem or an admin: then the testcase
    document is deleted, the problem's [testcases] array no longer lists
    its identifier, and no document with that identifier is left. *)
Theorem deleteTestCase_outcomes (ctx : Ctx) (testcaseId : string) (d : DB) :
  deleteTestCase ctx testcaseId d
  = (Return (DeleteFailed "Something went wrong. Try again later!"), d)
  \/ exists t p user d',
       first (fun t => String.eqb (t_testcaseId t) testcaseId) (testcases d)
       = Some t
       /\ find (fun p => String.eqb (p__id p) (t_problemId t)) (problems d) = Some p
       /\ ctx_requireAuth ctx d = Return (Some user)
       /\ managesProblem user p
       /\ deleteTestCase ctx testcaseId d = (Return DeleteSucceeded, d')
       /\ testcases d'
          = filter (fun x => negb (String.eqb (t__id x) (t__id t))) (testcases d)
       /\ problems d'
          = patchIn p__id (p__id p)
              (withTestcases (removeId (t__id t) (p_testcases p)) (Date_now ctx))
              (problems d)
       /\ ~ In (t__id t) (removeId (t__id t) (p_testcases p))
       /\ (forall x, In x (testcases d') -> t__id x <> t__id t)
       /\ users d' = users d.
Proof.
  cut (forall res,
          deleteTestCase ctx testcaseId d = res ->
          res = (Return (DeleteFailed "Something went wrong. Try again later!"), d)
          \/ exists t p user d',
               first (fun t => String.eqb (t_testcaseId t) testcaseId)
                     (testcases d) = Some t
               /\ find (fun p => String.eqb (p__id p) (t_problemId t)) (problems d)
                  = Some p
               /\ ctx_requireAuth ctx d = Return (Some user)
               /\ managesProblem user p
               /\ res = (Return DeleteSucceeded, d')
               /\ testcases d'
                  = filter (fun x => negb (String.eqb (t__id x) (t__id t)))
                           (testcases d)
               /\ problems d'
                  = patchIn p__id (p__id p)
                      (withTestcases (removeId (t__id t) (p_testcases p))
                                     (Date_now ctx))
                      (problems d)
               /\ ~ In (t__id t) (removeId (t__id t) (p_testcases p))
               /\ (forall x, In x (testcases d') -> t__id x <> t__id t)
               /\ users d' = users d).
  { intros H. exact (H _ eq_refl). }
  intros res. unfold deleteTestCase, tryCatch.
  unfold bind at 1. rewrite read_run.
  destruct (first (fun t => String.eqb (t_testcaseId t) testcaseId)
                  (testcases d)) as [t|] eqn:Ft;
    [|intros <-; left; reflexivity].
  unfold bind at 1. unfold getProblemDoc. rewrite read_run.
  destruct (find (fun p => String.eqb (p__id p) (t_problemId t)) (problems d))
    as [p|] eqn:Fp; [|intros <-; left; reflexivity].
  unfold bind at 1. unfold requireAuth.
  destruct (ctx_requireAuth ctx d) as [user | e] eqn:Auth;
    [|intros <-; left; reflexivity].
  unfold bind at 1.
  destruct (problemRights_cases user p d) as [[u [-> [Rights ->]]] | [e ->]];
    [|intros <-; left; reflexivity].
  pose proof Ft as Hin. apply find_some in Hin. destruct Hin as [Hin _].
  pose proof Fp as Hp. apply find_some in Hp. destruct Hp as [Hp _].
  unfold bind at 1. rewrite (patchProblem_present p _ d Hp).
  unfold bind at 1.
  match goal with
  | |- context [deleteTestcaseDoc ?i ?s] =>
      rewrite (deleteTestcaseDoc_present t s) by exact Hin
  end.
  unfold ret. intros <-. right. exists t, p, u. eexists.
  split; [first [reflexivity | assumption]|].
  split; [first [reflexivity | assumption]|].
  split; [first [reflexivity | assumption]|].
  split; [exact Rights|]. split; [reflexivity|].
  cbn [testcases problems users setTestcases setProblems].
  split; [reflexivity|]. split; [reflexivity|]. split; [|split; [|reflexivity]].
  - unfold removeId. intros H. apply filter_In in H. destruct H as [_ H].
    rewrite String.eqb_refl in H. discriminate.
  - intros x Hx. apply filter_In in Hx. destruct Hx as [_ Hx].
    apply negb_true_iff in Hx. now apply String.eqb_neq.
Qed.

(** *** Problems *)

(** X25. [listProblems] is a read and never returns testcases: every
    returned problem is a stored problem with its [testcases] emptied, has
    the requested difficulty when one is given, carries one of the
    requested tags when a non-empty list is given, and matches a non-empty
    search string in its title or description after [toLowerCase] has been
    applied to the search string, the title and the description (whatever
    [toLowerCase] maps a string to); with a whole limit [L > 0] at most [L]
    problems are returned. *)
Theorem listProblems_result
  (toLowerCase : string -> string)
  (args : ListProblemsArgs) (d d' : DB) (r : list Problem) :
  listProblems toLowerCase args d = (Return r, d') ->
  d' = d
  /\ Forall (fun q =>
               p_testcases q = []
               /\ exists p,
                    In p (problems d) /\ q = hideTestcases p
                    /\ (forall difficulty,
                          lp_difficulty args = Some difficulty ->
                          p_difficulty p = Some difficulty)
                    /\ (forall tag tags,
                          lp_tags args = Some (tag :: tags) ->
                          exists t ptags,
                            In t (tag :: tags) /\ p_tags p = Some ptags
                            /\ In t ptags)
                    /\ (forall search,
                          lp_search args = Some search -> search <> "" ->
                          matchesSearch toLowerCase (toLowerCase search) p = true))
            r
  /\ (forall limit L,
        lp_limit args = Some limit -> limit == inject_Z L -> (0 < L)%Z ->
        (Z.of_nat (List.length r) <= L)%Z).
Proof.
  unfold listProblems. unfold bind. rewrite read_run. unfold ret.
  set (r1 := match lp_difficulty args with
             | Some difficulty => filter (hasDifficulty difficulty) (problems d)
             | None => problems d
             end).
  set (r2 := match lp_tags args with
             | Some (tag :: tags) => filter (hasSomeTag (tag :: tags)) r1
             | _ => r1
             end).
  set (r3 := match lp_search args with
             | Some EmptyString => r2
             | Some search =>
                 filter (matchesSearch toLowerCase (toLowerCase search)) r2
             | None => r2
             end).
  set (r4 := match lp_limit args with
             | Some limit => if isTruthy limit then slice r3 0 limit else r3
             | None => r3
             end).
  intros E. injection E as <- <-. split; [reflexivity|]. split.
  - apply Forall_forall. intros q Hq. apply in_map_iff in Hq.
    destruct Hq as [p [<- Hp]]. split; [reflexivity|]. exists p.
    assert (H3 : In p r3).
    { unfold r4 in Hp. destruct (lp_limit args) as [limit|]; [|exact Hp].
      destruct (isTruthy limit); [now apply In_slice in Hp | exact Hp]. }
    assert (H2 : In p r2
                 /\ forall search,
                      lp_search args = Some search -> search <> "" ->
                      matchesSearch toLowerCase (toLowerCase search) p = true).
    { unfold r3 in H3. destruct (lp_search args) as [[|c s]|].
      - split; [exact H3|]. intros s E N. injection E as <-. congruence.
      - apply filter_In in H3. destruct H3 as [H3 M]. split; [exact H3|].
        intros s' E _. injection E as <-. exact M.
      - split; [exact H3 | discriminate]. }
    destruct H2 as [H2 Search].
    assert (H1 : In p r1
                 /\ forall tag tags,
                      lp_tags args = Some (tag :: tags) ->
                      exists t ptags,
                        In t (tag :: tags) /\ p_tags p = Some ptags /\ In t ptags).
    { unfold r2 in H2. destruct (lp_tags args) as [[|tag tags]|].
      - split; [exact H2 | discriminate].
      - apply filter_In in H2. destruct H2 as [H2 T]. split; [exact H2|].
        intros tag' tags' E. injection E as <- <-.
        unfold hasSomeTag in T. apply existsb_exists in T.
        destruct T as [t [Ht Hin]].
        destruct (p_tags p) as [ptags|]; [|discriminate].
        exists t, ptags. repeat split; [exact Ht|]. now apply includes_In.
      - split; [exact H2 | discriminate]. }
    destruct H1 as [H1 Tags].
    assert (H0 : In p (problems d)
                 /\ forall difficulty,
                      lp_difficulty args = Some difficulty ->
                      p_difficulty p = Some difficulty).
    { unfold r1 in H1. destruct (lp_difficulty args) as [difficulty|].
      - apply filter_In in H1. destruct H1 as [H1 D]. split; [exact H1|].
        intros difficulty' E. injection E as <-.
        unfold hasDifficulty in D. destruct (p_difficulty p) as [x|];
          [|discriminate].
        destruct x, difficulty; try discriminate; reflexivity.
      - split; [exact H1 | discriminate]. }
    destruct H0 as [H0 Diff].
    repeat split; assumption.
  - intros limit L E Hl HL. rewrite length_map. unfold r4. rewrite E.
    destruct (isTruthy limit) eqn:Z0.
    + assert (Hs : 0 == inject_Z 0) by reflexivity.
      assert (He : limit == inject_Z (0 + L)) by (rewrite Z.add_0_l; exact Hl).
      rewrite (slice_length r3 0 limit 0 L Hs He); lia.
    + exfalso. destruct limit as [q| | |]; cbn [strictEq isTruthy] in *;
        try contradiction; try discriminate.
      apply negb_false_iff, Qeq_bool_iff in Z0. rewrite Z0 in Hl.
      assert (L = 0%Z) by (apply inject_Z_injective; now symmetry).
      lia.
Qed.

Lemma listProblems_result_witness :
  exists r,
    listProblems toLowerCaseAscii
                 (mkListProblemsArgs (Some HARD) None (Some "MULTI") (Some (Fin 5)))
                 (mkDB [alice; bob] [sumProblem; productProblem] []
                       [publicCase; privateCase] [] [] [])
    = (Return r,
       mkDB [alice; bob] [sumProblem; productProblem] []
            [publicCase; privateCase] [] [] [])
    /\ r = [hideTestcases productProblem]
    /\ (Z.of_nat (List.length r) <= 5)%Z.
Proof.
  eexists. split; [vm_compute; reflexivity|]. split; [reflexivity|].
  destruct (listProblems_result
              toLowerCaseAscii
              (mkListProblemsArgs (Some HARD) None (Some "MULTI") (Some (Fin 5)))
              (mkDB [alice; bob] [sumProblem; productProblem] []
                    [publicCase; privateCase] [] [] [])
              (mkDB [alice; bob] [sumProblem; productProblem] []
                    [publicCase; privateCase] [] [] [])
              [hideTestcases productProblem]
              ltac:(vm_compute; reflexivity)) as [_ [_ Hlen]].
  apply (Hlen 5 5%Z eq_refl); [reflexivity | lia].
Defined.

(** X26. [createProblem] never throws.  For an authenticated caller whose
    document is in the store it appends one problem (created by the caller,
    no testcases, no contests, no submissions, difficulty MEDIUM and no
    tags unless given) and appends its identifier to the caller's
    [createdProblems]; without a user it answers "Something went wrong.
    Try again later!" and writes nothing. *)
Theorem createProblem_outcomes (ctx : Ctx) (args : CreateProblemArgs) (d : DB) :
  (forall user,
      ctx_requireAuth ctx d = Return (Some user) ->
      hasUser (u__id user) d = true ->
      createProblem ctx args d
      = (Return ("Problem added successfully!",
                 Some (p_problemId (newProblem ctx args user))),
         setUsers
           (patchIn u__id (u__id user)
              (withCreatedProblems (u_createdProblems user ++ [ctx_newId ctx]))
              (users d))
           (setProblems (problems d ++ [newProblem ctx args user]) d))
      /\ p_testcases (newProblem ctx args user) = []
      /\ p_creatorId (newProblem ctx args user) = u__id user
      /\ p_difficulty (newProblem ctx args user)
         = Some (orElse (cpa_difficulty args) MEDIUM)
      /\ p_tags (newProblem ctx args user) = Some (orElse (cpa_tags args) []))
  /\ ((forall user, ctx_requireAuth ctx d <> Return (Some user)) ->
      createProblem ctx args d
      = (Return ("Something went wrong. Try again later!", None), d)).
Proof.
  split.
  - intros user Auth Has. split; [|repeat split].
    unfold createProblem, tryCatch. unfold bind at 1. unfold requireAuth.
    rewrite Auth. unfold insertProblem, bind, write, ret. cbn [p__id newProblem].
    match goal with
    | |- context [patchUser ?i ?f ?s] =>
        destruct (patchUser_run i f s) as [[_ ->] | [Hu _]]
    end; [reflexivity|].
    rewrite hasUser_ids in Hu. cbn [users setProblems] in Hu.
    rewrite <- hasUser_ids in Hu. congruence.
  - intros NoUser. unfold createProblem, tryCatch. unfold bind at 1.
    unfold requireAuth.
    destruct (ctx_requireAuth ctx d) as [[user|]|e]; try reflexivity.
    exfalso. now apply (NoUser user).
Qed.

Lemma patchProblem_keeps_identity (id : Id) (args : EditProblemArgs)
  (now : number) (l : list Problem) :
  map problemIdentity (patchIn p__id id (applyProblemUpdate args now) l)
  = map problemIdentity l.
Proof.
  unfold patchIn. rewrite map_map. apply map_ext. intros x.
  destruct (String.eqb (p__id x) id); reflexivity.
Qed.

(** X27. [getProblemForEdit] never throws and never writes the identity of
    a problem: whatever the request, the [_id], [problemId], [creatorId],
    [testcases], [contests] and [submissions] of every problem, and every
    user and testcase document, are as they were.  It answers "Problem
    updated successfully" only to the creator of the problem or an admin;
    in every other case the store is unchanged. *)
Theorem getProblemForEdit_keeps_identity
  (ctx : Ctx) (args : EditProblemArgs) (d : DB) :
  exists message d',
    getProblemForEdit ctx args d = (Return message, d')
    /\ map problemIdentity (problems d') = map problemIdentity (problems d)
    /\ users d' = users d
    /\ testcases d' = testcases d
    /\ ((message = "Problem updated successfully"
         /\ exists user p,
              ctx_requireAuth ctx d = Return (Some user)
              /\ first (fun p => String.eqb (p_problemId p) (ep_problemId args))
                       (problems d) = Some p
              /\ managesProblem user p
              /\ problems d'
                 = patchIn p__id (p__id p)
                     (applyProblemUpdate args (Date_now ctx)) (problems d))
        \/ (message = "Something went wrong. Try again later!" /\ d' = d)).
Proof.
  cut (forall res,
          getProblemForEdit ctx args d = res ->
          exists message d',
            res = (Return message, d')
            /\ map problemIdentity (problems d') = map problemIdentity (problems d)
            /\ users d' = users d
            /\ testcases d' = testcases d
            /\ ((message = "Problem updated successfully"
                 /\ exists user p,
                      ctx_requireAuth ctx d = Return (Some user)
                      /\ first (fun p => String.eqb (p_problemId p)
                                                    (ep_problemId args))
                               (problems d) = Some p
                      /\ managesProblem user p
                      /\ problems d'
                         = patchIn p__id (p__id p)
                             (applyProblemUpdate args (Date_now ctx)) (problems d))
                \/ (message = "Something went wrong. Try again later!"
                    /\ d' = d))).
  { intros H. exact (H _ eq_refl). }
  intros res. unfold getProblemForEdit, tryCatch.
  unfold bind at 1. unfold requireAuth.
  destruct (ctx_requireAuth ctx d) as [user | e] eqn:Auth;
    [|intros <-; do 2 eexists; split; [reflexivity|]; repeat split; right;
      split; reflexivity].
  unfold bind at 1. rewrite read_run.
  destruct (first (fun p => String.eqb (p_problemId p) (ep_problemId args))
                  (problems d)) as [p|] eqn:Sel;
    [|intros <-; do 2 eexists; split; [reflexivity|]; repeat split; right;
      split; reflexivity].
  unfold bind at 1.
  destruct (problemRights_cases user p d) as [[u [-> [Rights ->]]] | [e ->]];
    [|intros <-; do 2 eexists; split; [reflexivity|]; repeat split; right;
      split; reflexivity].
  pose proof Sel as Hin. apply find_some in Hin. destruct Hin as [Hin _].
  unfold bind at 1. rewrite (patchProblem_present p _ d Hin).
  unfold ret. intros <-. do 2 eexists. split; [reflexivity|].
  cbn [problems users testcases setProblems].
  split; [apply patchProblem_keeps_identity|].
  split; [reflexivity|]. split; [reflexivity|].
  left. split; [reflexivity|]. exists u, p. repeat split; assumption.
Qed.

Lemma forEach_deleteTestcaseDoc_cases (ids : list Id) (d : DB) :
  exists res d1,
    forEach ids deleteTestcaseDoc d = (res, d1)
    /\ users d1 = users d
    /\ problems d1 = problems d
    /\ contests d1 = contests d
    /\ (forall t, In t (testcases d1) -> In t (testcases d))
    /\ (res = Return tt ->
        forall t, In t (testcases d1) -> ~ In (t__id t) ids).
Proof.
  revert d. induction ids as [|id ids IH]; intros d; cbn [forEach].
  - exists (Return tt), d. repeat split; auto.
  - unfold bind at 1. unfold deleteTestcaseDoc at 1.
    destruct (existsb (fun t => String.eqb (t__id t) id) (testcases d)).
    + destruct (IH (setTestcases
                      (filter (fun t => negb (String.eqb (t__id t) id))
                              (testcases d)) d))
        as (res & d1 & E & Hu & Hp & Hc & Hsub & Hgone).
      exists res, d1. rewrite E. split; [reflexivity|].
      cbn [users problems contests testcases setTestcases] in *.
      repeat split; try assumption.
      * intros t Ht. apply Hsub in Ht. apply filter_In in Ht. tauto.
      * intros R t Ht [Heq | Hin].
        -- apply Hsub in Ht. apply filter_In in Ht. destruct Ht as [_ Ht].
           rewrite Heq, String.eqb_refl in Ht. discriminate.
        -- now apply (Hgone R t Ht).
    + eexists. exists d. split; [reflexivity|].
      repeat split; auto. intros R. discriminate.
Qed.

(** X28. [deleteProblem] never throws.  When it answers "Problem deleted
    successfully!" the caller is the creator of the problem or an admin, no
    problem document with that identifier and no testcase the problem
    listed is left, and contests are untouched.  For an authenticated
    caller without that right, and when no problem carries the
    [problemId], it answers "Something went wrong. Try again later!" and
    the store is unchanged. *)
Theorem deleteProblem_outcomes (ctx : Ctx) (problemId : string) (d : DB) :
  exists message d',
    deleteProblem ctx problemId d = (Return message, d')
    /\ (message = "Problem deleted successfully!" ->
        exists user p,
          ctx_requireAuth ctx d = Return (Some user)
          /\ first (fun p => String.eqb (p_problemId p) problemId) (problems d)
             = Some p
          /\ managesProblem user p
          /\ (forall x, In x (problems d') -> p__id x <> p__id p)
          /\ (forall t, In t (testcases d') -> ~ In (t__id t) (p_testcases p))
          /\ contests d' = contests d)
    /\ (first (fun p => String.eqb (p_problemId p) problemId) (problems d) = None ->
        message = "Something went wrong. Try again later!" /\ d' = d)
    /\ (forall user p,
          ctx_requireAuth ctx d = Return (Some user) ->
          first (fun p => String.eqb (p_problemId p) problemId) (problems d)
          = Some p ->
          ~ managesProblem user p ->
          message = "Something went wrong. Try again later!" /\ d' = d).
Proof.
  cut (forall res,
          deleteProblem ctx problemId d = res ->
          exists message d',
            res = (Return message, d')
            /\ (message = "Problem deleted successfully!" ->
                exists user p,
                  ctx_requireAuth ctx d = Return (Some user)
                  /\ first (fun p => String.eqb (p_problemId p) problemId)
                           (problems d) = Some p
                  /\ managesProblem user p
                  /\ (forall x, In x (problems d') -> p__id x <> p__id p)
                  /\ (forall t, In t (testcases d') ->
                                ~ In (t__id t) (p_testcases p))
                  /\ contests d' = contests d)
            /\ (first (fun p => String.eqb (p_problemId p) problemId) (problems d)
                = None ->
                message = "Something went wrong. Try again later!" /\ d' = d)
            /\ (forall user p,
                  ctx_requireAuth ctx d = Return (Some user) ->
                  first (fun p => String.eqb (p_problemId p) problemId)
                        (problems d) = Some p ->
                  ~ managesProblem user p ->
                  message = "Something went wrong. Try again later!" /\ d' = d)).
  { intros H. exact (H _ eq_refl). }
  intros res. unfold deleteProblem, tryCatch.
  unfold bind at 1. unfold requireAuth.
  destruct (ctx_requireAuth ctx d) as [user | e] eqn:Auth.
  2:{ intros <-. do 2 eexists. split; [reflexivity|].
      split; [discriminate|]. split; [auto|]. intros u p A. discriminate. }
  unfold bind at 1. rewrite read_run.
  destruct (first (fun p => String.eqb (p_problemId p) problemId) (problems d))
    as [p|] eqn:Sel.
  2:{ intros <-. do 2 eexists. split; [reflexivity|].
      split; [discriminate|]. split; [auto|]. intros u p A S. discriminate. }
  unfold bind at 1.
  destruct (problemRights_cases user p d) as [[u [-> [Rights ->]]] | [e E]].
  2:{ rewrite E. intros <-. do 2 eexists. split; [reflexivity|].
      split; [discriminate|]. split; [discriminate|]. auto. }
  unfold bind at 1.
  destruct (forEach_deleteTestcaseDoc_cases (p_testcases p) d)
    as (res1 & d1 & -> & Hu & Hp & Hc & Hsub & Hgone).
  assert (Stays : forall x message,
             x = (Return message, d1) ->
             message = "Something went wrong. Try again later!" ->
             exists message d',
               x = (Return message, d')
               /\ (message = "Problem deleted successfully!" ->
                   exists user p0,
                     Return (Some u) = Return (Some user)
                     /\ Some p = Some p0
                     /\ managesProblem user p0
                     /\ (forall x, In x (problems d') -> p__id x <> p__id p0)
                     /\ (forall t, In t (testcases d') ->
                                   ~ In (t__id t) (p_testcases p0))
                     /\ contests d' = contests d)
               /\ (Some p = None ->
                   message = "Something went wrong. Try again later!" /\ d' = d)
               /\ (forall user p0,
                     Return (Some u) = Return (Some user) ->
                     Some p = Some p0 ->
                     ~ managesProblem user p0 ->
                     message = "Something went wrong. Try again later!"
                     /\ d' = d)).
  { intros x message -> ->. do 2 eexists. split; [reflexivity|].
    split; [discriminate|]. split; [discriminate|].
    intros u0 p0 A S N. injection A as <-. injection S as <-. contradiction. }
  destruct res1 as [[]|e]; [|intros <-; eapply Stays; reflexivity].
  unfold bind at 1. unfold getUserDoc. rewrite read_run. unfold bind at 1.
  assert (Patched : exists d2,
             (match find (fun x => String.eqb (u__id x) (p_creatorId p)) (users d1)
              with
              | Some creator =>
                  patchUser (u__id creator)
                    (withCreatedProblems
                       (removeId (p__id p) (u_createdProblems creator)))
              | None => ret tt
              end) d1 = (Return tt, d2)
             /\ problems d2 = problems d1 /\ testcases d2 = testcases d1
             /\ contests d2 = contests d1).
  { destruct (find (fun x => String.eqb (u__id x) (p_creatorId p)) (users d1))
      as [creator|] eqn:F.
    - destruct (patchUser_run (u__id creator)
                  (withCreatedProblems
                     (removeId (p__id p) (u_createdProblems creator))) d1)
        as [[_ ->] | [Hn _]].
      + eexists. split; [reflexivity|]. repeat split.
      + rewrite (find_hasUser _ _ _ F) in Hn. discriminate.
    - exists d1. repeat split. }
  destruct Patched as (d2 & -> & Hp2 & Ht2 & Hc2).
  unfold bind at 1. unfold deleteProblemDoc.
  assert (Ex : existsb (fun x => String.eqb (p__id x) (p__id p)) (problems d2)
               = true).
  { apply existsb_exists. exists p. split; [|apply String.eqb_refl].
    rewrite Hp2, Hp. apply find_some in Sel. tauto. }
  rewrite Ex. unfold ret. intros <-. do 2 eexists. split; [reflexivity|].
  cbn [problems testcases contests setProblems].
  split; [|split; [discriminate|]].
  - intros _. exists u, p. split; [reflexivity|]. split; [reflexivity|].
    split; [exact Rights|]. split; [|split].
    + intros x Hx. apply filter_In in Hx. destruct Hx as [_ Hx].
      apply negb_true_iff in Hx. now apply String.eqb_neq.
    + intros t Ht. rewrite Ht2 in Ht. now apply Hgone.
    + now rewrite Hc2, Hc.
  - intros u0 p0 A S N. injection A as <-. injection S as <-. contradiction.
Qed.

Lemma insertTestcases_run (ctx : Ctx) (draws : nat -> Id * string)
  (problem : Problem) (tcs : list NewTestcase) (i : nat) (d : DB) :
  insertTestcases ctx draws problem tcs i d
  = (Return (map t__id (bulkDocs ctx draws problem tcs i)),
     setTestcases (testcases d ++ bulkDocs ctx draws problem tcs i) d).
Proof.
  revert i d. induction tcs as [|tc tcs IH]; intros i d;
    cbn [insertTestcases bulkDocs map].
  - unfold ret. rewrite app_nil_r. destruct d; reflexivity.
  - unfold bind at 1. unfold insertTestcase at 1. unfold bind at 1.
    unfold write, ret at 1. unfold bind at 1. rewrite IH.
    unfold ret. cbn [t__id testcases setTestcases].
    rewrite <- app_assoc. reflexivity.
Qed.

Lemma bulkDocs_shape (ctx : Ctx) (draws : nat -> Id * string)
  (problem : Problem) (tcs : list NewTestcase) (i : nat) :
  map (fun t => (t_input t, t_output t, t_isPublic t))
      (bulkDocs ctx draws problem tcs i)
  = map (fun tc => (nt_input tc, nt_output tc, nt_isPublic tc)) tcs
  /\ map t__id (bulkDocs ctx draws problem tcs i)
     = map (fun k => fst (draws k)) (seq i (List.length tcs))
  /\ Forall (fun t => t_problemId t = p__id problem)
            (bulkDocs ctx draws problem tcs i).
Proof.
  revert i. induction tcs as [|tc tcs IH]; intros i; cbn [bulkDocs map seq List.length].
  - repeat split. constructor.
  - destruct (IH (S i)) as (H1 & H2 & H3). rewrite H1, H2.
    repeat split. now constructor.
Qed.

(** X29. [bulkCreateTestCases] never throws.  For the creator of the
    problem or an admin it appends one testcase document per entry of the
    request, in order and with the entry's input, output and visibility,
    all owned by the problem, and appends their identifiers in the same
    order to the problem's [testcases] array; for any other authenticated
    caller it answers failure and the store is unchanged. *)
Theorem bulkCreateTestCases_appends_in_order
  (ctx : Ctx) (draws : nat -> Id * string) (args : BulkCreateTestCasesArgs)
  (d : DB) (user : User) (problem : Problem) :
  ctx_requireAuth ctx d = Return (Some user) ->
  first (fun p => String.eqb (p_problemId p) (bc_problemId args)) (problems d)
  = Some problem ->
  (managesProblem user problem ->
   exists docs,
     bulkCreateTestCases ctx draws args d
     = (Return ("Succesfully created "
                  ++ showInteger (Z.of_nat (List.length (bc_testcases args)))
                  ++ " tescases", true),
        setProblems
          (patchIn p__id (p__id problem)
             (withTestcases (p_testcases problem ++ map t__id docs) (Date_now ctx))
             (problems d))
          (setTestcases (testcases d ++ docs) d))
     /\ map (fun t => (t_input t, t_output t, t_isPublic t)) docs
        = map (fun tc => (nt_input tc, nt_output tc, nt_isPublic tc))
              (bc_testcases args)
     /\ map t__id docs
        = map (fun k => fst (draws k)) (seq 0 (List.length (bc_testcases args)))
     /\ Forall (fun t => t_problemId t = p__id problem) docs)
  /\ (~ managesProblem user problem ->
      bulkCreateTestCases ctx draws args d
      = (Return ("Something went wrong. Try again later!", false), d)).
Proof.
  intros Auth Sel.
  pose proof Sel as Hin. apply find_some in Hin. destruct Hin as [Hin _].
  split; intros Rights; unfold bulkCreateTestCases, tryCatch; unfold bind at 1;
    rewrite (canModifyProblem_steps ctx _ d (Some user) problem Auth Sel);
    unfold bind at 1.
  - rewrite (problemRights_granted user problem d Rights).
    unfold ret at 1. cbn [snd]. unfold bind at 1.
    rewrite insertTestcases_run. unfold bind at 1.
    rewrite patchProblem_present by exact Hin.
    exists (bulkDocs ctx draws problem (bc_testcases args) 0).
    destruct (bulkDocs_shape ctx draws problem (bc_testcases args) 0)
      as (H1 & H2 & H3).
    split; [|repeat split; assumption].
    unfold ret. rewrite length_map.
    assert (L : List.length (bulkDocs ctx draws problem (bc_testcases args) 0)
                = List.length (bc_testcases args)).
    { rewrite <- (length_map t__id), H2, length_map. apply length_seq. }
    rewrite L. reflexivity.
  - now rewrite (problemRights_denied user problem d Rights).
Qed.

Lemma bulkCreateTestCases_appends_in_order_witness :
  (exists docs,
     bulkCreateTestCases (requestBy alice 0 "unused")
       (fun k => ("testcases:" ++ showInteger (Z.of_nat (k + 3)), "0.abcdefghijk"))
       (mkBulkCreateTestCasesArgs "PROB_1"
          [mkNewTestcase "7 8" "15" false; mkNewTestcase "1 1" "2" true])
       problemStore
     = (Return ("Succesfully created 2 tescases", true),
        setProblems
          (patchIn p__id (p__id sumProblem)
             (withTestcases (p_testcases sumProblem ++ map t__id docs) 0)
             (problems problemStore))
          (setTestcases (testcases problemStore ++ docs) problemStore))
     /\ map (fun t => (t_input t, t_output t, t_isPublic t)) docs
        = [("7 8", "15", false); ("1 1", "2", true)]
     /\ map t__id docs = ["testcases:3"; "testcases:4"]
     /\ Forall (fun t => t_problemId t = p__id sumProblem) docs)
  /\ bulkCreateTestCases (requestBy bob 0 "unused")
       (fun k => ("testcases:" ++ showInteger (Z.of_nat (k + 3)), "0.abcdefghijk"))
       (mkBulkCreateTestCasesArgs "PROB_1"
          [mkNewTestcase "7 8" "15" false; mkNewTestcase "1 1" "2" true])
       problemStore
     = (Return ("Something went wrong. Try again later!", false), problemStore).
Proof.
  split.
  - exact (proj1 (bulkCreateTestCases_appends_in_order
                    (requestBy alice 0 "unused")
                    (fun k => ("testcases:" ++ showInteger (Z.of_nat (k + 3)),
                               "0.abcdefghijk"))
                    (mkBulkCreateTestCasesArgs "PROB_1"
                       [mkNewTestcase "7 8" "15" false;
                        mkNewTestcase "1 1" "2" true])
                    problemStore alice sumProblem eq_refl eq_refl)
                 (or_introl eq_refl)).
  - apply (proj2 (bulkCreateTestCases_appends_in_order
                    (requestBy bob 0 "unused")
                    (fun k => ("testcases:" ++ showInteger (Z.of_nat (k + 3)),
                               "0.abcdefghijk"))
                    (mkBulkCreateTestCasesArgs "PROB_1"
                       [mkNewTestcase "7 8" "15" false;
                        mkNewTestcase "1 1" "2" true])
                    problemStore bob sumProblem eq_refl eq_refl)).
    intros [H | H]; discriminate.
Defined.

Example bulkCreateTestCases_by_creator :
  let d' :=
    snd (bulkCreateTestCases (requestBy alice 0 "unused")
           (fun k => ("testcases:" ++ showInteger (Z.of_nat (k + 3)),
                      "0.abcdefghijk"))
           (mkBulkCreateTestCasesArgs "PROB_1"
              [mkNewTestcase "7 8" "15" false; mkNewTestcase "1 1" "2" true])
           problemStore) in
  map p_testcases (problems d')
  = [["testcases:1"; "testcases:2"; "testcases:3"; "testcases:4"]]
  /\ map t__id (testcases d')
     = ["testcases:1"; "testcases:2"; "testcases:3"; "testcases:4"].
Proof. vm_compute. split; reflexivity. Qed.

(** *** Witnesses for the properties proved with the claims *)

Lemma capacity_preserved_for_whole_capacities_witness :
  capacityInvariant
    (contests
       (runMutation (requestBy bob 3 "unused") (JoinContest "contest_0_iiiiiii")
          (storeWith [alice; bob] [weekly ["users:1"]] []))).
Proof.
  apply capacity_preserved_for_whole_capacities.
  - exact I.
  - simpl. intros [H | []]. discriminate.
  - split.
    + repeat constructor. simpl. tauto.
    + constructor; [|constructor]. split.
      * unfold withinCapacity. vm_compute. reflexivity.
      * exists 5%Z. vm_compute. reflexivity.
Defined.

Lemma phase_filters_partition_off_end_instant_witness :
  selectedBy F_ongoing 5 (storeWith [alice; bob] [weekly []] []) (weekly [])
  <-> contestStatus 5 (weekly []) = filterName F_ongoing.
Proof.
  apply phase_filters_partition_off_end_instant.
  - now left.
  - reflexivity.
  - vm_compute. reflexivity.
  - vm_compute. discriminate.
  - simpl. tauto.
Defined.

Lemma getProblem_public_only_witness :
  exists r,
    getProblem "PROB_1" problemStore = (Return r, problemStore)
    /\ Forall (fun t => t_isPublic t = true) (pv_testcases r).
Proof.
  eexists. split.
  - vm_compute. reflexivity.
  - apply (getProblem_public_only "PROB_1" problemStore problemStore).
    vm_compute. reflexivity.
Defined.

Lemma getProblemTestCases_private_needs_privilege_witness :
  exists user problem,
    ctx_requireAuth (requestBy alice 0 "unused") problemStore = Return (Some user)
    /\ first (fun p => String.eqb (p_problemId p) "PROB_1") (problems problemStore)
       = Some problem
    /\ (p_creatorId problem = u__id user \/ u_role user = ADMIN).
Proof.
  apply (getProblemTestCases_private_needs_privilege
           (requestBy alice 0 "unused")
           (mkGetProblemTestCasesArgs "PROB_1" None)
           problemStore problemStore [publicCase; privateCase] privateCase).
  - discriminate.
  - vm_compute. reflexivity.
  - simpl. tauto.
  - reflexivity.
Defined.

(** X30. A problem created by [createProblem] is listed by
    [getUserProblems] for its creator, after the problems listed before:
    both handlers identify the creator by document identifier.  A request
    without a user gets the empty answer. *)
Theorem created_problem_is_listed_for_its_creator
  (ctx ctx' : Ctx) (args : CreateProblemArgs) (d : DB) (user user' : User) :
  ctx_requireAuth ctx d = Return (Some user) ->
  hasUser (u__id user) d = true ->
  ctx_requireAuth ctx' (snd (createProblem ctx args d)) = Return (Some user') ->
  u__id user' = u__id user ->
  exists before,
    getUserProblems ctx d = (Return (ProblemsOf before), d)
    /\ getUserProblems ctx' (snd (createProblem ctx args d))
       = (Return (ProblemsOf (before ++ [newProblem ctx args user])%list),
          snd (createProblem ctx args d))
    /\ (forall ctx0 d0,
          ctx_requireAuth ctx0 d0 = Return None ->
          getUserProblems ctx0 d0 = (Return NoUser, d0)).
Proof.
  intros Auth Has Auth' Hid.
  exists (filter (fun p => String.eqb (p_creatorId p) (u__id user)) (problems d)).
  split; [|split].
  - unfold getUserProblems. unfold bind at 1. unfold requireAuth. rewrite Auth.
    reflexivity.
  - assert (Create :
              createProblem ctx args d
              = (Return ("Problem added successfully!",
                         Some (p_problemId (newProblem ctx args user))),
                 setUsers
                   (patchIn u__id (u__id user)
                      (withCreatedProblems
                         (u_createdProblems user ++ [ctx_newId ctx]))
                      (users d))
                   (setProblems (problems d ++ [newProblem ctx args user]) d))).
    { unfold createProblem, tryCatch. unfold bind at 1. unfold requireAuth.
      rewrite Auth. unfold insertProblem, bind, write, ret.
      cbn [p__id newProblem].
      match goal with
      | |- context [patchUser ?i ?f ?s] =>
          destruct (patchUser_run i f s) as [[_ ->] | [Hu _]]
      end; [reflexivity|].
      rewrite hasUser_ids in Hu. cbn [users setProblems] in Hu.
      rewrite <- hasUser_ids in Hu. congruence. }
    rewrite Create in *. cbn [snd] in *.
    unfold getUserProblems. unfold bind at 1. unfold requireAuth. rewrite Auth'.
    unfold bind, read, ret. cbn [problems setUsers setProblems].
    rewrite filter_app, Hid. cbn [filter p_creatorId newProblem].
    now rewrite String.eqb_refl.
  - intros ctx0 d0 A. unfold getUserProblems. unfold bind at 1.
    unfold requireAuth. now rewrite A.
Qed.

Lemma created_problem_is_listed_for_its_creator_witness :
  exists before,
    getUserProblems (requestBy alice 0 "problems:3") problemStore
    = (Return (ProblemsOf before), problemStore)
    /\ getUserProblems (requestBy alice 1 "unused")
         (snd (createProblem (requestBy alice 0 "problems:3")
                 (mkCreateProblemArgs "Max" "Largest of two numbers" 1 256
                                      None None None None)
                 problemStore))
       = (Return
            (ProblemsOf
               (before
                ++ [newProblem (requestBy alice 0 "problems:3")
                      (mkCreateProblemArgs "Max" "Largest of two numbers" 1 256
                                           None None None None) alice])%list),
          snd (createProblem (requestBy alice 0 "problems:3")
                 (mkCreateProblemArgs "Max" "Largest of two numbers" 1 256
                                      None None None None)
                 problemStore)).
Proof.
  destruct (created_problem_is_listed_for_its_creator
              (requestBy alice 0 "problems:3") (requestBy alice 1 "unused")
              (mkCreateProblemArgs "Max" "Largest of two numbers" 1 256
                                   None None None None)
              problemStore alice alice eq_refl eq_refl eq_refl eq_refl)
    as (before & B & A & _).
  exists before. split; assumption.
Defined.
